(** * Supplement Research: the OAuth PKCE helpers, the research-task route
      and the polling controller, embedded and verified.

    Source files embedded here:
    - [lib/oauth.ts]: [generateCodeVerifier], [generateCodeChallenge],
      [base64URLEncode], [isOAuthConfigured], [saveFormValuesBeforeOAuth],
      [restoreFormValuesAfterOAuth], [initiateOAuthFlow];
    - [app/api/supplement-research/route.ts]: [POST];
    - [app/components/ResearchResults.tsx]: the progress percentage;
    - [app/components/SupplementResearchForm.tsx]: [handleSubmit];
    - [app/page.tsx]: [pollStatus], [handleTaskCreated], [handleReset],
      [handleCancel].

    Conventions.  A JavaScript string is a Rocq [string] holding its UTF-8
    bytes, so [TextEncoder.encode] is [list_byte_of_string].  A value that
    may be [undefined] or [null] is an [option].  An [async] function is cut
    at its [await]s: one Rocq function per synchronous stretch, the awaited
    outcome being an argument of the stretch that follows it. *)

From Stdlib Require Import ZArith NArith Lia List Bool Ascii String.
From Stdlib Require Import Strings.Byte DecimalString.
From Stdlib Require Import PrimFloat FloatOps SpecFloat Uint63.
From stdpp Require Import base option list gmap strings.

Import ListNotations.
Local Open Scope string_scope.

(** ** Platform: truthiness and Web Storage *)

(** JavaScript truthiness of a [string | null | undefined]. *)
Definition truthy (o : option string) : bool :=
  match o with
  | Some s => negb (String.eqb s "")
  | None => false
  end.

(** What a call into the platform comes to, where the platform is
    modelled in part: its result, the TypeError it throws, or an input
    about which this model says nothing. *)
Inductive Platform (A : Type) : Type :=
| Gives (a : A)
| Throws
| Unmodelled.
Arguments Gives {A} a.
Arguments Throws {A}.
Arguments Unmodelled {A}.

(** A character of [s] satisfies [p]; every character does. *)
Fixpoint some_char (p : ascii -> bool) (s : string) : bool :=
  match s with
  | EmptyString => false
  | String c rest => p c || some_char p rest
  end.

Fixpoint every_char (p : ascii -> bool) (s : string) : bool :=
  match s with
  | EmptyString => true
  | String c rest => p c && every_char p rest
  end.

(** [s] without the characters satisfying [p] at its start, at its end. *)
Fixpoint drop_start (p : ascii -> bool) (s : string) : string :=
  match s with
  | EmptyString => EmptyString
  | String c rest => if p c then drop_start p rest else s
  end.

Fixpoint drop_end (p : ascii -> bool) (s : string) : string :=
  match s with
  | EmptyString => EmptyString
  | String c rest =>
      match drop_end p rest with
      | EmptyString => if p c then EmptyString else String c EmptyString
      | kept => String c kept
      end
  end.

(** [localStorage] and [sessionStorage]: string keys to string values. *)
Abbreviation Storage := (gmap string string).

Module WebStorage.
Definition getItem (k : string) (st : Storage) : option string := st !! k.
Definition setItem (k v : string) (st : Storage) : Storage := <[k := v]> st.
Definition removeItem (k : string) (st : Storage) : Storage := delete k st.
End WebStorage.

(** ** lib/oauth.ts: form values kept across the redirect *)

Module OAuthForm.
Import WebStorage.

(** [interface OAuthFormValues]: both fields optional. *)
Record OAuthFormValues : Type := mkFormValues {
  supplementName : option string;
  researchFocus : option string
}.

Definition OAUTH_FORM_VALUES_KEY : string := "oauth_form_values".

Section WithJSON.
(** The platform's [JSON.stringify] and [JSON.parse] at the type the
    code uses them.  [JSON_parse] gives [None] when it throws, and
    [Some None] when the text denotes [null]. *)
Variable JSON_stringify : OAuthFormValues -> string.
Variable JSON_parse : string -> option (option OAuthFormValues).

Definition saveFormValuesBeforeOAuth (values : OAuthFormValues)
    (localStorage : Storage) : Storage :=
  setItem OAUTH_FORM_VALUES_KEY (JSON_stringify values) localStorage.

(** Returns the result ([None] is [null]) and the storage it leaves. *)
Definition restoreFormValuesAfterOAuth (localStorage : Storage)
    : option OAuthFormValues * Storage :=
  let storedValues := getItem OAUTH_FORM_VALUES_KEY localStorage in
  match storedValues with
  | Some text =>
      if truthy storedValues then
        let localStorage' := removeItem OAUTH_FORM_VALUES_KEY localStorage in
        match JSON_parse text with
        | Some v => (v, localStorage')
        | None => (None, localStorage')
        end
      else (None, localStorage)
  | None => (None, localStorage)
  end.
End WithJSON.
End OAuthForm.

(** ** lib/oauth.ts: PKCE code verifier and code challenge *)

Module PKCE.

(** *** Platform: [btoa] (RFC 4648 base64 with padding) *)

Definition b64_alphabet : string :=
  "ABCDEFGHIJKLMNOPQRSTUVWXYZabcdefghijklmnopqrstuvwxyz0123456789+/".

Definition b64url_alphabet : string :=
  "ABCDEFGHIJKLMNOPQRSTUVWXYZabcdefghijklmnopqrstuvwxyz0123456789-_".

Definition sextet_char (alphabet : string) (i : N) : ascii :=
  match String.get (N.to_nat i) alphabet with
  | Some c => c
  | None => "A"%char
  end.

(** The four 6-bit groups of three octets [a b c]. *)
Definition sextet1 (a : N) : N := N.shiftr a 2.
Definition sextet2 (a b : N) : N :=
  N.lor (N.shiftl (N.land a 3) 4) (N.shiftr b 4).
Definition sextet3 (b c : N) : N :=
  N.lor (N.shiftl (N.land b 15) 2) (N.shiftr c 6).
Definition sextet4 (c : N) : N := N.land c 63.

(** [btoa] on a binary string (every character is one octet). *)
Fixpoint btoa (s : string) : string :=
  match s with
  | EmptyString => EmptyString
  | String a EmptyString =>
      let a := N_of_ascii a in
      String (sextet_char b64_alphabet (sextet1 a))
        (String (sextet_char b64_alphabet (sextet2 a 0)) "==")
  | String a (String b EmptyString) =>
      let a := N_of_ascii a in
      let b := N_of_ascii b in
      String (sextet_char b64_alphabet (sextet1 a))
        (String (sextet_char b64_alphabet (sextet2 a b))
           (String (sextet_char b64_alphabet (sextet3 b 0)) "="))
  | String a (String b (String c rest)) =>
      let a := N_of_ascii a in
      let b := N_of_ascii b in
      let c := N_of_ascii c in
      String (sextet_char b64_alphabet (sextet1 a))
        (String (sextet_char b64_alphabet (sextet2 a b))
           (String (sextet_char b64_alphabet (sextet3 b c))
              (String (sextet_char b64_alphabet (sextet4 c)) (btoa rest))))
  end.

(** [String.fromCharCode(...buffer)]: one character per octet. *)
Definition fromCharCode (buffer : list byte) : string :=
  string_of_list_byte buffer.

(** [s.replace(/c/g, by)] for a one-character pattern. *)
Fixpoint replaceAll (c : ascii) (by_ : string) (s : string) : string :=
  match s with
  | EmptyString => EmptyString
  | String x rest =>
      if Ascii.eqb x c then String.append by_ (replaceAll c by_ rest)
      else String x (replaceAll c by_ rest)
  end.

(** [base64URLEncode] of lib/oauth.ts. *)
Definition base64URLEncode (buffer : list byte) : string :=
  let base64 := btoa (fromCharCode buffer) in
  replaceAll "="%char ""
    (replaceAll "/"%char "_"
       (replaceAll "+"%char "-" base64)).

(** The three replacements of [base64URLEncode] alone, in its order. *)
Definition to_url (s : string) : string :=
  replaceAll "="%char ""
    (replaceAll "/"%char "_"
       (replaceAll "+"%char "-" s)).

(** The encoding the specification names, written directly: the URL-safe
    alphabet of RFC 4648 section 5, no padding characters.  Used only to
    compare [base64URLEncode] with. *)
Fixpoint base64url_nopad_spec (buffer : list byte) : string :=
  match buffer with
  | [] => EmptyString
  | [a] =>
      let a := Byte.to_N a in
      String (sextet_char b64url_alphabet (sextet1 a))
        (String (sextet_char b64url_alphabet (sextet2 a 0)) EmptyString)
  | [a; b] =>
      let a := Byte.to_N a in
      let b := Byte.to_N b in
      String (sextet_char b64url_alphabet (sextet1 a))
        (String (sextet_char b64url_alphabet (sextet2 a b))
           (String (sextet_char b64url_alphabet (sextet3 b 0)) EmptyString))
  | a :: b :: c :: rest =>
      let a := Byte.to_N a in
      let b := Byte.to_N b in
      let c := Byte.to_N c in
      String (sextet_char b64url_alphabet (sextet1 a))
        (String (sextet_char b64url_alphabet (sextet2 a b))
           (String (sextet_char b64url_alphabet (sextet3 b c))
              (String (sextet_char b64url_alphabet (sextet4 c))
                 (base64url_nopad_spec rest))))
  end.

(** *** Platform: [crypto.subtle.digest('SHA-256', data)] (FIPS 180-4) *)

Module SHA256.
Local Open Scope Z_scope.

Definition w32 (x : Z) : Z := Z.land x 4294967295.
Definition add32 (x y : Z) : Z := w32 (x + y).
Definition rotr (n x : Z) : Z :=
  Z.lor (Z.shiftr x n) (w32 (Z.shiftl x (32 - n))).
Definition not32 (x : Z) : Z := Z.lxor x 4294967295.

Definition Ch (x y z : Z) : Z :=
  Z.lxor (Z.land x y) (Z.land (not32 x) z).
Definition Maj (x y z : Z) : Z :=
  Z.lxor (Z.lxor (Z.land x y) (Z.land x z)) (Z.land y z).
Definition Sigma0 (x : Z) : Z :=
  Z.lxor (Z.lxor (rotr 2 x) (rotr 13 x)) (rotr 22 x).
Definition Sigma1 (x : Z) : Z :=
  Z.lxor (Z.lxor (rotr 6 x) (rotr 11 x)) (rotr 25 x).
Definition sigma0 (x : Z) : Z :=
  Z.lxor (Z.lxor (rotr 7 x) (rotr 18 x)) (Z.shiftr x 3).
Definition sigma1 (x : Z) : Z :=
  Z.lxor (Z.lxor (rotr 17 x) (rotr 19 x)) (Z.shiftr x 10).

(** The prime numbers below [bound], in increasing order. *)
Definition is_prime (n : nat) : bool :=
  (1 <? n)%nat
  && forallb (fun d => negb (Nat.eqb (n mod d) 0)) (seq 2 (n - 2)).

Definition primes_below (bound : nat) : list Z :=
  map Z.of_nat (filter is_prime (seq 0 bound)).

(** The largest [r] below [2 ^ bits] whose cube is at most [n]. *)
Fixpoint cube_root (bits : nat) (n : Z) (r : Z) : Z :=
  match bits with
  | O => r
  | S bits =>
      let r' := r + 2 ^ Z.of_nat bits in
      cube_root bits n (if r' * r' * r' <=? n then r' else r)
  end.

(** The round constants: the first 32 bits of the fractional parts of the
    cube roots of the first 64 primes.  The initial hash value: the same
    of the square roots of the first 8 primes. *)
Definition K : list Z :=
  map (fun p => w32 (cube_root 36 (p * 2 ^ 96) 0)) (firstn 64 (primes_below 312)).

Definition H0 : list Z :=
  map (fun p => w32 (Z.sqrt (p * 2 ^ 64))) (firstn 8 (primes_below 20)).

(** Padding: a 1 bit, zeros up to 56 modulo 64 octets, the bit length
    as a 64-bit big-endian integer. *)
Definition be_bytes (n : nat) (x : Z) : list Z :=
  map (fun i => Z.land (Z.shiftr x (8 * Z.of_nat i)) 255) (rev (seq 0 n)).

Definition pad (msg : list Z) : list Z :=
  let len := Z.of_nat (length msg) in
  let zeros := Z.to_nat ((55 - len) mod 64) in
  msg ++ [128] ++ repeat 0 zeros ++ be_bytes 8 (8 * len).

Fixpoint be_words (fuel : nat) (bs : list Z) : list Z :=
  match fuel, bs with
  | S fuel, a :: b :: c :: d :: rest =>
      (Z.shiftl a 24 + Z.shiftl b 16 + Z.shiftl c 8 + d)
        :: be_words fuel rest
  | _, _ => []
  end.

(** Message schedule, newest word first: [rw] holds W(t-1), W(t-2), ... *)
Fixpoint schedule (n : nat) (rw : list Z) : list Z :=
  match n with
  | O => rw
  | S n =>
      let w := add32 (add32 (sigma1 (nth 1 rw 0)) (nth 6 rw 0))
                     (add32 (sigma0 (nth 14 rw 0)) (nth 15 rw 0)) in
      schedule n (w :: rw)
  end.

Definition round (st : list Z) (kw : Z * Z) : list Z :=
  match st with
  | [a; b; c; d; e; f; g; h] =>
      let T1 := add32 (add32 (add32 h (Sigma1 e)) (add32 (Ch e f g) (fst kw)))
                      (snd kw) in
      let T2 := add32 (Sigma0 a) (Maj a b c) in
      [add32 T1 T2; a; b; c; add32 d T1; e; f; g]
  | _ => st
  end.

Definition compress (h : list Z) (block : list Z) : list Z :=
  let w := rev (schedule 48 (rev block)) in
  let st := fold_left round (combine K w) h in
  map (fun p => add32 (fst p) (snd p)) (combine h st).

Fixpoint blocks (fuel : nat) (ws : list Z) : list (list Z) :=
  match fuel, ws with
  | S fuel, _ :: _ => firstn 16 ws :: blocks fuel (skipn 16 ws)
  | _, _ => []
  end.

Definition byte_of_Z (z : Z) : byte :=
  match Byte.of_N (Z.to_N (Z.land z 255)) with
  | Some b => b
  | None => x00
  end.

Definition digest (data : list byte) : list byte :=
  let bytes := pad (map (fun b => Z.of_N (Byte.to_N b)) data) in
  let ws := be_words (length bytes) bytes in
  let h := fold_left compress (blocks (length ws) ws) H0 in
  map byte_of_Z (concat (map (be_bytes 4) h)).
End SHA256.

(** *** Platform: [crypto.getRandomValues] *)

(** The generator is the sequence of octets it will deliver; filling an
    array of [n] octets consumes the first [n] of them. *)
Definition Entropy : Type := list byte.

Definition getRandomValues (n : nat) (rng : Entropy) : list byte * Entropy :=
  (firstn n (rng ++ repeat x00 n), skipn n rng).

(** *** The exported functions *)

Definition generateCodeVerifier (rng : Entropy) : string * Entropy :=
  let '(array, rng') := getRandomValues 32 rng in
  (base64URLEncode array, rng').

Definition generateCodeChallenge (verifier : string) : string :=
  let data := list_byte_of_string verifier in
  let hash := SHA256.digest data in
  base64URLEncode hash.

End PKCE.

(** ** lib/oauth.ts: starting the authorization request *)

Module OAuthFlow.
Import WebStorage OAuthForm PKCE.

(** *** Platform: [URL] and [URLSearchParams] *)

Record URL : Type := mkURL {
  origin : string;
  pathname : string;
  searchParams : list (string * string)
}.

(** Splits [s] at the first character satisfying [stop]. *)
Fixpoint span_until (stop : ascii -> bool) (s : string) : string * string :=
  match s with
  | EmptyString => (EmptyString, EmptyString)
  | String c rest =>
      if stop c then (EmptyString, s)
      else let '(a, b) := span_until stop rest in (String c a, b)
  end.

(** *** Platform: the URL parser

    [new URL(path, base)] after the WHATWG URL Standard, for a base whose
    scheme is http, https, ws, wss or ftp and whose host is a domain
    name in ASCII.  The parser [Throws] where the Standard returns
    failure.  It is [Unmodelled] for the other schemes, for credentials,
    for IP addresses (a host in brackets, or one that ends in a number),
    and for hosts with percent escapes, characters outside ASCII or
    labels in Punycode. *)

Definition in_range (lo hi : N) (c : ascii) : bool :=
  let n := N_of_ascii c in ((lo <=? n) && (n <=? hi))%N.

Definition c0_control_or_space (c : ascii) : bool := in_range 0 32 c.

Definition tab_or_newline (c : ascii) : bool :=
  let n := N_of_ascii c in ((n =? 9) || (n =? 10) || (n =? 13))%N.

Definition ascii_upper_alpha (c : ascii) : bool := in_range 65 90 c.
Definition ascii_alpha (c : ascii) : bool := in_range 65 90 c || in_range 97 122 c.
Definition ascii_digit (c : ascii) : bool := in_range 48 57 c.
Definition ascii_hex_digit (c : ascii) : bool :=
  ascii_digit c || in_range 65 70 c || in_range 97 102 c.

Definition ascii_lowercase (c : ascii) : ascii :=
  if ascii_upper_alpha c then ascii_of_N (N_of_ascii c + 32) else c.

Fixpoint lowercase (s : string) : string :=
  match s with
  | EmptyString => EmptyString
  | String c rest => String (ascii_lowercase c) (lowercase rest)
  end.

Fixpoint remove (p : ascii -> bool) (s : string) : string :=
  match s with
  | EmptyString => EmptyString
  | String c rest => if p c then remove p rest else String c (remove p rest)
  end.

(** Scheme start state and scheme state: a letter, then letters, digits,
    [+], [-] and [.] up to a colon; the scheme in lower case and what
    follows the colon. *)
Definition scheme_char (c : ascii) : bool :=
  ascii_alpha c || ascii_digit c
  || Ascii.eqb c "+" || Ascii.eqb c "-" || Ascii.eqb c ".".

Fixpoint scheme_state (s : string) : option (string * string) :=
  match s with
  | EmptyString => None
  | String c rest =>
      if Ascii.eqb c ":" then Some (EmptyString, rest)
      else if scheme_char c then
        match scheme_state rest with
        | Some (scheme, after) => Some (String (ascii_lowercase c) scheme, after)
        | None => None
        end
      else None
  end.

Definition scheme_start_state (s : string) : option (string * string) :=
  match s with
  | String c _ => if ascii_alpha c then scheme_state s else None
  | EmptyString => None
  end.

(** The default port of a special scheme other than file. *)
Definition default_port (scheme : string) : option N :=
  if String.eqb scheme "http" then Some 80%N
  else if String.eqb scheme "https" then Some 443%N
  else if String.eqb scheme "ws" then Some 80%N
  else if String.eqb scheme "wss" then Some 443%N
  else if String.eqb scheme "ftp" then Some 21%N
  else None.

Definition slash_or_backslash (c : ascii) : bool :=
  Ascii.eqb c "/" || Ascii.eqb c "\".

(** Authority state, for a special scheme: the authority ends at the
    first slash, backslash, question mark or number sign. *)
Definition ends_authority (c : ascii) : bool :=
  Ascii.eqb c "/" || Ascii.eqb c "\" || Ascii.eqb c "?" || Ascii.eqb c "#".

(** Host state: the host runs up to the first colon outside brackets;
    the port, when there is a colon, is what follows it. *)
Fixpoint host_state (insideBrackets : bool) (s : string) : string * option string :=
  match s with
  | EmptyString => (EmptyString, None)
  | String c rest =>
      if Ascii.eqb c ":" && negb insideBrackets then (EmptyString, Some rest)
      else
        let insideBrackets :=
          if Ascii.eqb c "[" then true
          else if Ascii.eqb c "]" then false
          else insideBrackets in
        let '(host, port) := host_state insideBrackets rest in
        (String c host, port)
  end.

(** Strictly splitting [s] on [sep]. *)
Fixpoint split_on (sep : ascii) (s : string) : list string :=
  match s with
  | EmptyString => [EmptyString]
  | String c rest =>
      if Ascii.eqb c sep then EmptyString :: split_on sep rest
      else
        match split_on sep rest with
        | part :: parts => String c part :: parts
        | [] => [String c EmptyString]
        end
  end.

Definition forbidden_host_code_point (c : ascii) : bool :=
  let n := N_of_ascii c in
  ((n =? 0) || (n =? 9) || (n =? 10) || (n =? 13) || (n =? 32)
   || (n =? 35) || (n =? 47) || (n =? 58) || (n =? 60) || (n =? 62)
   || (n =? 63) || (n =? 64) || (n =? 91) || (n =? 92) || (n =? 93)
   || (n =? 94) || (n =? 124))%N.

Definition forbidden_domain_code_point (c : ascii) : bool :=
  forbidden_host_code_point c || in_range 0 31 c
  || Ascii.eqb c "%" || (N_of_ascii c =? 127)%N.

(** The ends-in-a-number checker: the last label, an empty one at the
    very end left aside, is made of digits, or is [0x] followed by
    hexadecimal digits. *)
Definition is_number (label : string) : bool :=
  negb (String.eqb label EmptyString) && every_char ascii_digit label
  || match label with
     | String zero (String x digits) =>
         Ascii.eqb zero "0" && (Ascii.eqb x "x" || Ascii.eqb x "X")
         && every_char ascii_hex_digit digits
     | _ => false
     end.

Definition ends_in_a_number (host : string) : bool :=
  let parts := split_on "." host in
  let parts :=
    match List.last parts EmptyString, parts with
    | EmptyString, _ :: _ :: _ => removelast parts
    | _, _ => parts
    end in
  is_number (List.last parts EmptyString).

(** The host parser, on the text of a host that is not empty. *)
Definition host_parser (input : string) : Platform string :=
  if String.prefix "[" input then Unmodelled
  else if some_char (fun c => Ascii.eqb c "%" || in_range 128 255 c) input
  then Unmodelled
  else
    let domain := lowercase input in
    if existsb (String.prefix "xn--") (split_on "." domain) then Unmodelled
    else if some_char forbidden_domain_code_point domain then Throws
    else if ends_in_a_number domain then Unmodelled
    else Gives domain.

(** The number a text of digits denotes. *)
Fixpoint decimal_value (acc : N) (digits : string) : N :=
  match digits with
  | EmptyString => acc
  | String c rest => decimal_value (10 * acc + (N_of_ascii c - 48)) rest
  end.

(** Port state: digits only; a port above 65535 is a failure, and the
    default port of the scheme is dropped. *)
Definition port_state (scheme buffer : string) : Platform (option N) :=
  if negb (every_char ascii_digit buffer) then Throws
  else if String.eqb buffer EmptyString then Gives None
  else
    let port := decimal_value 0 buffer in
    if (65535 <? port)%N then Throws
    else
      match default_port scheme with
      | Some default => if (default =? port)%N then Gives None else Gives (Some port)
      | None => Gives (Some port)
      end.

Definition serialize_port (port : option N) : string :=
  match port with
  | Some n => String ":" (NilZero.string_of_uint (N.to_uint n))
  | None => EmptyString
  end.

(** The origin of [base], serialized: scheme, host and port, as every
    URL made from this base with an absolute path starts. *)
Definition URL_origin (base : string) : Platform string :=
  let input :=
    remove tab_or_newline
      (drop_end c0_control_or_space (drop_start c0_control_or_space base)) in
  match scheme_start_state input with
  | None => Throws
  | Some (scheme, remaining) =>
      match default_port scheme with
      | None => Unmodelled
      | Some _ =>
          let '(authority, _) :=
            span_until ends_authority (drop_start slash_or_backslash remaining) in
          if some_char (Ascii.eqb "@") authority then Unmodelled
          else
            let '(host, port) := host_state false authority in
            if String.eqb host EmptyString then Throws
            else
              match host_parser host with
              | Gives domain =>
                  match port_state scheme (default EmptyString port) with
                  | Gives port =>
                      Gives (String.append scheme
                               (String.append "://"
                                  (String.append domain (serialize_port port))))
                  | Throws => Throws
                  | Unmodelled => Unmodelled
                  end
              | Throws => Throws
              | Unmodelled => Unmodelled
              end
      end
  end.




(** A path that the path state takes over as it is: it starts with one
    slash, and holds letters, digits, slashes, hyphens and underscores
    only. *)
Definition plain_path (path : string) : bool :=
  match path with
  | String slash (String c rest) =>
      Ascii.eqb slash "/" && negb (Ascii.eqb c "/")
      && every_char (fun c => ascii_alpha c || ascii_digit c || Ascii.eqb c "/"
                              || Ascii.eqb c "-" || Ascii.eqb c "_")
           (String c rest)
  | _ => false
  end.

(** [new URL(path, base)] for a plain [path]: the path of the base, its
    query and its fragment are all replaced. *)
Definition new_URL (path : string) (base : string) : Platform URL :=
  if plain_path path then
    match URL_origin base with
    | Gives o => Gives (mkURL o path [])
    | Throws => Throws
    | Unmodelled => Unmodelled
    end
  else Unmodelled.

Definition searchParams_append (k v : string) (u : URL) : URL :=
  mkURL (origin u) (pathname u) (searchParams u ++ [(k, v)]).

(** The application/x-www-form-urlencoded serializer. *)
Definition hex_digit (n : N) : ascii :=
  match String.get (N.to_nat n) "0123456789ABCDEF" with
  | Some c => c
  | None => "0"%char
  end.

Definition form_unreserved (c : ascii) : bool :=
  let n := N_of_ascii c in
  ((48 <=? n) && (n <=? 57) || (65 <=? n) && (n <=? 90)
   || (97 <=? n) && (n <=? 122)
   || (n =? 42) || (n =? 45) || (n =? 46) || (n =? 95))%N.

Fixpoint form_encode (s : string) : string :=
  match s with
  | EmptyString => EmptyString
  | String c rest =>
      if form_unreserved c then String c (form_encode rest)
      else if Ascii.eqb c " " then String "+" (form_encode rest)
      else String "%"
             (String (hex_digit (N.shiftr (N_of_ascii c) 4))
                (String (hex_digit (N.land (N_of_ascii c) 15))
                   (form_encode rest)))
  end.

Fixpoint form_serialize (ps : list (string * string)) : string :=
  match ps with
  | [] => EmptyString
  | [(k, v)] => String.append (form_encode k) (String "=" (form_encode v))
  | (k, v) :: rest =>
      String.append (form_encode k)
        (String "=" (String.append (form_encode v)
                       (String "&" (form_serialize rest))))
  end.

Definition URL_toString (u : URL) : string :=
  String.append (origin u)
    (String.append (pathname u)
       match searchParams u with
       | [] => EmptyString
       | ps => String "?" (form_serialize ps)
       end).

(** *** The environment and the browser *)

Record Env : Type := mkEnv {
  NEXT_PUBLIC_VALYU_CLIENT_ID : option string;
  NEXT_PUBLIC_VALYU_AUTH_URL : option string;
  NEXT_PUBLIC_REDIRECT_URI : option string
}.

Record Browser : Type := mkBrowser {
  localStorage : Storage;
  sessionStorage : Storage;
  location_href : string;
  console_warn : list string;
  rng : Entropy
}.

(** How an invocation ends: it returns, or an exception escapes it. *)
Inductive Completion : Type :=
| Returned (b : Browser)
| Threw (error : string) (b : Browser)
| Unmodelled_from (b : Browser).

(** The browser an invocation leaves behind.  After [Unmodelled_from b]
    the storages, the console and the generator are those of [b]; the
    location is not known. *)
Definition browser_of (c : Completion) : Browser :=
  match c with Returned b | Threw _ b | Unmodelled_from b => b end.

(** Platform: a new browsing session (a new tab or window, or the
    browser restarted) starts with an empty [sessionStorage];
    [localStorage] is kept. *)
Definition new_session (b : Browser) : Browser :=
  mkBrowser (localStorage b) ∅ (location_href b) [] (rng b).

(** Platform: following a link to another site and coming back in the
    same tab keeps both storages; the page itself is loaded afresh. *)
Definition navigate_away_and_back (back_to : string) (b : Browser) : Browser :=
  mkBrowser (localStorage b) (sessionStorage b) back_to [] (rng b).

Definition isOAuthConfigured (env : Env) : bool :=
  truthy (NEXT_PUBLIC_VALYU_CLIENT_ID env)
  && truthy (NEXT_PUBLIC_VALYU_AUTH_URL env)
  && truthy (NEXT_PUBLIC_REDIRECT_URI env).

Definition not_configured_warning : string :=
  "OAuth is not configured. Set NEXT_PUBLIC_VALYU_CLIENT_ID, NEXT_PUBLIC_VALYU_AUTH_URL, and NEXT_PUBLIC_REDIRECT_URI.".

(** [x!] on an environment variable, then used as a string. *)
Definition non_null (o : option string) : string :=
  match o with Some s => s | None => "undefined" end.

Section WithJSON.
Variable JSON_stringify : OAuthFormValues -> string.

(** [initiateOAuthFlow].  Its one [await] is on the digest, which
    touches nothing of the browser, so the function is kept whole. *)
Definition initiateOAuthFlow (env : Env) (formValues : option OAuthFormValues)
    (b : Browser) : Completion :=
  if negb (isOAuthConfigured env) then
    Returned (mkBrowser (localStorage b) (sessionStorage b) (location_href b)
                (console_warn b ++ [not_configured_warning]) (rng b))
  else
    let ls :=
      match formValues with
      | Some values => saveFormValuesBeforeOAuth JSON_stringify values (localStorage b)
      | None => localStorage b
      end in
    let '(codeVerifier, rng1) := generateCodeVerifier (rng b) in
    let codeChallenge := generateCodeChallenge codeVerifier in
    let ss := setItem "oauth_code_verifier" codeVerifier (sessionStorage b) in
    let '(state, rng2) := generateCodeVerifier rng1 in
    let ss := setItem "oauth_state" state ss in
    match new_URL "/auth/v1/oauth/authorize"
            (non_null (NEXT_PUBLIC_VALYU_AUTH_URL env)) with
    | Throws => Threw "TypeError: Invalid URL"
                  (mkBrowser ls ss (location_href b) (console_warn b) rng2)
    | Unmodelled =>
        Unmodelled_from (mkBrowser ls ss (location_href b) (console_warn b) rng2)
    | Gives authUrl =>
        let authUrl := searchParams_append "client_id"
                         (non_null (NEXT_PUBLIC_VALYU_CLIENT_ID env)) authUrl in
        let authUrl := searchParams_append "redirect_uri"
                         (non_null (NEXT_PUBLIC_REDIRECT_URI env)) authUrl in
        let authUrl := searchParams_append "response_type" "code" authUrl in
        let authUrl := searchParams_append "scope" "openid profile email" authUrl in
        let authUrl := searchParams_append "code_challenge" codeChallenge authUrl in
        let authUrl := searchParams_append "code_challenge_method" "S256" authUrl in
        let authUrl := searchParams_append "state" state authUrl in
        Returned (mkBrowser ls ss (URL_toString authUrl) (console_warn b) rng2)
    end.
End WithJSON.

End OAuthFlow.

(** ** components/ResearchResults.tsx: the progress percentage *)

Module ProgressBar.

(** [interface Progress]: two JavaScript Numbers, that is, two IEEE 754
    binary64 values. *)
Record Progress : Type := mkProgress {
  current_step : float;
  total_steps : float
}.

(** The Number a JSON integer literal of magnitude below 2^63 parses to. *)
Definition Number_of_Z (z : Z) : float :=
  if (z <? 0)%Z then PrimFloat.opp (PrimFloat.of_uint63 (Uint63.of_Z (- z)))
  else PrimFloat.of_uint63 (Uint63.of_Z z).

(** Platform: [Math.round], the integer nearest to [x], a tie going
    towards +infinity; zeros, infinities, NaN and integers are returned
    unchanged, and a result of zero keeps the sign of [x]. *)
Definition Math_round (x : float) : float :=
  match Prim2SF x with
  | S754_finite s m e =>
      if (0 <=? e)%Z then x
      else
        let sm := if s then Z.neg m else Z.pos m in
        let n := ((2 * sm + 2 ^ (- e)) / 2 ^ (1 - e))%Z in
        if (n =? 0)%Z then (if s then PrimFloat.opp PrimFloat.zero else PrimFloat.zero)
        else Number_of_Z n
  | _ => x
  end.

(** The expression between the braces in
    [{Math.round((result.progress.current_step / result.progress.total_steps) * 100)}%]. *)
Definition percentage (p : Progress) : float :=
  Math_round (PrimFloat.mul (PrimFloat.div (current_step p) (total_steps p))
                (Number_of_Z 100)).

(** The integer a Number denotes, when it denotes one. *)
Definition Number_to_Z (x : float) : option Z :=
  match Prim2SF x with
  | S754_zero _ => Some 0%Z
  | S754_finite s m e =>
      let sm := if s then Z.neg m else Z.pos m in
      if (0 <=? e)%Z then Some (sm * 2 ^ e)%Z
      else if (Z.pos m mod 2 ^ (- e) =? 0)%Z then Some (sm / 2 ^ (- e))%Z
      else None
  | _ => None
  end.

(** What the view shows for the payload [{current_step: c, total_steps: t}]. *)
Definition shown_percent (c t : Z) : option Z :=
  Number_to_Z (percentage (mkProgress (Number_of_Z c) (Number_of_Z t))).





End ProgressBar.

(** ** app/api/supplement-research/route.ts: creating a research task *)

Module Route.
#[local] Set Warnings "-register-all".

(** A parsed JSON value; the fields of an object have distinct keys. *)
Inductive Json : Type :=
| JNull
| JBool (b : bool)
| JNumber (x : float)
| JString (s : string)
| JArray (items : list Json)
| JObject (fields : list (string * Json)).

(** A property read: [None] is [undefined]. *)
Fixpoint assoc (k : string) (fields : list (string * Json)) : option Json :=
  match fields with
  | [] => None
  | (k', v) :: rest => if String.eqb k k' then Some v else assoc k rest
  end.

(** [value.k] on a parsed JSON value other than [null]: only an object
    has own properties with these names. *)
Definition get_property (k : string) (value : Json) : option Json :=
  match value with
  | JObject fields => assoc k fields
  | _ => None
  end.

(** JavaScript truthiness of a property value. *)
Definition js_truthy (v : option Json) : bool :=
  match v with
  | None | Some JNull => false
  | Some (JBool b) => b
  | Some (JNumber x) => negb (PrimFloat.eqb x PrimFloat.zero || PrimFloat.is_nan x)
  | Some (JString s) => negb (String.eqb s "")
  | Some (JArray _) | Some (JObject _) => true
  end.

Fixpoint join (sep : string) (parts : list string) : string :=
  match parts with
  | [] => EmptyString
  | [p] => p
  | p :: rest => String.append p (String.append sep (join sep rest))
  end.

(** [s.includes(needle)]. *)
Fixpoint includes (needle s : string) : bool :=
  String.prefix needle s
  || match s with
     | EmptyString => false
     | String _ rest => includes needle rest
     end.

(** An exception: its message, and the [isAuthError] mark. *)
Record Exn : Type := mkExn { message : string; isAuthError : bool }.

Record HttpResponse : Type := mkResponse {
  status : N;
  json : list (string * Json)
}.

(** [NextResponse.json(body)] and [NextResponse.json(body, { status })]. *)
Definition NextResponse_json (body : list (string * Json)) (st : option N)
    : HttpResponse :=
  mkResponse (match st with Some n => n | None => 200%N end) body.

(** The incoming request: the Authorization header, and what
    [req.json()] settles to ([inl] when it rejects). *)
Record NextRequest : Type := mkRequest {
  authorization : option string;
  body : Exn + Json
}.

(** What the proxy or the SDK is asked. *)
Inductive UpstreamCall : Type :=
| ProxyFetch (bearer : string) (input : string) (supplementName : string)
| SdkCreate (input : string) (supplementName : string).

(** The proxy's answer: [response.ok], [response.status], and what
    [response.json()] settles to ([inl] when it rejects). *)
Record ProxyResponse : Type := mkProxyResponse {
  ok : bool;
  code : N;
  parsed : Exn + Json
}.

(** The TypeErrors of the route.  Their texts are the engine's (here
    V8's); nothing below depends on them. *)
Definition not_primitive : Exn :=
  mkExn "Cannot convert object to primitive value" false.
Definition error_of_null : Exn :=
  mkExn "Cannot read properties of null (reading 'error')" false.
Definition includes_not_function : Exn :=
  mkExn "errorData.error?.includes is not a function" false.

Section WithPlatform.
(** [lib/mode.ts] is not among the sources: its result is a parameter. *)
Variable isSelfHosted : bool.
(** [String(x)] on a Number, and on a status code. *)
Variable Number_toString : float -> string.
Variable status_toString : N -> string.
(** The upstream service: what [fetch] on the OAuth proxy and what the
    SDK's [deepresearch.create] settle to ([inl] when they reject). *)
Variable fetch_proxy : string -> string -> string -> Exn + ProxyResponse.
Variable sdk_create : string -> string -> Exn + Json.

(** [String(v)], as a template literal and [new Error(v)] apply it to a
    parsed JSON value; [None] is the TypeError thrown when the value has
    no primitive.  An array is joined with commas, [null] elements giving
    the empty text.  An object from [JSON.parse] inherits
    [Object.prototype.toString] and prints as [[object Object]], unless
    it has an own property [toString]: that one is not callable, and
    [valueOf] (own and not callable, or inherited and returning the
    object) gives no primitive either. *)
Fixpoint js_toString (v : Json) : option string :=
  match v with
  | JNull => Some "null"
  | JBool true => Some "true"
  | JBool false => Some "false"
  | JNumber x => Some (Number_toString x)
  | JString s => Some s
  | JArray items =>
      let parts :=
        map (fun i => match i with JNull => Some EmptyString | _ => js_toString i end)
          items in
      if forallb (fun part => match part with Some _ => true | None => false end) parts
      then Some (join "," (map (default EmptyString) parts))
      else None
  | JObject fields =>
      match assoc "toString" fields with
      | Some _ => None
      | None => Some "[object Object]"
      end
  end.

(** [${v}] on a property that may be [undefined]. *)
Definition template (v : option Json) : option string :=
  match v with Some j => js_toString j | None => Some "undefined" end.

(** [error?.includes(needle)] on the [error] property of the proxy's
    answer: [undefined] when there is none or it is [null]
    ([Some false] here, as only its truthiness is used); the search in a
    string; membership in an array; and a TypeError ([None]) on a number,
    a boolean or an object, none of which has a callable [includes]. *)
Definition error_includes (needle : string) (error : option Json) : option bool :=
  match error with
  | None | Some JNull => Some false
  | Some (JString s) => Some (includes needle s)
  | Some (JArray items) =>
      Some (existsb (fun i => match i with
                              | JString s => String.eqb s needle
                              | _ => false
                              end) items)
  | Some (JBool _) | Some (JNumber _) | Some (JObject _) => None
  end.

(** The exception thrown on a proxy answer that is not ok. *)
Definition proxy_refusal (response : ProxyResponse) : Exn :=
  let errorData :=
    match parsed response with inr j => j | inl _ => JObject [] end in
  if (code response =? 401)%N || (code response =? 403)%N
  then mkExn "AUTH_REQUIRED" true
  else
    match errorData with
    | JNull => error_of_null
    | _ =>
        let error := get_property "error" errorData in
        match error_includes "invalid_token" error,
              error_includes "expired" error,
              error_includes "unauthorized" error with
        | Some invalid, Some expired, Some unauthorized =>
            if invalid || expired || unauthorized
            then mkExn "AUTH_REQUIRED" true
            else if js_truthy error then
              match template error with
              | Some text => mkExn text false
              | None => not_primitive
              end
            else mkExn (String.append "Proxy request failed: "
                          (status_toString (code response))) false
        | _, _, _ => includes_not_function
        end
    end.

(** [callValyuDeepResearch]: the task, or the exception it throws,
    with the call it made. *)
Definition callValyuDeepResearch (input supplementName : string)
    (valyuAccessToken : option string) : (Exn + Json) * list UpstreamCall :=
  if truthy valyuAccessToken then
    let bearer := default "" valyuAccessToken in
    (match fetch_proxy bearer input supplementName with
     | inl e => inl e
     | inr response =>
         if negb (ok response) then inl (proxy_refusal response)
         else parsed response
     end, [ProxyFetch bearer input supplementName])
  else
    (sdk_create input supplementName, [SdkCreate input supplementName]).

(** The three template literals of [POST]; [None] when a value in them
    cannot be converted to a string. *)
Definition interactionSection (supplementName currentSupplements : option Json)
    : option string :=
  if js_truthy currentSupplements then
    match template currentSupplements, template supplementName with
    | Some supplements, Some name =>
        Some (join "" [ "
    IMPORTANT - INTERACTION CHECK:
    The user is currently taking: "; supplements; "
    Please thoroughly analyze potential interactions between ";
              name; " and these supplements/medications.
    Include: timing considerations, absorption interference, contraindications, and safety recommendations." ])
    | _, _ => None
    end
  else Some EmptyString.

Definition stackSection (supplementName healthGoals : option Json) : option string :=
  if js_truthy healthGoals then
    match template healthGoals, template supplementName with
    | Some goals, Some name =>
        Some (join "" [ "
    STACK BUILDING:
    The user's health goals are: "; goals; "
    Based on these goals, suggest complementary supplements that would work well with ";
              name; ".
    Include: synergistic combinations, optimal timing/dosing schedule, and what to avoid combining." ])
    | _, _ => None
    end
  else Some EmptyString.

Definition focusLine (researchFocus : option Json) : option string :=
  if js_truthy researchFocus then
    match template researchFocus with
    | Some focus => Some (String.append "Focus areas: " focus)
    | None => None
    end
  else Some EmptyString.

Definition researchQuery
    (supplementName researchFocus currentSupplements healthGoals : option Json)
    : option string :=
  match interactionSection supplementName currentSupplements,
        stackSection supplementName healthGoals,
        template supplementName,
        focusLine researchFocus with
  | Some interaction, Some stack, Some name, Some focus =>
      Some (join "" [ "Research the supplement: "; name; ".
    "; focus; "
    "; interaction; "
    "; stack; "

    Provide a comprehensive analysis including:
    - What "; name; " is and how it works in the body
    - Scientific evidence for its benefits (cite studies where possible)
    - Recommended dosage and best time to take it
    - Different forms available (capsule, powder, liquid, etc.) and bioavailability
    - Potential side effects and contraindications
    - Drug interactions to be aware of
    - Who should and shouldn't take this supplement
    - Quality markers to look for when buying (third-party testing, certifications)
    - Top brands and products available with pricing
    - Natural food sources as alternatives

    Be thorough but focus on evidence-based information from reputable sources." ])
  | _, _, _, _ => None
  end.

(** The [catch] block of [POST]. *)
Definition on_error (error : Exn) : HttpResponse :=
  if isAuthError error || String.eqb (message error) "AUTH_REQUIRED" then
    NextResponse_json
      [ ("error", JString "AUTH_REQUIRED");
        ("message", JString "Your session has expired. Please sign in again.") ]
      (Some 401%N)
  else
    NextResponse_json
      [ ("error", JString (String.append "Failed to perform deep research: "
                             (message error))) ]
      (Some 500%N).

(** [authHeader?.startsWith('Bearer ') ? authHeader.slice(7) : undefined]. *)
Definition bearer_token (authHeader : option string) : option string :=
  match authHeader with
  | Some h =>
      if String.prefix "Bearer " h
      then Some (String.substring 7 (String.length h - 7) h)
      else None
  | None => None
  end.

(** [POST]: the response, and the upstream calls made on the way. *)
Definition POST (req : NextRequest) : HttpResponse * list UpstreamCall :=
  let authHeader := authorization req in
  let valyuAccessToken := bearer_token authHeader in
  if negb isSelfHosted && negb (truthy valyuAccessToken) then
    (NextResponse_json
       [ ("error", JString "AUTH_REQUIRED");
         ("message", JString "Sign in with Valyu to continue.") ]
       (Some 401%N), [])
  else
    match body req with
    | inl e => (on_error e, [])
    | inr JNull =>
        (on_error (mkExn "Cannot destructure property 'supplementName' of null" false), [])
    | inr parsed =>
        let supplementName := get_property "supplementName" parsed in
        let researchFocus := get_property "researchFocus" parsed in
        let currentSupplements := get_property "currentSupplements" parsed in
        let healthGoals := get_property "healthGoals" parsed in
        if negb (js_truthy supplementName) then
          (NextResponse_json [ ("error", JString "Supplement name is required") ]
             (Some 400%N), [])
        else
          match researchQuery supplementName researchFocus currentSupplements
                  healthGoals,
                template supplementName with
          | Some input, Some name =>
              let '(task, calls) :=
                callValyuDeepResearch input name
                  (if isSelfHosted then None else valyuAccessToken) in
              match task with
              | inl e => (on_error e, calls)
              | inr JNull =>
                  (on_error (mkExn "Cannot read properties of null (reading 'deepresearch_id')"
                               false), calls)
              | inr t =>
                  if negb (js_truthy (get_property "deepresearch_id" t)) then
                    (on_error (mkExn "Failed to create deep research task" false), calls)
                  else
                    (NextResponse_json
                       [ ("success", JBool true);
                         ("deepresearch_id", default JNull (get_property "deepresearch_id" t));
                         ("status", JString "queued");
                         ("message", JString "Research task created. Poll the status endpoint to check progress.") ]
                       None, calls)
              end
          | _, _ => (on_error not_primitive, [])
          end
    end.
End WithPlatform.

End Route.

(** ** app/page.tsx: the polling controller of [HomeContent] *)

Module Controller.
Import WebStorage.
Export Route(Json, JNull, JBool, JNumber, JString, JArray, JObject,
             get_property, js_truthy).

(** A network request the page sends. *)
Inductive Request : Type :=
| GetStatus (taskId : string) (authorization : option string)
| PostCancel (taskId : string) (authorization : option string).

(** What [fetch] followed by [response.json()] settles to for a status
    request: [fetch] rejects, or the response arrives with its [ok] flag
    and its body, [None] when the body is not JSON. *)
Inductive PollOutcome : Type :=
| PollRejected (reason : string)
| PollResponse (ok : bool) (data : option Json).

(** What [fetch] settles to for the cancel request; the response is
    never read. *)
Inductive CancelOutcome : Type :=
| CancelRejected (reason : string)
| CancelResponse (ok : bool) (code : N).

(** The component's state, its two refs, and the parts of the platform
    its handlers touch.  An interval is identified by a positive number,
    as in a browser; [timers] maps each live interval to the task its
    callback polls. *)
Record State : Type := mkState {
  analysisResult : Json;
  isAnalyzing : bool;
  showSignInModal : bool;
  user : option Json;
  supplementName : string;
  researchFocus : string;
  currentTaskId : option string;
  isCancelling : bool;
  cancelledRef : bool;
  pollIntervalRef : option positive;
  localStorage : Storage;
  timers : gmap positive string;
  next_timer : positive;
  console_error : list string;
  requests : list Request;
  pending_polls : list string;
  pending_cancels : nat
}.

Definition initial (localStorage : Storage) : State :=
  mkState JNull false false None "" "" None false false None
    localStorage ∅ 1%positive [] [] [] 0.

(** Field updates. *)
Definition setAnalysisResult (v : Json) (s : State) : State :=
  mkState v (isAnalyzing s) (showSignInModal s) (user s) (supplementName s)
    (researchFocus s) (currentTaskId s) (isCancelling s) (cancelledRef s)
    (pollIntervalRef s) (localStorage s) (timers s) (next_timer s)
    (console_error s) (requests s) (pending_polls s) (pending_cancels s).
Definition setIsAnalyzing (v : bool) (s : State) : State :=
  mkState (analysisResult s) v (showSignInModal s) (user s) (supplementName s)
    (researchFocus s) (currentTaskId s) (isCancelling s) (cancelledRef s)
    (pollIntervalRef s) (localStorage s) (timers s) (next_timer s)
    (console_error s) (requests s) (pending_polls s) (pending_cancels s).
Definition setShowSignInModal (v : bool) (s : State) : State :=
  mkState (analysisResult s) (isAnalyzing s) v (user s) (supplementName s)
    (researchFocus s) (currentTaskId s) (isCancelling s) (cancelledRef s)
    (pollIntervalRef s) (localStorage s) (timers s) (next_timer s)
    (console_error s) (requests s) (pending_polls s) (pending_cancels s).
Definition setUser (v : option Json) (s : State) : State :=
  mkState (analysisResult s) (isAnalyzing s) (showSignInModal s) v (supplementName s)
    (researchFocus s) (currentTaskId s) (isCancelling s) (cancelledRef s)
    (pollIntervalRef s) (localStorage s) (timers s) (next_timer s)
    (console_error s) (requests s) (pending_polls s) (pending_cancels s).
Definition setSupplementName (v : string) (s : State) : State :=
  mkState (analysisResult s) (isAnalyzing s) (showSignInModal s) (user s) v
    (researchFocus s) (currentTaskId s) (isCancelling s) (cancelledRef s)
    (pollIntervalRef s) (localStorage s) (timers s) (next_timer s)
    (console_error s) (requests s) (pending_polls s) (pending_cancels s).
Definition setResearchFocus (v : string) (s : State) : State :=
  mkState (analysisResult s) (isAnalyzing s) (showSignInModal s) (user s) (supplementName s)
    v (currentTaskId s) (isCancelling s) (cancelledRef s)
    (pollIntervalRef s) (localStorage s) (timers s) (next_timer s)
    (console_error s) (requests s) (pending_polls s) (pending_cancels s).
Definition setCurrentTaskId (v : option string) (s : State) : State :=
  mkState (analysisResult s) (isAnalyzing s) (showSignInModal s) (user s) (supplementName s)
    (researchFocus s) v (isCancelling s) (cancelledRef s)
    (pollIntervalRef s) (localStorage s) (timers s) (next_timer s)
    (console_error s) (requests s) (pending_polls s) (pending_cancels s).
Definition setIsCancelling (v : bool) (s : State) : State :=
  mkState (analysisResult s) (isAnalyzing s) (showSignInModal s) (user s) (supplementName s)
    (researchFocus s) (currentTaskId s) v (cancelledRef s)
    (pollIntervalRef s) (localStorage s) (timers s) (next_timer s)
    (console_error s) (requests s) (pending_polls s) (pending_cancels s).
Definition set_cancelledRef (v : bool) (s : State) : State :=
  mkState (analysisResult s) (isAnalyzing s) (showSignInModal s) (user s) (supplementName s)
    (researchFocus s) (currentTaskId s) (isCancelling s) v
    (pollIntervalRef s) (localStorage s) (timers s) (next_timer s)
    (console_error s) (requests s) (pending_polls s) (pending_cancels s).
Definition set_pollIntervalRef (v : option positive) (s : State) : State :=
  mkState (analysisResult s) (isAnalyzing s) (showSignInModal s) (user s) (supplementName s)
    (researchFocus s) (currentTaskId s) (isCancelling s) (cancelledRef s)
    v (localStorage s) (timers s) (next_timer s)
    (console_error s) (requests s) (pending_polls s) (pending_cancels s).
Definition set_localStorage (v : Storage) (s : State) : State :=
  mkState (analysisResult s) (isAnalyzing s) (showSignInModal s) (user s) (supplementName s)
    (researchFocus s) (currentTaskId s) (isCancelling s) (cancelledRef s)
    (pollIntervalRef s) v (timers s) (next_timer s)
    (console_error s) (requests s) (pending_polls s) (pending_cancels s).
Definition set_timers (v : gmap positive string) (n : positive) (s : State) : State :=
  mkState (analysisResult s) (isAnalyzing s) (showSignInModal s) (user s) (supplementName s)
    (researchFocus s) (currentTaskId s) (isCancelling s) (cancelledRef s)
    (pollIntervalRef s) (localStorage s) v n
    (console_error s) (requests s) (pending_polls s) (pending_cancels s).
Definition console_error_log (line : string) (s : State) : State :=
  mkState (analysisResult s) (isAnalyzing s) (showSignInModal s) (user s) (supplementName s)
    (researchFocus s) (currentTaskId s) (isCancelling s) (cancelledRef s)
    (pollIntervalRef s) (localStorage s) (timers s) (next_timer s)
    (console_error s ++ [line]) (requests s) (pending_polls s) (pending_cancels s).
Definition set_network (rs : list Request) (polls : list string) (cancels : nat)
    (s : State) : State :=
  mkState (analysisResult s) (isAnalyzing s) (showSignInModal s) (user s) (supplementName s)
    (researchFocus s) (currentTaskId s) (isCancelling s) (cancelledRef s)
    (pollIntervalRef s) (localStorage s) (timers s) (next_timer s)
    (console_error s) rs polls cancels.

(** Platform: [fetch] sends the request; its settlement comes later,
    as an event. *)
Definition fetch (r : Request) (s : State) : State :=
  match r with
  | GetStatus taskId _ =>
      set_network (requests s ++ [r]) (pending_polls s ++ [taskId]) (pending_cancels s) s
  | PostCancel _ _ =>
      set_network (requests s ++ [r]) (pending_polls s) (S (pending_cancels s)) s
  end.

(** Platform: [setInterval] and [clearInterval]. *)
Definition setInterval (taskId : string) (s : State) : positive * State :=
  (next_timer s,
   set_timers (<[next_timer s := taskId]> (timers s)) (Pos.succ (next_timer s)) s).

Definition clearInterval (id : positive) (s : State) : State :=
  set_timers (delete id (timers s)) (next_timer s) s.

(** [if (pollIntervalRef.current) { clearInterval(...); pollIntervalRef.current = null; }] *)
Definition stop_polling (s : State) : State :=
  match pollIntervalRef s with
  | Some id => set_pollIntervalRef None (clearInterval id s)
  | None => s
  end.

(** How a [try] body ends: normally, or by throwing. *)
Inductive Completion : Type :=
| Normal (s : State)
| Throw (message : string) (s : State).

Section WithMode.
(** [lib/mode.ts] is not among the sources: its result is a parameter. *)
Variable isSelfHosted : bool.

(** [getAuthHeaders]: the Authorization header, if any. *)
Definition getAuthHeaders (s : State) : option string :=
  if negb isSelfHosted then
    let accessToken := getItem "valyu_access_token" (localStorage s) in
    if truthy accessToken
    then Some (String.append "Bearer " (default "" accessToken))
    else None
  else None.

(** [pollStatus], up to its first [await]. *)
Definition pollStatus_send (taskId : string) (s : State) : State :=
  if cancelledRef s then s
  else fetch (GetStatus taskId (getAuthHeaders s)) s.

Definition is_string (text : string) (v : option Json) : bool :=
  match v with
  | Some (JString t) => String.eqb t text
  | _ => false
  end.

(** The [try] body of [pollStatus] after its [await]s. *)
Definition pollStatus_body (o : PollOutcome) (s : State) : Completion :=
  match o with
  | PollRejected reason => Throw reason s
  | PollResponse _ None => Throw "SyntaxError: the body is not JSON" s
  | PollResponse false (Some JNull) =>
      Throw "TypeError: Cannot read properties of null (reading 'error')" s
  | PollResponse false (Some data) =>
      if is_string "AUTH_REQUIRED" (get_property "error" data) then
        let s := set_localStorage
                   (removeItem "valyu_access_token" (localStorage s)) s in
        let s := set_localStorage (removeItem "valyu_user" (localStorage s)) s in
        let s := setUser None s in
        let s := setShowSignInModal true s in
        let s := stop_polling s in
        Normal (setIsAnalyzing false s)
      else
        Throw (match get_property "error" data with
               | Some (JString e) => if String.eqb e "" then "Failed to check status" else e
               | _ => "Failed to check status"
               end) s
  | PollResponse true (Some data) =>
      if cancelledRef s then Normal s
      else
        let s := setAnalysisResult data s in
        match data with
        | JNull =>
            Throw "TypeError: Cannot read properties of null (reading 'status')" s
        | _ =>
            let status := get_property "status" data in
            if is_string "completed" status || is_string "failed" status
               || is_string "cancelled" status
            then
              let s := stop_polling s in
              if negb (is_string "completed" status)
              then Normal (setIsAnalyzing false s)
              else Normal s
            else Normal s
        end
  end.

(** [pollStatus] after its [await]s: the [catch] logs and swallows. *)
Definition pollStatus_settle (o : PollOutcome) (s : State) : State :=
  match pollStatus_body o s with
  | Normal s' => s'
  | Throw message s' =>
      console_error_log (String.append "Polling error: " message) s'
  end.

Definition handleTaskCreated (taskId : string) (s : State) : State :=
  let s := set_cancelledRef false s in
  let s := setIsAnalyzing true s in
  let s := setCurrentTaskId (Some taskId) s in
  let s := pollStatus_send taskId s in
  let '(id, s) := setInterval taskId s in
  set_pollIntervalRef (Some id) s.

Definition handleReset (s : State) : State :=
  let s := stop_polling s in
  let s := setAnalysisResult JNull s in
  let s := setIsAnalyzing false s in
  let s := setCurrentTaskId None s in
  let s := setIsCancelling false s in
  let s := setSupplementName "" s in
  setResearchFocus "" s.

(** [handleCancel], up to its [await]: [true] when it has returned
    already, [false] when it is suspended on the cancel request. *)
Definition handleCancel_begin (s : State) : bool * State :=
  let s := set_cancelledRef true s in
  if negb (truthy (currentTaskId s)) then (true, handleReset s)
  else
    let s := setIsCancelling true s in
    (false, fetch (PostCancel (default "" (currentTaskId s)) (getAuthHeaders s)) s).

(** [handleCancel] after its [await]: the [try] body ends normally or
    by the rejection of [fetch]; the [catch] logs; the reset follows
    in both cases, and nothing is rethrown. *)
Definition handleCancel_settle (o : CancelOutcome) (s : State) : Completion :=
  let s :=
    match o with
    | CancelRejected reason =>
        console_error_log (String.append "Failed to cancel task: " reason) s
    | CancelResponse _ _ => s
    end in
  Normal (handleReset s).

(** *** The page as a transition system *)

Inductive Event : Type :=
| TaskCreated (taskId : string)
| Tick (timer : positive)
| PollSettles (taskId : string) (o : PollOutcome)
| CancelClicked
| CancelSettles (o : CancelOutcome)
| ResetClicked.

(** Removes the first occurrence of [x]; [None] when there is none. *)
Fixpoint take_out (x : string) (l : list string) : option (list string) :=
  match l with
  | [] => None
  | y :: rest =>
      if String.eqb x y then Some rest
      else match take_out x rest with
           | Some rest' => Some (y :: rest')
           | None => None
           end
  end.

Definition state_of (c : Completion) : State :=
  match c with Normal s | Throw _ s => s end.

(** One turn of the event loop; [None] when the event cannot happen in
    this state (no such live interval, no such request in flight). *)
Definition step (e : Event) (s : State) : option State :=
  match e with
  | TaskCreated taskId => Some (handleTaskCreated taskId s)
  | Tick id =>
      match timers s !! id with
      | Some taskId => Some (pollStatus_send taskId s)
      | None => None
      end
  | PollSettles taskId o =>
      match take_out taskId (pending_polls s) with
      | Some rest =>
          Some (pollStatus_settle o
                  (set_network (requests s) rest (pending_cancels s) s))
      | None => None
      end
  | CancelClicked => Some (snd (handleCancel_begin s))
  | CancelSettles o =>
      match pending_cancels s with
      | S n =>
          Some (state_of (handleCancel_settle o
                            (set_network (requests s) (pending_polls s) n s)))
      | O => None
      end
  | ResetClicked => Some (handleReset s)
  end.

Fixpoint exec (trace : list Event) (s : State) : option State :=
  match trace with
  | [] => Some s
  | e :: rest =>
      match step e s with
      | Some s' => exec rest s'
      | None => None
      end
  end.
End WithMode.

(** The controller is idle: no snapshot, not analysing, no task, no
    interval held, not cancelling. *)
Definition Idle (s : State) : Prop :=
  analysisResult s = JNull /\ isAnalyzing s = false /\ currentTaskId s = None
  /\ pollIntervalRef s = None /\ isCancelling s = false.


(** The events that start a task. *)
Definition is_task_created (e : Event) : bool :=
  match e with
  | TaskCreated _ => true
  | _ => false
  end.


End Controller.

(** ** app/components/SupplementResearchForm.tsx: submitting the form *)

Module Form.
Import WebStorage.
Export Route(Json, JNull, JBool, JNumber, JString, JArray, JObject,
             get_property, js_truthy).

(** A call of one of the props the page passes in. *)
Inductive Callback : Type :=
| onSignInClick
| onTaskCreated (taskId : option Json).

(** The body of the creation request, as the form fills it. *)
Record CreateRequest : Type := mkCreateRequest {
  authorization : option string;
  supplementName : string;
  researchFocus : string;
  currentSupplements : option string;
  healthGoals : option string
}.

(** The form's state, the storage it reads, the requests it has sent and
    the callbacks it has made. *)
Record State : Type := mkState {
  loading : bool;
  error : string;
  localStorage : Storage;
  sent : list CreateRequest;
  called : list Callback
}.

(** What [fetch] followed by [response.json()] settles to. *)
Inductive SubmitOutcome : Type :=
| SubmitRejected (reason : string)
| SubmitResponse (ok : bool) (data : option Json).

(** [x || undefined] on a string. *)
Definition or_undefined (x : string) : option string :=
  if String.eqb x "" then None else Some x.

Section WithMode.
Variable isSelfHosted : bool.

(** [handleSubmit], up to its [await]: [user] and the four inputs are
    the props and state of the render the handler belongs to. *)
Definition handleSubmit_begin (user : option Json)
    (supplementName researchFocus currentSupplements healthGoals : string)
    (s : State) : State :=
  let s := mkState (loading s) "" (localStorage s) (sent s) (called s) in
  if negb isSelfHosted && negb (js_truthy user) then
    mkState (loading s) (error s) (localStorage s) (sent s)
      (called s ++ [onSignInClick])
  else
    let accessToken :=
      if negb isSelfHosted then getItem "valyu_access_token" (localStorage s)
      else None in
    let authorization :=
      if negb isSelfHosted && truthy accessToken
      then Some (String.append "Bearer " (default "" accessToken))
      else None in
    mkState true (error s) (localStorage s)
      (sent s ++ [mkCreateRequest authorization supplementName researchFocus
                    (or_undefined currentSupplements) (or_undefined healthGoals)])
      (called s).

(** The [catch] of [handleSubmit]. *)
Definition submit_failed (message : string) (s : State) : State :=
  mkState false message (localStorage s) (sent s) (called s).

(** [handleSubmit] after its [await]s. *)
Definition handleSubmit_settle (o : SubmitOutcome) (s : State) : State :=
  match o with
  | SubmitRejected reason => submit_failed reason s
  | SubmitResponse _ None => submit_failed "SyntaxError: the body is not JSON" s
  | SubmitResponse false (Some JNull) =>
      submit_failed "TypeError: Cannot read properties of null (reading 'error')" s
  | SubmitResponse false (Some data) =>
      match get_property "error" data with
      | Some (JString e) =>
          if String.eqb e "AUTH_REQUIRED" then
            let ls := removeItem "valyu_access_token" (localStorage s) in
            let ls := removeItem "valyu_user" ls in
            mkState false (error s) ls (sent s) (called s ++ [onSignInClick])
          else submit_failed (if String.eqb e "" then "Failed to perform research" else e) s
      | _ => submit_failed "Failed to perform research" s
      end
  | SubmitResponse true (Some JNull) =>
      submit_failed "TypeError: Cannot read properties of null (reading 'deepresearch_id')" s
  | SubmitResponse true (Some data) =>
      mkState (loading s) (error s) (localStorage s) (sent s)
        (called s ++ [onTaskCreated (get_property "deepresearch_id" data)])
  end.
End WithMode.
End Form.

(** ** An instance of the platform's JSON functions

    [JSON.stringify] and [JSON.parse] on form values whose strings hold no
    quotation mark, backslash or control character, so that no escape is
    needed.  The facts below hold for any implementation; this one lets
    them be evaluated. *)

Module PlainJSON.
Import OAuthForm.

Definition dquote : ascii := "034"%char.

Definition quoted (s : string) : string :=
  String dquote (String.append s (String dquote EmptyString)).

Definition member (k : string) (v : option string) : list string :=
  match v with
  | Some s => [String.append (quoted k) (String ":" (quoted s))]
  | None => []
  end.

Definition stringify (v : OAuthFormValues) : string :=
  String.append "{"
    (String.append
       (Route.join "," (member "supplementName" (supplementName v)
                        ++ member "researchFocus" (researchFocus v)))
       "}").

(** A quoted string at the head of [s], and what follows it. *)
Definition read_string (s : string) : option (string * string) :=
  match s with
  | String q rest =>
      if Ascii.eqb q dquote then
        let '(text, after) := OAuthFlow.span_until (Ascii.eqb dquote) rest in
        match after with
        | String _ after' => Some (text, after')
        | EmptyString => None
        end
      else None
  | EmptyString => None
  end.

(** The members up to the closing brace, which must end the text. *)
Fixpoint read_members (fuel : nat) (s : string) : option (list (string * string)) :=
  match fuel with
  | O => None
  | S fuel =>
      match read_string s with
      | Some (k, String ":" after) =>
          match read_string after with
          | Some (v, String "," more) =>
              match read_members fuel more with
              | Some ms => Some ((k, v) :: ms)
              | None => None
              end
          | Some (v, String "}" EmptyString) => Some [(k, v)]
          | _ => None
          end
      | _ => None
      end
  end.

Fixpoint field (k : string) (ms : list (string * string)) : option string :=
  match ms with
  | [] => None
  | (k', v) :: rest =>
      match field k rest with
      | Some later => Some later
      | None => if String.eqb k k' then Some v else None
      end
  end.

Definition parse (text : string) : option (option OAuthFormValues) :=
  if String.eqb text "null" then Some None
  else if String.eqb text "{}" then Some (Some (mkFormValues None None))
  else
    match text with
    | String "{" rest =>
        match read_members (String.length rest) rest with
        | Some ms =>
            Some (Some (mkFormValues (field "supplementName" ms)
                          (field "researchFocus" ms)))
        | None => None
        end
    | _ => None
    end.
End PlainJSON.

(** ** The inverse of the encoding

    Not part of the source: the decoder by which the encoding of
    [base64URLEncode] is shown to lose nothing. *)

Module Base64Inverse.
Import PKCE.

(** A character of the URL-safe alphabet. *)
Definition url_safe (c : ascii) : bool :=
  let n := N_of_ascii c in
  ((48 <=? n) && (n <=? 57) || (65 <=? n) && (n <=? 90)
   || (97 <=? n) && (n <=? 122) || (n =? 45) || (n =? 95))%N.

(** The position of a character in an alphabet, counted from [i]. *)
Fixpoint position (c : ascii) (alphabet : string) (i : N) : N :=
  match alphabet with
  | EmptyString => 0
  | String x rest => if Ascii.eqb x c then i else position c rest (N.succ i)
  end.

Definition sextet_of (c : ascii) : N := position c b64url_alphabet 0.

Definition octet (n : N) : byte :=
  match Byte.of_N (N.land n 255) with
  | Some b => b
  | None => x00
  end.

Definition octet1 (i1 i2 : N) : byte :=
  octet (N.lor (N.shiftl i1 2) (N.shiftr i2 4)).
Definition octet2 (i2 i3 : N) : byte :=
  octet (N.lor (N.shiftl (N.land i2 15) 4) (N.shiftr i3 2)).
Definition octet3 (i3 i4 : N) : byte :=
  octet (N.lor (N.shiftl (N.land i3 3) 6) i4).

Fixpoint base64url_decode (s : string) : list byte :=
  match s with
  | String c1 (String c2 (String c3 (String c4 rest))) =>
      let i1 := sextet_of c1 in
      let i2 := sextet_of c2 in
      let i3 := sextet_of c3 in
      let i4 := sextet_of c4 in
      octet1 i1 i2 :: octet2 i2 i3 :: octet3 i3 i4 :: base64url_decode rest
  | String c1 (String c2 (String c3 EmptyString)) =>
      let i1 := sextet_of c1 in
      let i2 := sextet_of c2 in
      let i3 := sextet_of c3 in
      [octet1 i1 i2; octet2 i2 i3]
  | String c1 (String c2 EmptyString) =>
      [octet1 (sextet_of c1) (sextet_of c2)]
  | _ => []
  end.

(** Every octet and every pair of octets satisfies [p]: decided by
    running through them. *)
Definition octets : list N := map N.of_nat (seq 0 256).
Definition all_octets (p : N -> bool) : bool := forallb p octets.
Definition all_pairs (p : N -> N -> bool) : bool :=
  forallb (fun a => forallb (p a) octets) octets.

(** What the decoder needs of one character and of two neighbours. *)
Definition decodes_first (a b : N) : bool :=
  Byte.eqb (octet1 (sextet_of (sextet_char b64url_alphabet (sextet1 a)))
              (sextet_of (sextet_char b64url_alphabet (sextet2 a b))))
    (octet a).
Definition second_high (a b : N) : bool :=
  (N.land (sextet_of (sextet_char b64url_alphabet (sextet2 a b))) 15
   =? N.shiftr b 4)%N.
Definition second_low (b c : N) : bool :=
  (N.shiftr (sextet_of (sextet_char b64url_alphabet (sextet3 b c))) 2
   =? N.land b 15)%N.
Definition second_whole (b : N) : bool :=
  Byte.eqb (octet (N.lor (N.shiftl (N.shiftr b 4) 4) (N.land b 15))) (octet b).
Definition third_high (b c : N) : bool :=
  (N.land (sextet_of (sextet_char b64url_alphabet (sextet3 b c))) 3
   =? N.shiftr c 6)%N.
Definition third_whole (c : N) : bool :=
  Byte.eqb (octet (N.lor (N.shiftl (N.shiftr c 6) 6)
                      (sextet_of (sextet_char b64url_alphabet (sextet4 c)))))
    (octet c).
End Base64Inverse.

(** ** Measures of a serialized query

    Not part of the source: what the statements about the serializer
    count and test. *)

Module QueryShape.
Import OAuthFlow.

(** A character the serializer may put out for a name or a value. *)
Definition form_safe (c : ascii) : bool :=
  form_unreserved c || Ascii.eqb c "+" || Ascii.eqb c "%".

(** The number of occurrences of [c] in [s]. *)
Fixpoint count_char (c : ascii) (s : string) : nat :=
  match s with
  | EmptyString => 0
  | String x rest => (if Ascii.eqb x c then 1 else 0) + count_char c rest
  end.
End QueryShape.

(** ** The form's request on the wire *)

Module Wire.
Import Route.

(** [x: v] in an object literal handed to [JSON.stringify]: a property
    that is [undefined] is left out. *)
Definition property (k : string) (v : option string) : list (string * Json) :=
  match v with
  | Some s => [(k, JString s)]
  | None => []
  end.

(** Platform: a header value on its way from [fetch] to the handler.
    [fetch] takes header values as byte strings, so a character above
    U+00FF (in UTF-8, a byte from C4 on) makes it reject with a TypeError;
    it strips HTTP white space (tab, line feed, carriage return, space)
    from both ends, and rejects what then still holds a NUL, a line feed
    or a carriage return.  What remains is modelled when it is made of
    tabs and printable ASCII, which HTTP carries as it is. *)
Definition http_whitespace (c : ascii) : bool :=
  let n := N_of_ascii c in
  ((n =? 9) || (n =? 10) || (n =? 13) || (n =? 32))%N.

Definition above_latin1 (c : ascii) : bool := (196 <=? N_of_ascii c)%N.

Definition breaks_header (c : ascii) : bool :=
  let n := N_of_ascii c in ((n =? 0) || (n =? 10) || (n =? 13))%N.

Definition field_text (c : ascii) : bool :=
  let n := N_of_ascii c in ((n =? 9) || (32 <=? n) && (n <=? 126))%N.

Definition trim_start : string -> string := drop_start http_whitespace.
Definition trim_end : string -> string := drop_end http_whitespace.

Definition header_on_the_wire (value : string) : Platform string :=
  if some_char above_latin1 value then Throws
  else
    let normalized := trim_end (trim_start value) in
    if some_char breaks_header normalized then Throws
    else if every_char field_text normalized then Gives normalized
    else Unmodelled.

(** The request [handleSubmit] sends, as the route receives it: the
    Authorization header as it arrives, and the body the form
    stringified, parsed.  [Throws]: [fetch] rejects and nothing is
    sent. *)
Definition received (c : Form.CreateRequest) : Platform NextRequest :=
  let body :=
    inr (JObject
           ([ ("supplementName", JString (Form.supplementName c));
              ("researchFocus", JString (Form.researchFocus c)) ]
            ++ property "currentSupplements" (Form.currentSupplements c)
            ++ property "healthGoals" (Form.healthGoals c))) in
  match Form.authorization c with
  | None => Gives (mkRequest None body)
  | Some value =>
      match header_on_the_wire value with
      | Gives arrived => Gives (mkRequest (Some arrived) body)
      | Throws => Throws
      | Unmodelled => Unmodelled
      end
  end.


(** The route's response, as [handleSubmit] receives it: [response.ok]
    is a status from 200 to 299, and the body is the JSON that was sent. *)
Definition answered (r : HttpResponse) : Form.SubmitOutcome :=
  Form.SubmitResponse ((200 <=? status r)%N && (status r <=? 299)%N)
    (Some (JObject (json r))).
End Wire.

(** ** app/page.tsx and components/ResearchResults.tsx: what is on screen *)

Module Page.
Import WebStorage Controller.

(** [const isHomepage = !isAnalyzing && !analysisResult]. *)
Definition isHomepage (s : State) : bool :=
  negb (isAnalyzing s) && negb (js_truthy (Some (analysisResult s))).

(** The prop [isLoading={isAnalyzing && !analysisResult}]. *)
Definition isLoading (s : State) : bool :=
  isAnalyzing s && negb (js_truthy (Some (analysisResult s))).

Inductive Screen : Type :=
| FormScreen
| LoadingCard
| ResultsScreen.

(** The page renders the form on the homepage and [ResearchResults]
    otherwise, which renders the loading card under
    [isLoading || !result || !result.output] and the results otherwise. *)
Definition screen (s : State) : Screen :=
  if isHomepage s then FormScreen
  else if isLoading s
          || negb (js_truthy (Some (analysisResult s)))
          || negb (js_truthy (get_property "output" (analysisResult s)))
       then LoadingCard
       else ResultsScreen.

(** The Authorization header of a request. *)
Definition credentials (r : Request) : option string :=
  match r with
  | GetStatus _ h | PostCancel _ h => h
  end.

(** A settlement that [pollStatus] takes for a passing failure: [fetch]
    rejects, the body is not JSON, or the response is not ok and is not
    the sign-in signal. *)
Definition transient (o : PollOutcome) : bool :=
  match o with
  | PollRejected _ => true
  | PollResponse _ None => true
  | PollResponse false (Some data) =>
      negb (is_string "AUTH_REQUIRED" (get_property "error" data))
  | PollResponse true (Some _) => false
  end.

(** Every live interval is the one the controller holds, and it holds
    none when nothing is being analysed. *)
Definition tidy (s : State) : Prop :=
  (forall id t, timers s !! id = Some t -> pollIntervalRef s = Some id)
  /\ (isAnalyzing s = false -> pollIntervalRef s = None).

Section WithMode.
Variable isSelfHosted : bool.

(** The form is rendered only on the homepage, and its button is disabled
    from the submit to the answer: along [trace], no task is created
    while one is being analysed. *)
Fixpoint submits_when_idle (trace : list Event) (s : State) : bool :=
  match trace with
  | [] => true
  | e :: rest =>
      (if is_task_created e then negb (isAnalyzing s) else true)
      && match step isSelfHosted e s with
         | Some s' => submits_when_idle rest s'
         | None => true
         end
  end.

(** The platform's [JSON.parse] on the stored profile and on the stored
    form values ([None] when it throws). *)
Variable JSON_parse_user : string -> option Json.
Variable JSON_parse : string -> option (option OAuthForm.OAuthFormValues).

(** [setUser(JSON.parse(text))] inside [try], with [on_throw] as the
    [catch]. *)
Definition load_user (text : option string) (on_throw : State -> State)
    (s : State) : State :=
  match text with
  | Some t =>
      if truthy text then
        match JSON_parse_user t with
        | Some JNull => setUser None s
        | Some profile => setUser (Some profile) s
        | None => on_throw s
        end
      else s
  | None => s
  end.

(** The effect that runs when the page is loaded; [auth] is
    [searchParams.get('auth')].  The result says whether the success
    notice was shown (with its five-second timer set and the address
    replaced by [/]). *)
Definition on_load (auth : option string) (s : State) : State * bool :=
  if isSelfHosted then (s, false)
  else
    let s :=
      load_user (getItem "valyu_user" (localStorage s))
        (fun s =>
           set_localStorage (removeItem "valyu_user" (localStorage s))
             (console_error_log "Failed to parse user data:" s))
        s in
    match auth with
    | Some status =>
        if String.eqb status "success" then
          let s :=
            load_user (getItem "valyu_user" (localStorage s))
              (console_error_log "Failed to parse user data:") s in
          let '(savedFormValues, ls) :=
            OAuthForm.restoreFormValuesAfterOAuth JSON_parse (localStorage s) in
          let s := set_localStorage ls s in
          let s :=
            match savedFormValues with
            | Some values =>
                let s :=
                  if truthy (OAuthForm.supplementName values)
                  then setSupplementName (default "" (OAuthForm.supplementName values)) s
                  else s in
                if truthy (OAuthForm.researchFocus values)
                then setResearchFocus (default "" (OAuthForm.researchFocus values)) s
                else s
            | None => s
            end in
          (s, true)
        else (s, false)
    | None => (s, false)
    end.
End WithMode.

(** [SignInModal]: the page passes [formValues={{ supplementName,
    researchFocus }}], and [handleSignIn] starts the flow with them. *)
Definition handleSignIn (JSON_stringify : OAuthForm.OAuthFormValues -> string)
    (env : OAuthFlow.Env) (s : State) (b : OAuthFlow.Browser)
    : OAuthFlow.Completion :=
  OAuthFlow.initiateOAuthFlow JSON_stringify env
    (Some (OAuthForm.mkFormValues (Some (supplementName s)) (Some (researchFocus s))))
    b.
End Page.

(** ** Measures of the progress percentage

    Not part of the source: what the statements about the percentage
    decide by running through the payloads. *)

Module ProgressShape.
Import ProgressBar.

(** From step [c] to step [c + 1] of [t] the percentage shown does not
    go down, and both lie between 0 and 100. *)
Definition steps_up (c t : Z) : bool :=
  match shown_percent c t, shown_percent (c + 1) t with
  | Some p, Some q => ((0 <=? p) && (p <=? q) && (q <=? 100))%Z
  | _, _ => false
  end.

(** The bar starts at 0, ends at 100 and never goes down in between, for
    every total from 1 to [n]. *)
Definition shows (c t p : Z) : bool :=
  match shown_percent c t with
  | Some q => (q =? p)%Z
  | None => false
  end.

Definition steps_up_below (n : nat) : bool :=
  forallb (fun t =>
             shows 0 (Z.of_nat (S t)) 0
             && shows (Z.of_nat (S t)) (Z.of_nat (S t)) 100
             && forallb (fun c => steps_up (Z.of_nat c) (Z.of_nat (S t)))
                  (seq 0 (S t)))
    (seq 0 n).

(** With a total of zero nothing is shown as a number, for every step
    from 0 to [n]. *)
Definition zero_total_below (n : nat) : bool :=
  forallb (fun c => match shown_percent (Z.of_nat c) 0 with
                    | None => true
                    | Some _ => false
                    end)
    (seq 0 (S n)).
End ProgressShape.

(** * Verified properties *)

(** ** Form values across the redirect *)

Module OAuthFormFacts.
Import WebStorage OAuthForm.

Section Restore.
Variable JSON_parse : string -> option (option OAuthFormValues).

Lemma restore_absent (ls : Storage) :
  ls !! OAUTH_FORM_VALUES_KEY = None ->
  restoreFormValuesAfterOAuth JSON_parse ls = (None, ls).
Proof.
  intros Hnone. unfold restoreFormValuesAfterOAuth, getItem.
  now rewrite Hnone.
Qed.

(** After any call, nothing truthy is left under the key. *)
Lemma restore_leaves_nothing (ls : Storage) :
  truthy (snd (restoreFormValuesAfterOAuth JSON_parse ls)
            !! OAUTH_FORM_VALUES_KEY) = false.
Proof.
  unfold restoreFormValuesAfterOAuth, getItem, removeItem.
  destruct (ls !! OAUTH_FORM_VALUES_KEY) as [text|] eqn:Hget.
  - destruct (truthy (Some text)) eqn:Htruthy.
    + destruct (JSON_parse text) as [v|]; simpl;
        now rewrite lookup_delete_eq.
    + simpl. now rewrite Hget.
  - simpl. now rewrite Hget.
Qed.

Lemma restore_not_truthy (ls : Storage) :
  truthy (ls !! OAUTH_FORM_VALUES_KEY) = false ->
  restoreFormValuesAfterOAuth JSON_parse ls = (None, ls).
Proof.
  intros Hfalsy. unfold restoreFormValuesAfterOAuth, getItem.
  destruct (ls !! OAUTH_FORM_VALUES_KEY) as [text|]; [|reflexivity].
  now rewrite Hfalsy.
Qed.

Lemma restore_twice_null (ls : Storage) :
  let after := snd (restoreFormValuesAfterOAuth JSON_parse ls) in
  restoreFormValuesAfterOAuth JSON_parse after = (None, after).
Proof.
  intros after. apply restore_not_truthy, restore_leaves_nothing.
Qed.
End Restore.

(** C5.  [restoreFormValuesAfterOAuth] delivers the saved form values at
    most once.  For values that [JSON.stringify] and [JSON.parse] carry
    faithfully: after [saveFormValuesBeforeOAuth values], the first call
    returns [values] and removes the entry in the same call, and the
    second call returns null.  With nothing stored the call returns null.
    In every storage state, a call that directly follows another returns
    null. *)
Theorem restoreFormValues_at_most_once
    (JSON_stringify : OAuthFormValues -> string)
    (JSON_parse : string -> option (option OAuthFormValues))
    (values : OAuthFormValues) (ls : Storage) :
  JSON_stringify values <> "" ->
  JSON_parse (JSON_stringify values) = Some (Some values) ->
  let saved := saveFormValuesBeforeOAuth JSON_stringify values ls in
  let first := restoreFormValuesAfterOAuth JSON_parse saved in
  let second := restoreFormValuesAfterOAuth JSON_parse (snd first) in
  fst first = Some values
  /\ snd first !! OAUTH_FORM_VALUES_KEY = None
  /\ fst second = None
  /\ (forall ls0 : Storage,
        ls0 !! OAUTH_FORM_VALUES_KEY = None ->
        restoreFormValuesAfterOAuth JSON_parse ls0 = (None, ls0))
  /\ (forall ls0 : Storage,
        fst (restoreFormValuesAfterOAuth JSON_parse
               (snd (restoreFormValuesAfterOAuth JSON_parse ls0))) = None).
Proof.
  intros Hnonempty Hroundtrip saved first second.
  assert (Hfirst : first = (Some values, delete OAUTH_FORM_VALUES_KEY saved)).
  { subst first saved.
    unfold restoreFormValuesAfterOAuth, saveFormValuesBeforeOAuth,
      getItem, setItem, removeItem.
    rewrite lookup_insert_eq. simpl.
    destruct (String.eqb_spec (JSON_stringify values) "") as [E|_];
      [contradiction|]. simpl.
    now rewrite Hroundtrip. }
  split; [now rewrite Hfirst|].
  split; [rewrite Hfirst; simpl; apply lookup_delete_eq|].
  split; [unfold second, first; now rewrite restore_twice_null|].
  split; [apply restore_absent|].
  intros ls0. now rewrite restore_twice_null.
Qed.

Lemma restoreFormValues_at_most_once_witness :
  let values := mkFormValues (Some "Magnesium") (Some "sleep quality") in
  let saved := saveFormValuesBeforeOAuth PlainJSON.stringify values ∅ in
  let first := restoreFormValuesAfterOAuth PlainJSON.parse saved in
  fst first = Some values
  /\ fst (restoreFormValuesAfterOAuth PlainJSON.parse (snd first)) = None.
Proof.
  intros values saved first.
  destruct (restoreFormValues_at_most_once PlainJSON.stringify PlainJSON.parse
              values ∅) as (H1 & _ & H3 & _).
  - vm_compute. discriminate.
  - vm_compute. reflexivity.
  - split; [exact H1 | exact H3].
Defined.
End OAuthFormFacts.

(** ** Starting the authorization request *)

Module OAuthFlowFacts.
Import WebStorage OAuthForm PKCE OAuthFlow.

Section Flow.
Variable JSON_stringify : OAuthFormValues -> string.

(** The flow, unfolded for a configured environment. *)
Lemma initiateOAuthFlow_configured (env : Env)
    (formValues : option OAuthFormValues) (b : Browser) :
  isOAuthConfigured env = true ->
  let verifier := fst (generateCodeVerifier (rng b)) in
  let rng1 := snd (generateCodeVerifier (rng b)) in
  let state := fst (generateCodeVerifier rng1) in
  let rng2 := snd (generateCodeVerifier rng1) in
  let ls := match formValues with
            | Some values =>
                <[OAUTH_FORM_VALUES_KEY := JSON_stringify values]> (localStorage b)
            | None => localStorage b
            end in
  let ss := <["oauth_state" := state]>
              (<["oauth_code_verifier" := verifier]> (sessionStorage b)) in
  initiateOAuthFlow JSON_stringify env formValues b =
  match URL_origin (non_null (NEXT_PUBLIC_VALYU_AUTH_URL env)) with
  | Throws => Threw "TypeError: Invalid URL"
                (mkBrowser ls ss (location_href b) (console_warn b) rng2)
  | Unmodelled =>
      Unmodelled_from (mkBrowser ls ss (location_href b) (console_warn b) rng2)
  | Gives o =>
      Returned
        (mkBrowser ls ss
           (URL_toString
              (mkURL o "/auth/v1/oauth/authorize"
                 [ ("client_id", non_null (NEXT_PUBLIC_VALYU_CLIENT_ID env));
                   ("redirect_uri", non_null (NEXT_PUBLIC_REDIRECT_URI env));
                   ("response_type", "code");
                   ("scope", "openid profile email");
                   ("code_challenge", generateCodeChallenge verifier);
                   ("code_challenge_method", "S256");
                   ("state", state) ]))
           (console_warn b) rng2)
  end.
Proof.
  intros Hcfg verifier rng1 state rng2 ls ss.
  unfold initiateOAuthFlow. rewrite Hcfg. cbn [negb].
  subst verifier rng1 state rng2 ls ss.
  unfold generateCodeVerifier, getRandomValues, new_URL.
  change (plain_path "/auth/v1/oauth/authorize") with true.
  cbn [fst snd].
  destruct (URL_origin (non_null (NEXT_PUBLIC_VALYU_AUTH_URL env))) as [o| |];
    destruct formValues as [values|]; reflexivity.
Qed.

End Flow.












(** What the parser does to a base that is not in normal form, on nine
    texts: the default port, upper case, white space and the path are
    dropped; a missing or a broken scheme, and a missing host, make the
    constructor throw. *)
Example URL_origin_examples :
  URL_origin "https://auth.valyu.ai" = Gives "https://auth.valyu.ai"
  /\ URL_origin "https://auth.valyu.ai:443" = Gives "https://auth.valyu.ai"
  /\ URL_origin "https://auth.valyu.ai:8443/" = Gives "https://auth.valyu.ai:8443"
  /\ URL_origin "HTTPS://Auth.Valyu.AI/base?x=1#top" = Gives "https://auth.valyu.ai"
  /\ URL_origin " https://auth.valyu.ai " = Gives "https://auth.valyu.ai"
  /\ URL_origin "https:auth.valyu.ai" = Gives "https://auth.valyu.ai"
  /\ URL_origin "http://localhost:3000" = Gives "http://localhost:3000"
  /\ URL_origin "http s://auth.valyu.ai" = Throws
  /\ URL_origin "auth.valyu.ai" = Throws
  /\ URL_origin "https://" = Throws
  /\ URL_origin "https://auth.valyu.ai:99999" = Throws
  /\ URL_origin "https://user@auth.valyu.ai" = Unmodelled
  /\ URL_origin "http://127.0.0.1:3000" = Unmodelled.
Proof. vm_compute. repeat split; reflexivity. Qed.




(** C8.  For a configured environment, whether or not the redirect then
    succeeds: the code verifier and the state token are written to
    [sessionStorage] and nothing else is; [localStorage] receives the
    form values, when given, under their key and is otherwise unchanged,
    so neither token is written there.  A new browsing session therefore
    finds neither token, while the form values are still in
    [localStorage] after a navigation away and back, and in a new
    session. *)
Theorem initiateOAuthFlow_storage_scopes
    (JSON_stringify : OAuthFormValues -> string) (env : Env)
    (formValues : option OAuthFormValues) (b : Browser) :
  isOAuthConfigured env = true ->
  let after := browser_of (initiateOAuthFlow JSON_stringify env formValues b) in
  let verifier := fst (generateCodeVerifier (rng b)) in
  let state := fst (generateCodeVerifier (snd (generateCodeVerifier (rng b)))) in
  sessionStorage after =
    <["oauth_state" := state]>
      (<["oauth_code_verifier" := verifier]> (sessionStorage b))
  /\ localStorage after =
     match formValues with
     | Some values =>
         <[OAUTH_FORM_VALUES_KEY := JSON_stringify values]> (localStorage b)
     | None => localStorage b
     end
  /\ getItem "oauth_code_verifier" (localStorage after)
     = getItem "oauth_code_verifier" (localStorage b)
  /\ getItem "oauth_state" (localStorage after)
     = getItem "oauth_state" (localStorage b)
  /\ getItem "oauth_code_verifier" (sessionStorage (new_session after)) = None
  /\ getItem "oauth_state" (sessionStorage (new_session after)) = None
  /\ (forall values back_to,
        formValues = Some values ->
        getItem OAUTH_FORM_VALUES_KEY
          (localStorage (navigate_away_and_back back_to after))
        = Some (JSON_stringify values)
        /\ getItem OAUTH_FORM_VALUES_KEY (localStorage (new_session after))
           = Some (JSON_stringify values)
        /\ getItem "oauth_code_verifier"
             (sessionStorage (navigate_away_and_back back_to after))
           = Some verifier
        /\ getItem "oauth_state"
             (sessionStorage (navigate_away_and_back back_to after))
           = Some state).
Proof.
  intros Hcfg after verifier state.
  assert (Hss : sessionStorage after =
                <["oauth_state" := state]>
                  (<["oauth_code_verifier" := verifier]> (sessionStorage b))
                /\ localStorage after =
                   match formValues with
                   | Some values =>
                       <[OAUTH_FORM_VALUES_KEY := JSON_stringify values]> (localStorage b)
                   | None => localStorage b
                   end).
  { subst after.
    rewrite (initiateOAuthFlow_configured JSON_stringify env formValues b Hcfg).
    destruct (URL_origin (non_null (NEXT_PUBLIC_VALYU_AUTH_URL env)));
      split; reflexivity. }
  destruct Hss as [Hss Hls].
  split; [exact Hss|]. split; [exact Hls|].
  unfold getItem, new_session, navigate_away_and_back. cbn [localStorage sessionStorage].
  rewrite Hls, Hss.
  split.
  { destruct formValues; [|reflexivity].
    now rewrite lookup_insert_ne. }
  split.
  { destruct formValues; [|reflexivity].
    now rewrite lookup_insert_ne. }
  split; [apply lookup_empty|]. split; [apply lookup_empty|].
  intros values back_to ->.
  rewrite lookup_insert_eq.
  repeat split.
  - rewrite lookup_insert_ne by discriminate. apply lookup_insert_eq.
  - apply lookup_insert_eq.
Qed.

Lemma initiateOAuthFlow_storage_scopes_witness :
  let values := mkFormValues (Some "Magnesium") (Some "sleep quality") in
  let after :=
    browser_of
      (initiateOAuthFlow PlainJSON.stringify
         (mkEnv (Some "client-1") (Some "https://auth.valyu.ai")
            (Some "http://localhost:3000/auth/valyu/callback"))
         (Some values) (mkBrowser ∅ ∅ "http://localhost:3000/" [] [])) in
  getItem "oauth_code_verifier" (sessionStorage (new_session after)) = None
  /\ getItem OAUTH_FORM_VALUES_KEY (localStorage (new_session after))
     = Some (PlainJSON.stringify values).
Proof.
  intros values after.
  destruct (initiateOAuthFlow_storage_scopes PlainJSON.stringify
              (mkEnv (Some "client-1") (Some "https://auth.valyu.ai")
                 (Some "http://localhost:3000/auth/valyu/callback"))
              (Some values) (mkBrowser ∅ ∅ "http://localhost:3000/" [] [])
              eq_refl)
    as (_ & _ & _ & _ & Hnew & _ & Hform).
  split; [exact Hnew|].
  destruct (Hform values "http://localhost:3000/?auth=success" eq_refl)
    as (_ & Hkept & _).
  exact Hkept.
Defined.
End OAuthFlowFacts.

(** ** The code challenge *)

Module PKCEFacts.
Import PKCE.

(** Induction on an octet sequence, three octets at a time. *)
Lemma triples_ind (P : list byte -> Prop) :
  P [] ->
  (forall a, P [a]) ->
  (forall a b, P [a; b]) ->
  (forall a b c rest, P rest -> P (a :: b :: c :: rest)) ->
  forall l, P l.
Proof.
  intros H0 H1 H2 H3 l.
  assert (H : P l /\ (forall a, P (a :: l)) /\ (forall a b, P (a :: b :: l))).
  { induction l as [|x l (IH0 & IH1 & IH2)].
    - repeat split; auto.
    - repeat split; auto. }
  apply H.
Qed.

Lemma append_assoc (a b c : string) :
  String.append (String.append a b) c = String.append a (String.append b c).
Proof.
  induction a as [|x a IH]; [reflexivity|].
  change (String x (String.append (String.append a b) c)
          = String x (String.append a (String.append b c))).
  now rewrite IH.
Qed.

Lemma replaceAll_append (c : ascii) (by_ s t : string) :
  replaceAll c by_ (String.append s t)
  = String.append (replaceAll c by_ s) (replaceAll c by_ t).
Proof.
  induction s as [|x s IH]; [reflexivity|].
  change (String.append (String x s) t) with (String x (String.append s t)).
  cbn [replaceAll]. rewrite IH.
  destruct (Ascii.eqb x c); [|reflexivity].
  symmetry. apply append_assoc.
Qed.

Lemma to_url_cons (c : ascii) (s : string) :
  to_url (String c s) = String.append (to_url (String c EmptyString)) (to_url s).
Proof.
  unfold to_url.
  rewrite <- !replaceAll_append. reflexivity.
Qed.

(** On each of the 64 characters of the alphabet the replacements give
    the character of the URL-safe alphabet at the same index. *)
Lemma to_url_sextet (i : N) :
  to_url (String (sextet_char b64_alphabet i) EmptyString)
  = String (sextet_char b64url_alphabet i) EmptyString.
Proof.
  unfold sextet_char.
  generalize (N.to_nat i) as n. intros n.
  do 64 (destruct n as [|n]; [reflexivity|]).
  reflexivity.
Qed.

Lemma to_url_sextet_cons (i : N) (s : string) :
  to_url (String (sextet_char b64_alphabet i) s)
  = String (sextet_char b64url_alphabet i) (to_url s).
Proof. rewrite to_url_cons, to_url_sextet. reflexivity. Qed.

Lemma N_of_ascii_of_byte (a : byte) :
  N_of_ascii (ascii_of_byte a) = Byte.to_N a.
Proof. destruct a; reflexivity. Qed.

(** [base64URLEncode] is the unpadded URL-safe base64 encoding. *)
Lemma base64URLEncode_spec (buffer : list byte) :
  base64URLEncode buffer = base64url_nopad_spec buffer.
Proof.
  change (base64URLEncode buffer) with (to_url (btoa (fromCharCode buffer))).
  induction buffer as [|a|a b|a b c rest IH] using triples_ind.
  - reflexivity.
  - cbn [fromCharCode string_of_list_byte map string_of_list_ascii btoa
           base64url_nopad_spec].
    rewrite !to_url_sextet_cons, N_of_ascii_of_byte. reflexivity.
  - cbn [fromCharCode string_of_list_byte map string_of_list_ascii btoa
           base64url_nopad_spec].
    rewrite !to_url_sextet_cons, !N_of_ascii_of_byte. reflexivity.
  - cbn [fromCharCode string_of_list_byte map string_of_list_ascii btoa
           base64url_nopad_spec].
    rewrite !to_url_sextet_cons, !N_of_ascii_of_byte.
    unfold fromCharCode, string_of_list_byte in IH. now rewrite IH.
Qed.

(** C6.  [generateCodeChallenge] is a function of the verifier alone, so
    equal verifiers give equal challenges; its value is the unpadded
    URL-safe base64 encoding of the SHA-256 digest of the verifier's
    octets; and on the verifier of RFC 7636, appendix B, it gives the
    challenge printed there. *)
Theorem generateCodeChallenge_base64url_sha256 :
  (forall v w : string, v = w -> generateCodeChallenge v = generateCodeChallenge w)
  /\ (forall v : string,
        generateCodeChallenge v
        = base64url_nopad_spec (SHA256.digest (list_byte_of_string v)))
  /\ generateCodeChallenge "dBjftJeZ4CVP-mB92K27uhbUJU1p1r_wW1gFWFOEjXk"
     = "E9Melhoa2OwvFrEMTJguCHaoeK1t8URWbuGJSstw-cM".
Proof.
  split; [intros v w ->; reflexivity|].
  split; [intros v; apply base64URLEncode_spec|].
  vm_compute. reflexivity.
Qed.

(** The derived constants, at both ends of their tables. *)
Example sha256_constants :
  length SHA256.K = 64 /\ length SHA256.H0 = 8
  /\ nth 0 SHA256.K 0%Z = 0x428a2f98%Z /\ nth 63 SHA256.K 0%Z = 0xc67178f2%Z
  /\ nth 0 SHA256.H0 0%Z = 0x6a09e667%Z /\ nth 7 SHA256.H0 0%Z = 0x5be0cd19%Z.
Proof. vm_compute. repeat split; reflexivity. Qed.

(** The digest on the one-block and two-block vectors of FIPS 180-4. *)
Example sha256_abc :
  base64URLEncode (SHA256.digest (list_byte_of_string "abc"))
  = "ungWv48Bz-pBQUDeXa4iI7ADYaOWF3qctBD_YfIAFa0".
Proof. vm_compute. reflexivity. Qed.

Example sha256_two_blocks :
  base64URLEncode
    (SHA256.digest
       (list_byte_of_string
          "abcdbcdecdefdefgefghfghighijhijkijkljklmklmnlmnomnopnopq"))
  = "JI1qYdIGOLjlwCaTDD5gOaM85Flk_yFn9uzt1BnbBsE".
Proof. vm_compute. reflexivity. Qed.
End PKCEFacts.

(** ** The progress percentage *)

Module ProgressBarFacts.
Import ProgressBar.
Local Open Scope Z_scope.






End ProgressBarFacts.

(** ** The task-creation route *)

Module RouteFacts.
Import Route.



(** C10 as first stated fails: the JSON body [null] has no
    [supplementName] and, with a bearer token or in self-hosted mode,
    passes the gate; the destructuring of [null] throws, and the answer is
    a 500 whose error text is not [Supplement name is required]. *)
Lemma POST_null_body_answers_500 :
  let hosted :=
    POST false (fun _ => "0") (fun _ => "500")
      (fun _ _ _ => inl (mkExn "unreachable" false))
      (fun _ _ => inl (mkExn "unreachable" false))
      (mkRequest (Some "Bearer token-1") (inr JNull)) in
  let self_hosted :=
    POST true (fun _ => "0") (fun _ => "500")
      (fun _ _ _ => inl (mkExn "unreachable" false))
      (fun _ _ => inl (mkExn "unreachable" false))
      (mkRequest None (inr JNull)) in
  get_property "supplementName" JNull = None
  /\ bearer_token (Some "Bearer token-1") = Some "token-1"
  /\ status (fst hosted) = 500%N /\ snd hosted = []
  /\ status (fst self_hosted) = 500%N /\ snd self_hosted = []
  /\ assoc "error" (json (fst hosted))
     <> Some (JString "Supplement name is required").
Proof. vm_compute. repeat split; try reflexivity. discriminate. Qed.

(** The gate and the name check on the three kinds of request. *)
Example POST_hosted_without_token :
  fst (POST false (fun _ => "0") (fun _ => "500")
         (fun _ _ _ => inl (mkExn "down" false)) (fun _ _ => inl (mkExn "down" false))
         (mkRequest None (inr (JObject []))))
  = mkResponse 401 [ ("error", JString "AUTH_REQUIRED");
                     ("message", JString "Sign in with Valyu to continue.") ].
Proof. reflexivity. Qed.

Example POST_self_hosted_creates_task :
  POST true (fun _ => "0") (fun _ => "500")
    (fun _ _ _ => inl (mkExn "down" false))
    (fun _ _ => inr (JObject [("deepresearch_id", JString "abc123")]))
    (mkRequest None (inr (JObject [("supplementName", JString "Magnesium")])))
  = (mkResponse 200
       [ ("success", JBool true);
         ("deepresearch_id", JString "abc123");
         ("status", JString "queued");
         ("message", JString "Research task created. Poll the status endpoint to check progress.") ],
     [ SdkCreate
         (default EmptyString
            (researchQuery (fun _ => "0") (Some (JString "Magnesium")) None None None))
         "Magnesium" ]).
Proof. reflexivity. Qed.

(** A field that has no primitive stops the handler before it goes
    upstream: the template literal throws, and the answer is a 500. *)
Example POST_name_without_primitive :
  POST true (fun _ => "0") (fun _ => "500")
    (fun _ _ _ => inl (mkExn "down" false))
    (fun _ _ => inr (JObject [("deepresearch_id", JString "abc123")]))
    (mkRequest None
       (inr (JObject [("supplementName", JObject [("toString", JString "x")])])))
  = (mkResponse 500
       [ ("error", JString "Failed to perform deep research: Cannot convert object to primitive value") ],
     []).
Proof. reflexivity. Qed.

(** The proxy's [error] in its three shapes: an array is searched for
    an element, a number has no [includes]. *)
Example proxy_refusal_shapes :
  let refusal error :=
    proxy_refusal (fun _ => "0") (fun _ => "400")
      (mkProxyResponse false 400 (inr (JObject [("error", error)]))) in
  refusal (JString "token expired") = mkExn "AUTH_REQUIRED" true
  /\ refusal (JArray [JString "expired"]) = mkExn "AUTH_REQUIRED" true
  /\ refusal (JArray [JString "token expired"]) = mkExn "token expired" false
  /\ refusal (JNumber 5%float) = includes_not_function
  /\ refusal (JString "quota") = mkExn "quota" false
  /\ refusal JNull = mkExn "Proxy request failed: 400" false.
Proof. vm_compute. repeat split; reflexivity. Qed.
End RouteFacts.

(** ** Submitting the form *)

Module FormFacts.
Import WebStorage Form.

(** The creation path clears the session the way the polling path does:
    on a response that is not ok with error [AUTH_REQUIRED], both keys
    are removed in the one stretch that also asks for the sign-in. *)
Lemma handleSubmit_auth_required (s : State) (data : Json) :
  get_property "error" data = Some (JString "AUTH_REQUIRED") ->
  let s' := handleSubmit_settle (SubmitResponse false (Some data)) s in
  getItem "valyu_access_token" (localStorage s') = None
  /\ getItem "valyu_user" (localStorage s') = None
  /\ loading s' = false
  /\ called s' = (called s ++ [onSignInClick])%list.
Proof.
  intros Herr. unfold handleSubmit_settle.
  destruct data; try discriminate Herr.
  rewrite Herr. cbn. unfold getItem, removeItem.
  repeat split.
  - rewrite lookup_delete_ne by discriminate. apply lookup_delete_eq.
  - apply lookup_delete_eq.
Qed.
End FormFacts.

(** ** The polling controller *)

Module ControllerFacts.
Import WebStorage Controller.

(** Unfolds the handlers down to the record they build. *)
Ltac unfold_handlers :=
  unfold pollStatus_settle, pollStatus_body, pollStatus_send, handleReset,
    handleCancel_begin, handleCancel_settle, handleTaskCreated, stop_polling,
    clearInterval, setInterval, fetch, state_of.

Ltac split_all := repeat match goal with |- _ /\ _ => split end.

Lemma take_out_In (x : string) (l : list string) :
  In x l -> exists rest, take_out x l = Some rest.
Proof.
  induction l as [|y l IH]; [intros []|].
  intros Hin. cbn [take_out].
  destruct (String.eqb_spec x y) as [->|Hne]; [eauto|].
  destruct Hin as [->|Hin]; [contradiction|].
  destruct (IH Hin) as [rest ->]. eauto.
Qed.

(** With the flag set, a settling poll changes neither the snapshot nor
    what makes the controller idle, and sends nothing. *)
Lemma settle_cancelled (o : PollOutcome) (s : State) :
  cancelledRef s = true ->
  let s' := pollStatus_settle o s in
  cancelledRef s' = true
  /\ analysisResult s' = analysisResult s
  /\ currentTaskId s' = currentTaskId s
  /\ isCancelling s' = isCancelling s
  /\ (isAnalyzing s = false -> isAnalyzing s' = false)
  /\ (pollIntervalRef s = None -> pollIntervalRef s' = None)
  /\ requests s' = requests s
  /\ pending_polls s' = pending_polls s
  /\ pending_cancels s' = pending_cancels s.
Proof.
  intros Hc. unfold_handlers.
  destruct o as [r|[] [[]|]]; cbn; rewrite ?Hc; cbn; auto 10.
  all: destruct (is_string _ _); cbn;
    destruct (pollIntervalRef s) eqn:E; cbn; rewrite ?E; auto 10.
Qed.

Lemma settle_keeps_idle (o : PollOutcome) (s : State) :
  cancelledRef s = true -> Idle s -> Idle (pollStatus_settle o s).
Proof.
  intros Hc (Ha & Hb & Hd & He & Hf).
  destruct (settle_cancelled o s Hc) as (_ & H1 & H2 & H3 & H4 & H5 & _).
  unfold Idle. rewrite H1, H2, H3. split_all; auto.
Qed.

(** What [handleReset] leaves. *)
Lemma handleReset_spec (s : State) :
  let s' := handleReset s in
  Idle s'
  /\ supplementName s' = "" /\ researchFocus s' = ""
  /\ (forall id, pollIntervalRef s = Some id -> timers s' !! id = None)
  /\ cancelledRef s' = cancelledRef s
  /\ localStorage s' = localStorage s
  /\ requests s' = requests s
  /\ pending_polls s' = pending_polls s
  /\ pending_cancels s' = pending_cancels s
  /\ console_error s' = console_error s.
Proof.
  unfold_handlers. unfold Idle.
  destruct (pollIntervalRef s) as [id|] eqn:E; cbn; rewrite ?E; split_all;
    try reflexivity; try discriminate.
  intros id' [= <-]. apply lookup_delete_eq.
Qed.

Section Facts.
Variable isSelfHosted : bool.

(** What the synchronous part of [handleCancel] leaves. *)
Lemma handleCancel_begin_spec (s : State) :
  let s1 := snd (handleCancel_begin isSelfHosted s) in
  cancelledRef s1 = true
  /\ pending_polls s1 = pending_polls s
  /\ (if truthy (currentTaskId s)
      then fst (handleCancel_begin isSelfHosted s) = false
           /\ requests s1 =
              (requests s ++ [PostCancel (default "" (currentTaskId s))
                                (getAuthHeaders isSelfHosted s)])%list
           /\ pending_cancels s1 = S (pending_cancels s)
           /\ analysisResult s1 = analysisResult s
           /\ isAnalyzing s1 = isAnalyzing s
      else fst (handleCancel_begin isSelfHosted s) = true
           /\ requests s1 = requests s
           /\ pending_cancels s1 = pending_cancels s
           /\ Idle s1).
Proof.
  unfold handleCancel_begin. cbn [set_cancelledRef currentTaskId].
  destruct (truthy (currentTaskId s)) eqn:Ht; cbn [negb fst snd].
  - unfold_handlers. cbn. auto 10.
  - destruct (handleReset_spec (set_cancelledRef true s))
      as (Hidle & _ & _ & _ & Hflag & _ & Hreq & Hpolls & Hcancels & _).
    split_all; auto.
Qed.

(** While the flag is set no status request goes out. *)
Lemma pollStatus_send_cancelled (taskId : string) (s : State) :
  cancelledRef s = true -> pollStatus_send isSelfHosted taskId s = s.
Proof. intros Hc. unfold pollStatus_send. now rewrite Hc. Qed.

(** From the moment the flag is set until a new task is created, the
    flag stays set, and the snapshot is only ever cleared. *)
Lemma cancelled_until_new_task (trace : list Event) (s f : State) :
  forallb (fun e => negb (is_task_created e)) trace = true ->
  cancelledRef s = true ->
  exec isSelfHosted trace s = Some f ->
  cancelledRef f = true
  /\ (analysisResult f = analysisResult s \/ analysisResult f = JNull)
  /\ (Idle s -> Idle f).
Proof.
  revert s. induction trace as [|e trace IH]; intros s Hno Hc Hexec.
  - injection Hexec as <-. auto.
  - cbn [forallb] in Hno. apply andb_true_iff in Hno. destruct Hno as [He Hno].
    cbn [exec] in Hexec.
    destruct (step isSelfHosted e s) as [s'|] eqn:Hstep; [|discriminate].
    assert (Hs' : cancelledRef s' = true
                  /\ (analysisResult s' = analysisResult s
                      \/ analysisResult s' = JNull)
                  /\ (Idle s -> Idle s')).
    { destruct e as [t|id|t o| |o|]; cbn [step] in Hstep.
      - discriminate.
      - destruct (timers s !! id); [|discriminate].
        injection Hstep as <-. rewrite pollStatus_send_cancelled by exact Hc. auto.
      - destruct (take_out t (pending_polls s)) as [rest|]; [|discriminate].
        injection Hstep as <-.
        destruct (settle_cancelled o
                    (set_network (requests s) rest (pending_cancels s) s) Hc)
          as (H1 & H2 & _).
        split; [exact H1|]. split; [left; exact H2|].
        intros Hidle. now apply settle_keeps_idle.
      - injection Hstep as <-.
        destruct (handleCancel_begin_spec s) as (H1 & _ & H3).
        split; [exact H1|].
        destruct (truthy (currentTaskId s)) eqn:Ht.
        + destruct H3 as (_ & _ & _ & Ha & _).
          split; [left; exact Ha|].
          intros (_ & _ & Hd & _). rewrite Hd in Ht. discriminate.
        + destruct H3 as (_ & _ & _ & Hidle).
          split; [right; apply Hidle | intros _; exact Hidle].
      - destruct (pending_cancels s) as [|n]; [discriminate|].
        injection Hstep as <-. unfold handleCancel_settle, state_of.
        match goal with
        | |- context [handleReset ?x] =>
            destruct (handleReset_spec x) as (Hidle & _ & _ & _ & Hflag & _)
        end.
        split; [rewrite Hflag; destruct o; exact Hc|].
        split; [right; apply Hidle | intros _; exact Hidle].
      - injection Hstep as <-.
        destruct (handleReset_spec s) as (Hidle & _ & _ & _ & Hflag & _).
        split; [rewrite Hflag; exact Hc|].
        split; [right; apply Hidle | intros _; exact Hidle]. }
    destruct Hs' as (Hc' & Hsnap' & Hidle').
    destruct (IH s' Hno Hc' Hexec) as (Hcf & Hsnapf & Hidlef).
    split; [exact Hcf|]. split.
    + destruct Hsnapf as [->| ->]; auto.
    + auto.
Qed.

Lemma exec_cons (e : Event) (trace : list Event) (s s' : State) :
  step isSelfHosted e s = Some s' ->
  exec isSelfHosted (e :: trace) s = exec isSelfHosted trace s'.
Proof. intros H. cbn [exec]. now rewrite H. Qed.

(** A request in flight settles on a cancelled controller. *)
Lemma step_poll_settles_cancelled (taskId : string) (o : PollOutcome) (s : State) :
  cancelledRef s = true ->
  In taskId (pending_polls s) ->
  exists f,
    step isSelfHosted (PollSettles taskId o) s = Some f
    /\ cancelledRef f = true
    /\ analysisResult f = analysisResult s
    /\ pending_cancels f = pending_cancels s
    /\ (isAnalyzing s = false -> isAnalyzing f = false)
    /\ (Idle s -> Idle f).
Proof.
  intros Hc Hin. destruct (take_out_In _ _ Hin) as [rest Hrest].
  cbn [step]. rewrite Hrest. eexists. split; [reflexivity|].
  destruct (settle_cancelled o
              (set_network (requests s) rest (pending_cancels s) s) Hc)
    as (H1 & H2 & _ & _ & H5 & _ & _ & _ & H9).
  split; [exact H1|]. split; [exact H2|]. split; [exact H9|].
  split; [exact H5|].
  intros Hidle. now apply settle_keeps_idle.
Qed.

(** The cancel request settles. *)
Lemma step_cancel_settles (c : CancelOutcome) (s : State) :
  pending_cancels s <> 0 ->
  exists f,
    step isSelfHosted (CancelSettles c) s = Some f
    /\ Idle f
    /\ cancelledRef f = cancelledRef s
    /\ pending_polls f = pending_polls s.
Proof.
  intros Hpc. cbn [step].
  destruct (pending_cancels s) as [|n]; [contradiction|].
  eexists. split; [reflexivity|].
  unfold handleCancel_settle, state_of.
  match goal with
  | |- context [handleReset ?x] =>
      destruct (handleReset_spec x) as (Hidle & _ & _ & _ & Hflag & _ & _ & Hp & _)
  end.
  split; [exact Hidle|].
  split; [rewrite Hflag | rewrite Hp]; destruct c; reflexivity.
Qed.

(** C1.  [handleCancel] sets the cancellation flag in the turn of the
    click itself; the only request of that turn is the cancel request,
    sent with the flag already set, and while the flag is set no
    status request is sent.  A status request that was in flight then
    settles, whatever its outcome, without touching the snapshot and
    without setting the analysing state.  Whether it settles before or
    after the cancel request does, the controller ends idle with the
    flag still set; more generally, until a new task is created no
    event brings a poll response into the snapshot. *)
Theorem cancel_discards_in_flight_poll
    (s : State) (taskId : string) (o : PollOutcome) (c : CancelOutcome) :
  In taskId (pending_polls s) ->
  let s1 := snd (handleCancel_begin isSelfHosted s) in
  cancelledRef s1 = true
  /\ (requests s1 = requests s
      \/ exists t h, requests s1 = (requests s ++ [PostCancel t h])%list)
  /\ (forall t, pollStatus_send isSelfHosted t s1 = s1)
  /\ (exists s2,
         step isSelfHosted (PollSettles taskId o) s1 = Some s2
         /\ analysisResult s2 = analysisResult s1
         /\ cancelledRef s2 = true
         /\ (isAnalyzing s1 = false -> isAnalyzing s2 = false))
  /\ (if truthy (currentTaskId s) then
        exists f1 f2,
          exec isSelfHosted
            [CancelClicked; PollSettles taskId o; CancelSettles c] s = Some f1
          /\ exec isSelfHosted
               [CancelClicked; CancelSettles c; PollSettles taskId o] s = Some f2
          /\ Idle f1 /\ cancelledRef f1 = true
          /\ Idle f2 /\ cancelledRef f2 = true
      else
        exists f,
          exec isSelfHosted [CancelClicked; PollSettles taskId o] s = Some f
          /\ Idle f /\ cancelledRef f = true)
  /\ (forall trace f,
        forallb (fun e => negb (is_task_created e)) trace = true ->
        exec isSelfHosted (CancelClicked :: trace) s = Some f ->
        cancelledRef f = true
        /\ (analysisResult f = analysisResult s \/ analysisResult f = JNull)).
Proof.
  intros Hin s1.
  destruct (handleCancel_begin_spec s) as (Hflag & Hpolls & Hbegin).
  fold s1 in Hflag, Hpolls, Hbegin.
  assert (Hclick : step isSelfHosted CancelClicked s = Some s1) by reflexivity.
  assert (Hin1 : In taskId (pending_polls s1)) by now rewrite Hpolls.
  destruct (step_poll_settles_cancelled taskId o s1 Hflag Hin1)
    as (s2 & Hstep2 & Hflag2 & Hsnap2 & Hpc2 & Han2 & Hidle2).
  split; [exact Hflag|].
  split.
  { destruct (truthy (currentTaskId s)).
    - right. destruct Hbegin as (_ & Hreq & _). eauto.
    - left. apply Hbegin. }
  split; [intros t; now apply pollStatus_send_cancelled|].
  split; [exists s2; auto|].
  split.
  - destruct (truthy (currentTaskId s)) eqn:Ht.
    + destruct Hbegin as (_ & _ & Hpc & _).
      destruct (step_cancel_settles c s2) as (f1 & Hf1 & Hidle1 & Hflag1 & _).
      { rewrite Hpc2, Hpc. discriminate. }
      destruct (step_cancel_settles c s1) as (m & Hm & Hidlem & Hflagm & Hpollsm).
      { rewrite Hpc. discriminate. }
      destruct (step_poll_settles_cancelled taskId o m)
        as (f2 & Hf2 & Hflagf2 & _ & _ & _ & Hidlef2).
      { now rewrite Hflagm. }
      { now rewrite Hpollsm. }
      exists f1, f2.
      split.
      { rewrite (exec_cons _ _ _ _ Hclick), (exec_cons _ _ _ _ Hstep2),
          (exec_cons _ _ _ _ Hf1). reflexivity. }
      split.
      { rewrite (exec_cons _ _ _ _ Hclick), (exec_cons _ _ _ _ Hm),
          (exec_cons _ _ _ _ Hf2). reflexivity. }
      split; [exact Hidle1|]. split; [now rewrite Hflag1|].
      split; [now apply Hidlef2 | exact Hflagf2].
    + destruct Hbegin as (_ & _ & _ & Hidle).
      exists s2. split.
      { rewrite (exec_cons _ _ _ _ Hclick), (exec_cons _ _ _ _ Hstep2).
        reflexivity. }
      split; [now apply Hidle2 | exact Hflag2].
  - intros trace f Hno Hexec.
    rewrite (exec_cons _ _ _ _ Hclick) in Hexec.
    destruct (cancelled_until_new_task trace s1 f Hno Hflag Hexec)
      as (Hcf & Hsnapf & _).
    split; [exact Hcf|].
    destruct (truthy (currentTaskId s)).
    + destruct Hbegin as (_ & _ & _ & Ha & _). rewrite <- Ha. exact Hsnapf.
    + destruct Hbegin as (_ & _ & _ & (Ha & _)).
      right. destruct Hsnapf as [-> | ->]; [exact Ha | reflexivity].
Qed.
(** C3.  When a status request in flight settles with a response that
    is not ok and whose error is [AUTH_REQUIRED], one turn of the event
    loop takes the page to a state in which the access token and the
    user profile are both gone from [localStorage]; the interval the
    controller held is cleared and the ref is null; the user is signed
    out in memory too, the sign-in modal is asked for, and the
    snapshot is left as it was.  No state lies between the two
    removals. *)
Theorem auth_required_clears_both_keys
    (s : State) (taskId : string) (data : Json) :
  In taskId (pending_polls s) ->
  is_string "AUTH_REQUIRED" (get_property "error" data) = true ->
  exists s',
    step isSelfHosted (PollSettles taskId (PollResponse false (Some data))) s
    = Some s'
    /\ getItem "valyu_access_token" (localStorage s') = None
    /\ getItem "valyu_user" (localStorage s') = None
    /\ pollIntervalRef s' = None
    /\ (forall id, pollIntervalRef s = Some id -> timers s' !! id = None)
    /\ user s' = None
    /\ showSignInModal s' = true
    /\ isAnalyzing s' = false
    /\ analysisResult s' = analysisResult s
    /\ requests s' = requests s.
Proof.
  intros Hin Hauth. destruct (take_out_In _ _ Hin) as [rest Hrest].
  cbn [step]. rewrite Hrest. eexists. split; [reflexivity|].
  unfold pollStatus_settle, pollStatus_body.
  destruct data; try discriminate Hauth.
  rewrite Hauth. unfold stop_polling, clearInterval, getItem, removeItem.
  cbn.
  destruct (pollIntervalRef s) as [id|] eqn:E; cbn; split_all;
    try reflexivity; try discriminate; try exact E.
  - rewrite lookup_delete_ne by discriminate. apply lookup_delete_eq.
  - apply lookup_delete_eq.
  - intros id' [= <-]. apply lookup_delete_eq.
  - rewrite lookup_delete_ne by discriminate. apply lookup_delete_eq.
  - apply lookup_delete_eq.
Qed.

(** C4.  Whatever the cancel request settles to, [handleCancel]
    completes normally, and it has reset the page: the controller is
    idle, the interval it held is cleared, the form inputs are empty.
    A rejection leaves one line on the console and nothing else.  When
    there is no task id the click itself resets, and sends nothing. *)
Theorem handleCancel_always_resets (s x : State) (c : CancelOutcome) :
  (exists x',
      handleCancel_settle c x = Normal x'
      /\ Idle x'
      /\ supplementName x' = "" /\ researchFocus x' = ""
      /\ (forall id, pollIntervalRef x = Some id -> timers x' !! id = None)
      /\ console_error x' =
         (console_error x ++
          match c with
          | CancelRejected reason =>
              [String.append "Failed to cancel task: " reason]
          | CancelResponse _ _ => []
          end)%list)
  /\ (if truthy (currentTaskId s) then
        fst (handleCancel_begin isSelfHosted s) = false
        /\ pending_cancels (snd (handleCancel_begin isSelfHosted s))
           = S (pending_cancels s)
        /\ exists f,
             exec isSelfHosted [CancelClicked; CancelSettles c] s = Some f
             /\ Idle f /\ supplementName f = "" /\ researchFocus f = ""
      else
        fst (handleCancel_begin isSelfHosted s) = true
        /\ requests (snd (handleCancel_begin isSelfHosted s)) = requests s
        /\ Idle (snd (handleCancel_begin isSelfHosted s))
        /\ supplementName (snd (handleCancel_begin isSelfHosted s)) = ""
        /\ researchFocus (snd (handleCancel_begin isSelfHosted s)) = "").
Proof.
  split.
  - eexists. split; [reflexivity|].
    match goal with
    | |- context [handleReset ?y] =>
        destruct (handleReset_spec y)
          as (Hidle & Hn & Hf & Ht & _ & _ & _ & _ & _ & Hlog)
    end.
    split; [exact Hidle|]. split; [exact Hn|]. split; [exact Hf|].
    split.
    + intros id Hid. apply Ht. destruct c; exact Hid.
    + rewrite Hlog. destruct c; cbn; [reflexivity|].
      now rewrite app_nil_r.
  - destruct (handleCancel_begin_spec s) as (_ & _ & Hbegin).
    destruct (truthy (currentTaskId s)) eqn:Ht.
    + destruct Hbegin as (Hfst & _ & Hpc & _).
      split; [exact Hfst|]. split; [exact Hpc|].
      cbn [exec step]. rewrite Hpc. eexists. split; [reflexivity|].
      unfold handleCancel_settle, state_of.
      match goal with
      | |- context [handleReset ?y] =>
          destruct (handleReset_spec y) as (Hidle & Hn & Hf & _)
      end.
      auto.
    + destruct Hbegin as (Hfst & Hreq & _ & Hidle).
      split; [exact Hfst|]. split; [exact Hreq|]. split; [exact Hidle|].
      unfold handleCancel_begin. cbn [set_cancelledRef currentTaskId].
      rewrite Ht. cbn [negb snd].
      match goal with
      | |- context [handleReset ?y] =>
          destruct (handleReset_spec y) as (_ & Hn & Hf & _)
      end.
      auto.
Qed.

End Facts.
Lemma cancel_discards_in_flight_poll_witness :
  let s := handleTaskCreated false "abc123"
             (initial (<["valyu_access_token" := "token-1"]> ∅)) in
  exists f,
    exec false
      [ CancelClicked;
        PollSettles "abc123"
          (PollResponse true (Some (JObject [("status", JString "running")])));
        CancelSettles (CancelRejected "Failed to fetch") ] s = Some f
    /\ Idle f /\ cancelledRef f = true.
Proof.
  intros s.
  destruct (cancel_discards_in_flight_poll false s "abc123"
              (PollResponse true (Some (JObject [("status", JString "running")])))
              (CancelRejected "Failed to fetch"))
    as (_ & _ & _ & _ & H & _).
  - left. reflexivity.
  - change (truthy (currentTaskId s)) with true in H.
    destruct H as (f1 & _ & H1 & _ & Hidle & Hflag & _).
    exists f1. split; [exact H1|]. split; [exact Hidle | exact Hflag].
Defined.

Lemma auth_required_clears_both_keys_witness :
  let s := handleTaskCreated false "abc123"
             (initial (<["valyu_user" := "{}"]>
                         (<["valyu_access_token" := "token-1"]> ∅))) in
  exists s',
    step false
      (PollSettles "abc123"
         (PollResponse false (Some (JObject [("error", JString "AUTH_REQUIRED")])))) s
    = Some s'
    /\ getItem "valyu_access_token" (localStorage s') = None
    /\ getItem "valyu_user" (localStorage s') = None
    /\ pollIntervalRef s' = None.
Proof.
  intros s.
  destruct (auth_required_clears_both_keys false s "abc123"
              (JObject [("error", JString "AUTH_REQUIRED")]))
    as (s' & Hstep & Htoken & Huser & Href & _).
  - left. reflexivity.
  - reflexivity.
  - exists s'. split; [exact Hstep|]. split; [exact Htoken|].
    split; [exact Huser | exact Href].
Defined.


End ControllerFacts.

Module Base64Facts.
Import PKCE Base64Inverse.

Lemma In_octets (n : N) : (n <= 255)%N -> In n octets.
Proof.
  intros Hn. unfold octets.
  replace n with (N.of_nat (N.to_nat n)) by lia.
  apply in_map, in_seq. lia.
Qed.

Lemma all_octets_sound (p : N -> bool) :
  all_octets p = true -> forall b : byte, p (Byte.to_N b) = true.
Proof.
  unfold all_octets. rewrite forallb_forall. intros H b.
  apply H, In_octets, Byte.to_N_bounded.
Qed.

Lemma all_pairs_sound (p : N -> N -> bool) :
  all_pairs p = true ->
  forall a b : byte, p (Byte.to_N a) (Byte.to_N b) = true.
Proof.
  unfold all_pairs. rewrite forallb_forall. intros H a b.
  specialize (H _ (In_octets _ (Byte.to_N_bounded a))).
  rewrite forallb_forall in H.
  apply H, In_octets, Byte.to_N_bounded.
Qed.

Lemma octet_to_N (b : byte) : octet (Byte.to_N b) = b.
Proof. destruct b; reflexivity. Qed.

Lemma decodes_first_all : all_pairs decodes_first = true.
Proof. vm_compute. reflexivity. Qed.
Lemma second_high_all : all_pairs second_high = true.
Proof. vm_compute. reflexivity. Qed.
Lemma second_low_all : all_pairs second_low = true.
Proof. vm_compute. reflexivity. Qed.
Lemma second_whole_all : all_octets second_whole = true.
Proof. vm_compute. reflexivity. Qed.
Lemma third_high_all : all_pairs third_high = true.
Proof. vm_compute. reflexivity. Qed.
Lemma third_whole_all : all_octets third_whole = true.
Proof. vm_compute. reflexivity. Qed.
Lemma second_high_zero : all_octets (fun a => second_high a 0) = true.
Proof. vm_compute. reflexivity. Qed.

Lemma first_octet (a b : byte) :
  octet1 (sextet_of (sextet_char b64url_alphabet (sextet1 (Byte.to_N a))))
    (sextet_of (sextet_char b64url_alphabet (sextet2 (Byte.to_N a) (Byte.to_N b))))
  = a.
Proof.
  pose proof (all_pairs_sound _ decodes_first_all a b) as H.
  apply Byte.byte_dec_bl in H. rewrite H. apply octet_to_N.
Qed.

Lemma second_octet (a b c : byte) :
  octet2 (sextet_of (sextet_char b64url_alphabet (sextet2 (Byte.to_N a) (Byte.to_N b))))
    (sextet_of (sextet_char b64url_alphabet (sextet3 (Byte.to_N b) (Byte.to_N c))))
  = b.
Proof.
  unfold octet2.
  pose proof (all_pairs_sound _ second_high_all a b) as H1.
  pose proof (all_pairs_sound _ second_low_all b c) as H2.
  pose proof (all_octets_sound _ second_whole_all b) as H3.
  apply N.eqb_eq in H1, H2. apply Byte.byte_dec_bl in H3.
  rewrite H1, H2, H3. apply octet_to_N.
Qed.

Lemma third_octet (b c : byte) :
  octet3 (sextet_of (sextet_char b64url_alphabet (sextet3 (Byte.to_N b) (Byte.to_N c))))
    (sextet_of (sextet_char b64url_alphabet (sextet4 (Byte.to_N c))))
  = c.
Proof.
  unfold octet3.
  pose proof (all_pairs_sound _ third_high_all b c) as H1.
  pose proof (all_octets_sound _ third_whole_all c) as H2.
  apply N.eqb_eq in H1. apply Byte.byte_dec_bl in H2.
  rewrite H1, H2. apply octet_to_N.
Qed.

Lemma decode_spec_encoding (buffer : list byte) :
  base64url_decode (base64url_nopad_spec buffer) = buffer.
Proof.
  induction buffer as [|a|a b|a b c rest IH] using PKCEFacts.triples_ind.
  - reflexivity.
  - cbn [base64url_nopad_spec base64url_decode].
    change 0%N with (Byte.to_N x00). now rewrite first_octet.
  - cbn [base64url_nopad_spec base64url_decode].
    change 0%N with (Byte.to_N x00). now rewrite first_octet, second_octet.
  - cbn [base64url_nopad_spec base64url_decode].
    now rewrite first_octet, second_octet, third_octet, IH.
Qed.

(** X1.  The encoding of [base64URLEncode] loses nothing: decoding gives
    the octets back, so two different arrays never have the same
    encoding. *)
Theorem base64URLEncode_round_trip :
  (forall buffer : list byte,
      base64url_decode (base64URLEncode buffer) = buffer)
  /\ (forall b1 b2 : list byte,
        base64URLEncode b1 = base64URLEncode b2 -> b1 = b2).
Proof.
  assert (H : forall buffer, base64url_decode (base64URLEncode buffer) = buffer).
  { intros buffer. rewrite PKCEFacts.base64URLEncode_spec.
    apply decode_spec_encoding. }
  split; [exact H|].
  intros b1 b2 Heq. rewrite <- (H b1), <- (H b2). now rewrite Heq.
Qed.

Lemma url_safe_sextet (i : N) : url_safe (sextet_char b64url_alphabet i) = true.
Proof.
  unfold sextet_char. generalize (N.to_nat i) as n. intros n.
  do 64 (destruct n as [|n]; [reflexivity|]). reflexivity.
Qed.

Lemma spec_encoding_shape (buffer : list byte) :
  String.length (base64url_nopad_spec buffer) = (4 * length buffer + 2) / 3
  /\ forallb url_safe (list_ascii_of_string (base64url_nopad_spec buffer)) = true.
Proof.
  induction buffer as [|a|a b|a b c rest [IHl IHc]] using PKCEFacts.triples_ind.
  - split; reflexivity.
  - split; [reflexivity|].
    cbn [base64url_nopad_spec list_ascii_of_string forallb].
    now rewrite !url_safe_sextet.
  - split; [reflexivity|].
    cbn [base64url_nopad_spec list_ascii_of_string forallb].
    now rewrite !url_safe_sextet.
  - split.
    + cbn [base64url_nopad_spec String.length length]. rewrite IHl.
      replace (4 * S (S (S (length rest))) + 2) with ((4 * length rest + 2) + 4 * 3) by lia.
      rewrite Nat.div_add by discriminate. lia.
    + cbn [base64url_nopad_spec list_ascii_of_string forallb].
      now rewrite !url_safe_sextet, IHc.
Qed.

Lemma encoding_shape (buffer : list byte) :
  String.length (base64URLEncode buffer) = (4 * length buffer + 2) / 3
  /\ forallb url_safe (list_ascii_of_string (base64URLEncode buffer)) = true.
Proof.
  rewrite PKCEFacts.base64URLEncode_spec. apply spec_encoding_shape.
Qed.

(** X2.  The text [base64URLEncode] returns for [n] octets has
    ceil(4 n / 3) characters, each a letter, a digit, [-] or [_]: no [+], no
    [/], no padding. *)
Theorem base64URLEncode_shape (buffer : list byte) :
  String.length (base64URLEncode buffer) = (4 * length buffer + 2) / 3
  /\ forallb url_safe (list_ascii_of_string (base64URLEncode buffer)) = true.
Proof. apply encoding_shape. Qed.

Lemma getRandomValues_length (n : nat) (rng : Entropy) :
  length (fst (getRandomValues n rng)) = n.
Proof.
  unfold getRandomValues. cbn [fst].
  rewrite length_firstn, length_app, repeat_length. lia.
Qed.

(** The digest has 32 octets whatever the message. *)
Lemma round_length (st : list Z) (kw : Z * Z) :
  length st = 8 -> length (SHA256.round st kw) = 8.
Proof.
  intros H. do 9 (destruct st as [|? st]; try discriminate H). reflexivity.
Qed.

Lemma rounds_length (kws : list (Z * Z)) (st : list Z) :
  length st = 8 -> length (fold_left SHA256.round kws st) = 8.
Proof.
  revert st. induction kws as [|kw kws IH]; intros st H; [exact H|].
  cbn [fold_left]. apply IH, round_length, H.
Qed.

Lemma compress_length (h block : list Z) :
  length h = 8 -> length (SHA256.compress h block) = 8.
Proof.
  intros H. unfold SHA256.compress.
  rewrite length_map, length_combine, rounds_length by exact H. lia.
Qed.

Lemma digest_length (data : list byte) : length (SHA256.digest data) = 32.
Proof.
  unfold SHA256.digest. rewrite length_map.
  match goal with
  | |- context [fold_left SHA256.compress ?bs SHA256.H0] =>
      assert (H : length (fold_left SHA256.compress bs SHA256.H0) = 8);
      [ generalize bs as blocks;
        assert (H0 : length SHA256.H0 = 8) by (vm_compute; reflexivity);
        revert H0; generalize SHA256.H0 as h;
        intros h Hh blocks; revert h Hh;
        induction blocks as [|b blocks IH]; intros h Hh; [exact Hh|];
        cbn [fold_left]; apply IH, compress_length, Hh
      | generalize dependent (fold_left SHA256.compress bs SHA256.H0) ]
  end.
  intros h H. do 9 (destruct h as [|? h]; try discriminate H). reflexivity.
Qed.

(** X3.  Both PKCE values are well-formed for RFC 7636, whatever the
    random generator delivers and whatever verifier is hashed: the code
    verifier and the code challenge have 43 characters each, all of them
    letters, digits, [-] or [_]; and a verifier consumes 32 octets of
    entropy. *)
Theorem pkce_values_well_formed (rng : Entropy) (verifier : string) :
  String.length (fst (generateCodeVerifier rng)) = 43
  /\ forallb url_safe (list_ascii_of_string (fst (generateCodeVerifier rng))) = true
  /\ snd (generateCodeVerifier rng) = skipn 32 rng
  /\ String.length (generateCodeChallenge verifier) = 43
  /\ forallb url_safe (list_ascii_of_string (generateCodeChallenge verifier)) = true.
Proof.
  unfold generateCodeVerifier, generateCodeChallenge.
  pose proof (getRandomValues_length 32 rng) as Hlen.
  destruct (getRandomValues 32 rng) as [array rng'] eqn:E.
  cbn [fst snd] in *.
  destruct (encoding_shape array) as [Hl Hc].
  destruct (encoding_shape (SHA256.digest (list_byte_of_string verifier)))
    as [Hl' Hc'].
  rewrite Hlen in Hl. rewrite digest_length in Hl'.
  split; [exact Hl|]. split; [exact Hc|].
  split; [unfold getRandomValues in E; now injection E as _ <-|].
  split; [exact Hl' | exact Hc'].
Qed.
End Base64Facts.

(** ** The query of the authorization request *)

Module QueryFacts.
Import WebStorage OAuthForm PKCE OAuthFlow QueryShape.

Lemma hex_digit_unreserved (n : N) : form_unreserved (hex_digit n) = true.
Proof.
  unfold hex_digit. generalize (N.to_nat n) as k. intros k.
  do 16 (destruct k as [|k]; [reflexivity|]). reflexivity.
Qed.

Lemma form_encode_safe (s : string) :
  forallb form_safe (list_ascii_of_string (form_encode s)) = true.
Proof.
  induction s as [|c s IH]; [reflexivity|].
  cbn [form_encode].
  destruct (form_unreserved c) eqn:Hu.
  - cbn [list_ascii_of_string forallb]. unfold form_safe at 1. now rewrite Hu.
  - destruct (Ascii.eqb c " ").
    + cbn [list_ascii_of_string forallb]. now rewrite IH.
    + cbn [list_ascii_of_string forallb].
      unfold form_safe at 2 3. now rewrite !hex_digit_unreserved, IH.
Qed.

Lemma count_char_append (c : ascii) (s t : string) :
  count_char c (String.append s t) = count_char c s + count_char c t.
Proof.
  induction s as [|x s IH]; [reflexivity|].
  change (String.append (String x s) t) with (String x (String.append s t)).
  cbn [count_char]. rewrite IH. lia.
Qed.

Lemma count_char_safe (c : ascii) (s : string) :
  form_safe c = false ->
  forallb form_safe (list_ascii_of_string s) = true ->
  count_char c s = 0.
Proof.
  intros Hc. induction s as [|x s IH]; [reflexivity|].
  cbn [list_ascii_of_string forallb count_char]. intros H.
  apply andb_true_iff in H. destruct H as [Hx Hs].
  destruct (Ascii.eqb_spec x c) as [->|_]; [congruence|].
  now rewrite IH.
Qed.

Lemma count_char_encoded (c : ascii) (s : string) :
  form_safe c = false -> count_char c (form_encode s) = 0.
Proof. intros Hc. apply count_char_safe; [exact Hc | apply form_encode_safe]. Qed.

(** The serializer cannot be made to emit a delimiter by the text it
    encodes: the query of [n] parameters has exactly [n] equals signs and
    [n - 1] ampersands, and no [#], [?] or space. *)
Lemma form_serialize_delimiters (ps : list (string * string)) :
  count_char "=" (form_serialize ps) = length ps
  /\ count_char "&" (form_serialize ps) = length ps - 1
  /\ count_char "#" (form_serialize ps) = 0
  /\ count_char "?" (form_serialize ps) = 0
  /\ count_char " " (form_serialize ps) = 0.
Proof.
  induction ps as [|[k v] ps IH].
  - repeat split; reflexivity.
  - destruct IH as (IH1 & IH2 & IH3 & IH4 & IH5).
    destruct ps as [|p ps].
    + cbn [form_serialize length].
      rewrite !count_char_append. cbn [count_char].
      rewrite !count_char_encoded by reflexivity.
      repeat split; reflexivity.
    + change (form_serialize ((k, v) :: p :: ps))
        with (String.append (form_encode k)
                (String "=" (String.append (form_encode v)
                               (String "&" (form_serialize (p :: ps)))))).
      rewrite !count_char_append. cbn [count_char].
      rewrite !count_char_append. cbn [count_char].
      rewrite !count_char_encoded by reflexivity.
      rewrite IH1, IH2, IH3, IH4, IH5. cbn [length Ascii.eqb].
      repeat split; cbn; lia.
Qed.

(** X4.  Whatever the client id, the redirect URI and the random values
    are, the address [initiateOAuthFlow] navigates to is the origin, the
    authorize path, a question mark and a query with exactly seven
    parameters: seven equals signs, six ampersands, no [#], no [?] and no
    space.  No configured value can add, hide or cut off a parameter. *)
Theorem initiateOAuthFlow_query_has_seven_parameters
    (JSON_stringify : OAuthFormValues -> string) (env : Env)
    (formValues : option OAuthFormValues) (b : Browser) (o : string) :
  isOAuthConfigured env = true ->
  URL_origin (non_null (NEXT_PUBLIC_VALYU_AUTH_URL env)) = Gives o ->
  exists b' query,
    initiateOAuthFlow JSON_stringify env formValues b = Returned b'
    /\ location_href b' =
       String.append o (String.append "/auth/v1/oauth/authorize" (String "?" query))
    /\ count_char "=" query = 7
    /\ count_char "&" query = 6
    /\ count_char "#" query = 0
    /\ count_char "?" query = 0
    /\ count_char " " query = 0.
Proof.
  intros Hcfg Horigin.
  rewrite (OAuthFlowFacts.initiateOAuthFlow_configured JSON_stringify env formValues b Hcfg).
  rewrite Horigin. eexists. eexists. split; [reflexivity|].
  split; [reflexivity|].
  match goal with
  | |- context [form_serialize ?ps] =>
      destruct (form_serialize_delimiters ps) as (H1 & H2 & H3 & H4 & H5)
  end.
  repeat split; assumption.
Qed.

Lemma initiateOAuthFlow_query_has_seven_parameters_witness :
  exists b' query,
    initiateOAuthFlow PlainJSON.stringify
      (mkEnv (Some "a&b=c") (Some "https://auth.valyu.ai")
         (Some "http://localhost:3000/cb?x=1&y=2#z"))
      None (mkBrowser ∅ ∅ "http://localhost:3000/" [] []) = Returned b'
    /\ location_href b' =
       String.append "https://auth.valyu.ai"
         (String.append "/auth/v1/oauth/authorize" (String "?" query))
    /\ count_char "=" query = 7
    /\ count_char "&" query = 6.
Proof.
  destruct (initiateOAuthFlow_query_has_seven_parameters PlainJSON.stringify
              (mkEnv (Some "a&b=c") (Some "https://auth.valyu.ai")
                 (Some "http://localhost:3000/cb?x=1&y=2#z"))
              None (mkBrowser ∅ ∅ "http://localhost:3000/" [] [])
              "https://auth.valyu.ai" eq_refl eq_refl)
    as (b' & query & Hret & Hhref & Heq & Hamp & _).
  exists b', query. repeat split; assumption.
Defined.

(** X5.  The authorization request and the session agree: after a
    successful [initiateOAuthFlow] the [code_challenge] in the address is
    the challenge of the verifier kept in [sessionStorage], and the
    [state] in the address is the state kept there, so the callback can
    check the one and redeem the other. *)
Theorem initiateOAuthFlow_binds_session
    (JSON_stringify : OAuthFormValues -> string) (env : Env)
    (formValues : option OAuthFormValues) (b : Browser) (o : string) :
  isOAuthConfigured env = true ->
  URL_origin (non_null (NEXT_PUBLIC_VALYU_AUTH_URL env)) = Gives o ->
  exists b' verifier state,
    initiateOAuthFlow JSON_stringify env formValues b = Returned b'
    /\ getItem "oauth_code_verifier" (sessionStorage b') = Some verifier
    /\ getItem "oauth_state" (sessionStorage b') = Some state
    /\ location_href b' =
       URL_toString
         (mkURL o "/auth/v1/oauth/authorize"
            [ ("client_id", non_null (NEXT_PUBLIC_VALYU_CLIENT_ID env));
              ("redirect_uri", non_null (NEXT_PUBLIC_REDIRECT_URI env));
              ("response_type", "code");
              ("scope", "openid profile email");
              ("code_challenge", generateCodeChallenge verifier);
              ("code_challenge_method", "S256");
              ("state", state) ]).
Proof.
  intros Hcfg Horigin.
  rewrite (OAuthFlowFacts.initiateOAuthFlow_configured JSON_stringify env formValues b Hcfg).
  rewrite Horigin. eexists. eexists. eexists. split; [reflexivity|].
  unfold getItem. cbn [sessionStorage location_href].
  split; [rewrite lookup_insert_ne by discriminate; apply lookup_insert_eq|].
  split; [apply lookup_insert_eq | reflexivity].
Qed.

Lemma initiateOAuthFlow_binds_session_witness :
  exists b' verifier state,
    initiateOAuthFlow PlainJSON.stringify
      (mkEnv (Some "client-1") (Some "https://auth.valyu.ai")
         (Some "http://localhost:3000/auth/valyu/callback"))
      None (mkBrowser ∅ ∅ "http://localhost:3000/" [] [x01; x02; x03]) = Returned b'
    /\ getItem "oauth_code_verifier" (sessionStorage b') = Some verifier
    /\ getItem "oauth_state" (sessionStorage b') = Some state.
Proof.
  destruct (initiateOAuthFlow_binds_session PlainJSON.stringify
              (mkEnv (Some "client-1") (Some "https://auth.valyu.ai")
                 (Some "http://localhost:3000/auth/valyu/callback"))
              None (mkBrowser ∅ ∅ "http://localhost:3000/" [] [x01; x02; x03])
              "https://auth.valyu.ai" eq_refl eq_refl)
    as (b' & verifier & state & Hret & Hv & Hs & _).
  exists b', verifier, state. repeat split; assumption.
Defined.

Lemma firstn_app_enough {A : Type} (n : nat) (l pad : list A) :
  n <= length l -> firstn n (l ++ pad) = firstn n l.
Proof.
  intros H. rewrite firstn_app.
  replace (n - length l) with 0 by lia. cbn [firstn]. apply app_nil_r.
Qed.

(** X6.  The verifier and the state are two separate draws: when the
    generator holds at least 64 octets, the verifier encodes the first 32
    of them, the state the next 32, and the flow leaves the generator 64
    octets further on.  The two values are equal only if the two draws
    are. *)
Theorem initiateOAuthFlow_draws_twice
    (JSON_stringify : OAuthFormValues -> string) (env : Env)
    (formValues : option OAuthFormValues) (b : Browser) :
  isOAuthConfigured env = true ->
  64 <= length (rng b) ->
  let after := browser_of (initiateOAuthFlow JSON_stringify env formValues b) in
  let draw1 := firstn 32 (rng b) in
  let draw2 := firstn 32 (skipn 32 (rng b)) in
  getItem "oauth_code_verifier" (sessionStorage after) = Some (base64URLEncode draw1)
  /\ getItem "oauth_state" (sessionStorage after) = Some (base64URLEncode draw2)
  /\ rng after = skipn 64 (rng b)
  /\ (base64URLEncode draw1 = base64URLEncode draw2 -> draw1 = draw2).
Proof.
  intros Hcfg Hlen after draw1 draw2.
  assert (Hafter :
            sessionStorage after =
            <["oauth_state" := base64URLEncode draw2]>
              (<["oauth_code_verifier" := base64URLEncode draw1]> (sessionStorage b))
            /\ rng after = skipn 64 (rng b)).
  { subst after.
    rewrite (OAuthFlowFacts.initiateOAuthFlow_configured JSON_stringify env formValues b Hcfg).
    unfold generateCodeVerifier, getRandomValues. cbn [fst snd].
    rewrite !firstn_app_enough by (rewrite ?length_skipn; lia).
    rewrite skipn_skipn.
    destruct (URL_origin (non_null (NEXT_PUBLIC_VALYU_AUTH_URL env)));
      split; reflexivity. }
  destruct Hafter as [Hss Hrng]. unfold getItem. rewrite Hss.
  split; [rewrite lookup_insert_ne by discriminate; apply lookup_insert_eq|].
  split; [apply lookup_insert_eq|]. split; [exact Hrng|].
  intros Heq.
  rewrite <- (Base64Facts.decode_spec_encoding draw1),
    <- (Base64Facts.decode_spec_encoding draw2).
  rewrite <- !PKCEFacts.base64URLEncode_spec. now rewrite Heq.
Qed.

Lemma initiateOAuthFlow_draws_twice_witness :
  let b := mkBrowser ∅ ∅ "http://localhost:3000/" [] (repeat x2a 32 ++ repeat x17 40)%list in
  let after :=
    browser_of
      (initiateOAuthFlow PlainJSON.stringify
         (mkEnv (Some "client-1") (Some "https://auth.valyu.ai")
            (Some "http://localhost:3000/auth/valyu/callback")) None b) in
  getItem "oauth_code_verifier" (sessionStorage after)
  = Some (base64URLEncode (repeat x2a 32))
  /\ getItem "oauth_state" (sessionStorage after)
     = Some (base64URLEncode (repeat x17 32))
  /\ rng after = repeat x17 8.
Proof.
  intros b after.
  destruct (initiateOAuthFlow_draws_twice PlainJSON.stringify
              (mkEnv (Some "client-1") (Some "https://auth.valyu.ai")
                 (Some "http://localhost:3000/auth/valyu/callback")) None b)
    as (Hv & Hs & Hr & _).
  - reflexivity.
  - cbn. lia.
  - repeat split; assumption.
Defined.

(** X7.  Form values saved by [initiateOAuthFlow] come back after the
    round trip: on the page loaded after the redirect,
    [restoreFormValuesAfterOAuth] returns the values the flow was given
    and removes them; the flow itself leaves the values it was not given
    alone (with no form values, what was stored before stays). *)
Theorem form_values_survive_redirect
    (JSON_stringify : OAuthFormValues -> string)
    (JSON_parse : string -> option (option OAuthFormValues))
    (env : Env) (values : OAuthFormValues) (b : Browser) (back_to : string) :
  isOAuthConfigured env = true ->
  JSON_stringify values <> "" ->
  JSON_parse (JSON_stringify values) = Some (Some values) ->
  let after := browser_of (initiateOAuthFlow JSON_stringify env (Some values) b) in
  let returned := navigate_away_and_back back_to after in
  let restored := restoreFormValuesAfterOAuth JSON_parse (localStorage returned) in
  fst restored = Some values
  /\ getItem OAUTH_FORM_VALUES_KEY (snd restored) = None
  /\ localStorage
       (browser_of (initiateOAuthFlow JSON_stringify env None b))
     = localStorage b.
Proof.
  intros Hcfg Hne Hrt after returned restored.
  assert (Hls : localStorage returned =
                <[OAUTH_FORM_VALUES_KEY := JSON_stringify values]> (localStorage b)).
  { subst returned after.
    rewrite (OAuthFlowFacts.initiateOAuthFlow_configured JSON_stringify env _ b Hcfg).
    destruct (URL_origin (non_null (NEXT_PUBLIC_VALYU_AUTH_URL env))); reflexivity. }
  assert (Hres : restored = (Some values, delete OAUTH_FORM_VALUES_KEY (localStorage returned))).
  { subst restored. rewrite Hls.
    unfold restoreFormValuesAfterOAuth, getItem, removeItem.
    rewrite lookup_insert_eq. cbn [truthy].
    destruct (String.eqb_spec (JSON_stringify values) "") as [E|_]; [contradiction|].
    cbn [negb]. now rewrite Hrt. }
  rewrite Hres. cbn [fst snd]. split; [reflexivity|].
  split; [apply lookup_delete_eq|].
  rewrite (OAuthFlowFacts.initiateOAuthFlow_configured JSON_stringify env _ b Hcfg).
  destruct (URL_origin (non_null (NEXT_PUBLIC_VALYU_AUTH_URL env))); reflexivity.
Qed.

Lemma form_values_survive_redirect_witness :
  let values := mkFormValues (Some "Magnesium") (Some "sleep quality") in
  let after :=
    browser_of
      (initiateOAuthFlow PlainJSON.stringify
         (mkEnv (Some "client-1") (Some "https://auth.valyu.ai")
            (Some "http://localhost:3000/auth/valyu/callback"))
         (Some values) (mkBrowser ∅ ∅ "http://localhost:3000/" [] [])) in
  fst (restoreFormValuesAfterOAuth PlainJSON.parse
         (localStorage (navigate_away_and_back "http://localhost:3000/?auth=success" after)))
  = Some values.
Proof.
  intros values after.
  destruct (form_values_survive_redirect PlainJSON.stringify PlainJSON.parse
              (mkEnv (Some "client-1") (Some "https://auth.valyu.ai")
                 (Some "http://localhost:3000/auth/valyu/callback"))
              values (mkBrowser ∅ ∅ "http://localhost:3000/" [] [])
              "http://localhost:3000/?auth=success") as (H & _).
  - reflexivity.
  - vm_compute. discriminate.
  - vm_compute. reflexivity.
  - exact H.
Defined.

(** X8.  A stored text that does not parse is not an error for the
    caller and is not kept: [restoreFormValuesAfterOAuth] returns null
    and removes the entry, so the next call finds nothing.  An empty
    stored text counts as nothing stored and is left in place. *)
Theorem restoreFormValues_drops_corrupt_entry
    (JSON_parse : string -> option (option OAuthFormValues))
    (ls : Storage) (text : string) :
  ls !! OAUTH_FORM_VALUES_KEY = Some text ->
  text <> "" ->
  JSON_parse text = None ->
  restoreFormValuesAfterOAuth JSON_parse ls
  = (None, delete OAUTH_FORM_VALUES_KEY ls)
  /\ restoreFormValuesAfterOAuth JSON_parse
       (<[OAUTH_FORM_VALUES_KEY := ""]> ls)
     = (None, <[OAUTH_FORM_VALUES_KEY := ""]> ls).
Proof.
  intros Hget Hne Hbad. unfold restoreFormValuesAfterOAuth, getItem, removeItem.
  rewrite Hget, lookup_insert_eq. cbn [truthy].
  destruct (String.eqb_spec text "") as [E|_]; [contradiction|].
  cbn. now rewrite Hbad.
Qed.

Lemma restoreFormValues_drops_corrupt_entry_witness :
  restoreFormValuesAfterOAuth PlainJSON.parse
    (<[OAUTH_FORM_VALUES_KEY := "{oops"]> ∅)
  = (None, delete OAUTH_FORM_VALUES_KEY (<[OAUTH_FORM_VALUES_KEY := "{oops"]> ∅)).
Proof.
  destruct (restoreFormValues_drops_corrupt_entry PlainJSON.parse
              (<[OAUTH_FORM_VALUES_KEY := "{oops"]> ∅) "{oops") as [H _].
  - apply lookup_insert_eq.
  - discriminate.
  - reflexivity.
  - exact H.
Defined.
End QueryFacts.

(** ** More on the task-creation route *)

Module RouteMoreFacts.
Import Route.

Section Upstream.
Variable isSelfHosted : bool.
Variable Number_toString : float -> string.
Variable status_toString : N -> string.
Variable fetch_proxy : string -> string -> string -> Exn + ProxyResponse.
Variable sdk_create : string -> string -> Exn + Json.

Let call := callValyuDeepResearch Number_toString status_toString fetch_proxy sdk_create.
Let post := POST isSelfHosted Number_toString status_toString fetch_proxy sdk_create.
Let query := researchQuery Number_toString.

Lemma on_error_status (e : Exn) :
  status (on_error e) = 401%N \/ status (on_error e) = 500%N.
Proof.
  unfold on_error.
  destruct (isAuthError e || String.eqb (message e) "AUTH_REQUIRED"); auto.
Qed.

(** The one upstream call, by the token it is given. *)
Lemma call_log (input name : string) (token : option string) :
  snd (call input name token)
  = [ if truthy token then ProxyFetch (default "" token) input name
      else SdkCreate input name ].
Proof.
  unfold call, callValyuDeepResearch. destruct (truthy token); reflexivity.
Qed.

(** A query that can be built has a name that can be printed. *)
Lemma query_name (supplementName researchFocus currentSupplements healthGoals : option Json)
    (input : string) :
  query supplementName researchFocus currentSupplements healthGoals = Some input ->
  exists name, template Number_toString supplementName = Some name.
Proof.
  unfold query, researchQuery. intros H.
  destruct (template Number_toString supplementName) as [name|]; [eauto|].
  repeat match type of H with
         | context [match ?x with _ => _ end] => destruct x
         end; discriminate H.
Qed.

(** [POST] once it is past the gate with a body that names a supplement
    and whose fields can be printed. *)
Lemma POST_past_gate (req : NextRequest) (parsed : Json) (input name : string) :
  negb isSelfHosted && negb (truthy (bearer_token (authorization req))) = false ->
  body req = inr parsed ->
  js_truthy (get_property "supplementName" parsed) = true ->
  query (get_property "supplementName" parsed)
    (get_property "researchFocus" parsed)
    (get_property "currentSupplements" parsed)
    (get_property "healthGoals" parsed) = Some input ->
  template Number_toString (get_property "supplementName" parsed) = Some name ->
  let made :=
    call input name
      (if isSelfHosted then None else bearer_token (authorization req)) in
  post req =
  (match fst made with
   | inl e => on_error e
   | inr JNull =>
       on_error (mkExn "Cannot read properties of null (reading 'deepresearch_id')" false)
   | inr t =>
       if negb (js_truthy (get_property "deepresearch_id" t)) then
         on_error (mkExn "Failed to create deep research task" false)
       else
         NextResponse_json
           [ ("success", JBool true);
             ("deepresearch_id", default JNull (get_property "deepresearch_id" t));
             ("status", JString "queued");
             ("message", JString "Research task created. Poll the status endpoint to check progress.") ]
           None
   end, snd made).
Proof.
  intros Hgate Hbody Hname Hquery Hprint made. unfold post, POST.
  rewrite Hgate, Hbody.
  destruct parsed; try discriminate Hname.
  rewrite Hname. cbn [negb]. fold query. rewrite Hquery, Hprint.
  fold call. fold made.
  destruct made as [[e|t] calls]; [reflexivity|].
  destruct t; try reflexivity; cbn [fst snd];
    match goal with
    | |- context [negb ?c] => destruct (negb c); reflexivity
    end.
Qed.

(** [POST] on a body whose fields cannot all be printed: the template
    literal throws before anything goes upstream. *)
Lemma POST_no_primitive (req : NextRequest) (parsed : Json) :
  negb isSelfHosted && negb (truthy (bearer_token (authorization req))) = false ->
  body req = inr parsed ->
  js_truthy (get_property "supplementName" parsed) = true ->
  query (get_property "supplementName" parsed)
    (get_property "researchFocus" parsed)
    (get_property "currentSupplements" parsed)
    (get_property "healthGoals" parsed) = None ->
  post req = (on_error not_primitive, []).
Proof.
  intros Hgate Hbody Hname Hquery. unfold post, POST.
  rewrite Hgate, Hbody.
  destruct parsed; try discriminate Hname.
  rewrite Hname. cbn [negb]. fold query. rewrite Hquery. reflexivity.
Qed.

(** X9.  [POST] answers every request: whatever the header, the body
    and the upstream service do, the result is a response with status 200,
    400, 401 or 500, and at most one call has gone upstream.  A 400 or a
    gate 401 is given without any call; a 200 is given only after exactly
    one. *)
Theorem POST_always_answers (req : NextRequest) :
  (status (fst (post req)) = 200%N \/ status (fst (post req)) = 400%N
   \/ status (fst (post req)) = 401%N \/ status (fst (post req)) = 500%N)
  /\ length (snd (post req)) <= 1
  /\ (status (fst (post req)) = 200%N -> length (snd (post req)) = 1)
  /\ (status (fst (post req)) = 400%N -> snd (post req) = []).
Proof.
  destruct (negb isSelfHosted && negb (truthy (bearer_token (authorization req))))
    eqn:Hgate.
  { unfold post, POST. rewrite Hgate. cbn. repeat split; auto; discriminate. }
  destruct (body req) as [e|parsed] eqn:Hbody.
  { unfold post, POST. rewrite Hgate, Hbody. cbn [fst snd length].
    destruct (on_error_status e) as [H|H]; rewrite H;
      repeat split; auto; discriminate. }
  destruct (js_truthy (get_property "supplementName" parsed)) eqn:Hname.
  - destruct (query (get_property "supplementName" parsed)
                (get_property "researchFocus" parsed)
                (get_property "currentSupplements" parsed)
                (get_property "healthGoals" parsed)) as [input|] eqn:Hquery.
    + destruct (query_name _ _ _ _ _ Hquery) as [name Hprint].
      rewrite (POST_past_gate req parsed input name Hgate Hbody Hname Hquery Hprint).
      rewrite call_log. cbn [fst snd length].
      match goal with
      | |- context [fst ?m] => destruct (fst m) as [e|t]
      end.
      * destruct (on_error_status e) as [H|H]; rewrite H;
          repeat split; auto; discriminate.
      * destruct t;
          try (destruct (negb (js_truthy (get_property "deepresearch_id" _))));
          match goal with
          | |- context [on_error ?e] =>
              destruct (on_error_status e) as [H|H]; rewrite H
          | _ => idtac
          end; cbn; repeat split; auto; discriminate.
    + rewrite (POST_no_primitive req parsed Hgate Hbody Hname Hquery).
      cbn. repeat split; auto; discriminate.
  - unfold post, POST. rewrite Hgate, Hbody.
    destruct parsed; try rewrite Hname; cbn [fst snd length negb].
    all: cbn; repeat split; auto; discriminate.
Qed.

(** X10.  The two modes never mix.  In self-hosted mode every upstream
    call goes to the SDK, also when the request carries an Authorization
    header: the caller's token is not forwarded.  In hosted mode every
    upstream call goes to the proxy and carries exactly the token of the
    request's header. *)
Theorem POST_keeps_modes_apart (req : NextRequest) (c : UpstreamCall) :
  In c (snd (post req)) ->
  if isSelfHosted then exists input name, c = SdkCreate input name
  else exists input name,
      c = ProxyFetch (default "" (bearer_token (authorization req))) input name
      /\ truthy (bearer_token (authorization req)) = true.
Proof.
  intros Hin.
  destruct (negb isSelfHosted && negb (truthy (bearer_token (authorization req))))
    eqn:Hgate.
  { unfold post, POST in Hin. rewrite Hgate in Hin. destruct Hin. }
  destruct (body req) as [e|parsed] eqn:Hbody.
  { unfold post, POST in Hin. rewrite Hgate, Hbody in Hin. destruct Hin. }
  destruct (js_truthy (get_property "supplementName" parsed)) eqn:Hname.
  - destruct (query (get_property "supplementName" parsed)
                (get_property "researchFocus" parsed)
                (get_property "currentSupplements" parsed)
                (get_property "healthGoals" parsed)) as [input|] eqn:Hquery.
    + destruct (query_name _ _ _ _ _ Hquery) as [name Hprint].
      rewrite (POST_past_gate req parsed input name Hgate Hbody Hname Hquery Hprint)
        in Hin.
      rewrite call_log in Hin. cbn [snd] in Hin.
      destruct Hin as [<-|[]].
      destruct isSelfHosted; cbn [truthy].
      * eauto.
      * cbn [negb andb] in Hgate. apply negb_false_iff in Hgate.
        rewrite Hgate. eauto.
    + rewrite (POST_no_primitive req parsed Hgate Hbody Hname Hquery) in Hin.
      destruct Hin.
  - unfold post, POST in Hin. rewrite Hgate, Hbody in Hin.
    destruct parsed; try rewrite Hname in Hin; destruct Hin.
Qed.


Lemma prefix_append (p s : string) : String.prefix p (String.append p s) = true.
Proof.
  induction p as [|c p IH]; [now destruct s|].
  change (String.append (String c p) s) with (String c (String.append p s)).
  cbn [String.prefix]. destruct (ascii_dec c c); [exact IH | contradiction].
Qed.

Lemma includes_inside (needle before rest : string) :
  includes needle (String.append before (String.append needle rest)) = true.
Proof.
  induction before as [|c before IH].
  - change (String.append EmptyString ?x) with x.
    destruct (String.append needle rest) eqn:E; cbn [includes];
      rewrite <- E, prefix_append; reflexivity.
  - change (String.append (String c before) ?x)
      with (String c (String.append before x)).
    cbn [includes]. rewrite IH. apply orb_true_r.
Qed.

Lemma existsb_element (marker : string) (items : list Json) :
  In (JString marker) items ->
  existsb (fun i => match i with
                    | JString s => String.eqb s marker
                    | _ => false
                    end) items = true.
Proof.
  intros Hin. apply existsb_exists. exists (JString marker).
  split; [exact Hin | apply String.eqb_refl].
Qed.

(** The markers by which a refusal of the token is recognised in the
    proxy's [error]: anywhere in a string, or as an element of an array. *)
Definition names_refusal (error : Json) : Prop :=
  exists marker,
    (marker = "invalid_token" \/ marker = "expired" \/ marker = "unauthorized")
    /\ ((exists before rest,
            error = JString (String.append before (String.append marker rest)))
        \/ (exists items, error = JArray items /\ In (JString marker) items)).

Lemma proxy_refusal_auth (response : ProxyResponse) :
  (code response = 401%N \/ code response = 403%N
   \/ exists errorData error,
        parsed response = inr errorData
        /\ get_property "error" errorData = Some error
        /\ names_refusal error) ->
  proxy_refusal Number_toString status_toString response = mkExn "AUTH_REQUIRED" true.
Proof.
  unfold proxy_refusal.
  intros [H|[H|(errorData & error & Hp & He & marker & Hm & Hshape)]].
  - now rewrite H.
  - rewrite H. now destruct (code response =? 401)%N.
  - destruct ((code response =? 401)%N || (code response =? 403)%N); [reflexivity|].
    rewrite Hp.
    destruct errorData; try discriminate He.
    rewrite He.
    destruct Hshape as [(before & rest & ->)|(items & -> & Hin)];
      cbn [error_includes].
    + destruct Hm as [->|[->| ->]]; rewrite includes_inside;
        rewrite ?orb_true_r; reflexivity.
    + destruct Hm as [->|[->| ->]]; rewrite (existsb_element _ _ Hin);
        rewrite ?orb_true_r; reflexivity.
Qed.

(** X12.  In hosted mode an upstream refusal of the token reaches the
    client as the sign-in signal.  For a request whose fields can be
    converted to text: when the proxy's answer is not ok and its status
    is 401 or 403, or its [error] is a string that contains
    [invalid_token], [expired] or [unauthorized] anywhere, or an array
    with one of them as an element, [POST] answers 401 with error
    [AUTH_REQUIRED], whatever else the answer holds. *)
Theorem POST_maps_token_refusal
    (req : NextRequest) (parsed : Json) (response : ProxyResponse) (input : string) :
  isSelfHosted = false ->
  truthy (bearer_token (authorization req)) = true ->
  body req = inr parsed ->
  js_truthy (get_property "supplementName" parsed) = true ->
  query (get_property "supplementName" parsed)
    (get_property "researchFocus" parsed)
    (get_property "currentSupplements" parsed)
    (get_property "healthGoals" parsed) = Some input ->
  (forall bearer input name, fetch_proxy bearer input name = inr response) ->
  ok response = false ->
  (code response = 401%N \/ code response = 403%N
   \/ exists errorData error,
        Route.parsed response = inr errorData
        /\ get_property "error" errorData = Some error
        /\ names_refusal error) ->
  fst (post req)
  = mkResponse 401
      [ ("error", JString "AUTH_REQUIRED");
        ("message", JString "Your session has expired. Please sign in again.") ].
Proof.
  intros Hmode Htoken Hbody Hname Hquery Hproxy Hok Hwhy.
  destruct (query_name _ _ _ _ _ Hquery) as [name Hprint].
  assert (Hgate : negb isSelfHosted
                  && negb (truthy (bearer_token (authorization req))) = false).
  { now rewrite Htoken, andb_false_r. }
  rewrite (POST_past_gate req parsed input name Hgate Hbody Hname Hquery Hprint).
  cbn [fst].
  rewrite Hmode. unfold call, callValyuDeepResearch.
  rewrite Htoken, Hproxy, Hok. cbn [negb fst].
  now rewrite (proxy_refusal_auth response Hwhy).
Qed.

(** X13.  Any other upstream failure reaches the client as a 500 that
    carries the upstream message.  In self-hosted mode, for a request
    whose fields can be converted to text: when the SDK rejects with a
    message other than [AUTH_REQUIRED] and without the auth mark, the
    answer is 500 with error [Failed to perform deep research: ] followed
    by that message; when it returns a task without identifier the
    message is [Failed to create deep research task]. *)
Theorem POST_relays_upstream_failure
    (req : NextRequest) (parsed : Json) (e : Exn) (task : Json) (input : string) :
  isSelfHosted = true ->
  body req = inr parsed ->
  js_truthy (get_property "supplementName" parsed) = true ->
  query (get_property "supplementName" parsed)
    (get_property "researchFocus" parsed)
    (get_property "currentSupplements" parsed)
    (get_property "healthGoals" parsed) = Some input ->
  isAuthError e = false ->
  message e <> "AUTH_REQUIRED" ->
  task <> JNull ->
  js_truthy (get_property "deepresearch_id" task) = false ->
  ((forall input name, sdk_create input name = inl e) ->
   fst (post req)
   = mkResponse 500
       [ ("error", JString (String.append "Failed to perform deep research: "
                              (message e))) ])
  /\ ((forall input name, sdk_create input name = inr task) ->
      fst (post req)
      = mkResponse 500
          [ ("error",
             JString "Failed to perform deep research: Failed to create deep research task") ]).
Proof.
  intros Hmode Hbody Hname Hquery Hauth Hmsg Htask Hnoid.
  destruct (query_name _ _ _ _ _ Hquery) as [name Hprint].
  assert (Hgate : negb isSelfHosted
                  && negb (truthy (bearer_token (authorization req))) = false).
  { now rewrite Hmode. }
  rewrite (POST_past_gate req parsed input name Hgate Hbody Hname Hquery Hprint).
  cbn [fst].
  rewrite Hmode. unfold call, callValyuDeepResearch. cbn [truthy fst].
  split; intros Hsdk; rewrite Hsdk.
  - unfold on_error. rewrite Hauth.
    destruct (String.eqb_spec (message e) "AUTH_REQUIRED") as [E|_];
      [contradiction | reflexivity].
  - destruct task; try contradiction; rewrite Hnoid; reflexivity.
Qed.
End Upstream.


Lemma POST_keeps_modes_apart_witness :
  exists input name,
    SdkCreate
      (default EmptyString
         (researchQuery (fun _ => "0") (Some (JString "Magnesium")) None None None))
      "Magnesium"
    = SdkCreate input name.
Proof.
  exact (POST_keeps_modes_apart true (fun _ => "0") (fun _ => "500")
           (fun _ _ _ => inl (mkExn "down" false))
           (fun _ _ => inr (JObject [("deepresearch_id", JString "abc123")]))
           (mkRequest (Some "Bearer token-1")
              (inr (JObject [("supplementName", JString "Magnesium")])))
           _ (or_introl eq_refl)).
Defined.


Lemma POST_maps_token_refusal_witness :
  fst (POST false (fun _ => "0") (fun _ => "500")
         (fun _ _ _ =>
            inr (mkProxyResponse false 400
                   (inr (JObject [("error", JString "token expired at 12:00")]))))
         (fun _ _ => inl (mkExn "unused" false))
         (mkRequest (Some "Bearer token-1")
            (inr (JObject [("supplementName", JString "Magnesium")]))))
  = mkResponse 401
      [ ("error", JString "AUTH_REQUIRED");
        ("message", JString "Your session has expired. Please sign in again.") ].
Proof.
  apply (POST_maps_token_refusal false (fun _ => "0") (fun _ => "500")
           (fun _ _ _ =>
              inr (mkProxyResponse false 400
                     (inr (JObject [("error", JString "token expired at 12:00")]))))
           (fun _ _ => inl (mkExn "unused" false))
           (mkRequest (Some "Bearer token-1")
              (inr (JObject [("supplementName", JString "Magnesium")])))
           (JObject [("supplementName", JString "Magnesium")])
           (mkProxyResponse false 400
              (inr (JObject [("error", JString "token expired at 12:00")])))
           (default EmptyString
              (researchQuery (fun _ => "0") (Some (JString "Magnesium")) None None None)));
    try reflexivity.
  right. right.
  exists (JObject [("error", JString "token expired at 12:00")]),
    (JString "token expired at 12:00").
  split; [reflexivity|]. split; [reflexivity|].
  exists "expired". split; [right; left; reflexivity|].
  left. exists "token ", " at 12:00". reflexivity.
Defined.

Lemma POST_relays_upstream_failure_witness :
  fst (POST true (fun _ => "0") (fun _ => "500")
         (fun _ _ _ => inl (mkExn "unused" false))
         (fun _ _ => inl (mkExn "Insufficient credits" false))
         (mkRequest None (inr (JObject [("supplementName", JString "Magnesium")]))))
  = mkResponse 500
      [ ("error", JString "Failed to perform deep research: Insufficient credits") ].
Proof.
  apply (POST_relays_upstream_failure true (fun _ => "0") (fun _ => "500")
           (fun _ _ _ => inl (mkExn "unused" false))
           (fun _ _ => inl (mkExn "Insufficient credits" false))
           (mkRequest None (inr (JObject [("supplementName", JString "Magnesium")])))
           (JObject [("supplementName", JString "Magnesium")])
           (mkExn "Insufficient credits" false) (JObject [])
           (default EmptyString
              (researchQuery (fun _ => "0") (Some (JString "Magnesium")) None None None)));
    try reflexivity; try discriminate.
Defined.
End RouteMoreFacts.

(** ** The form and the route together *)

Module WireFacts.
Import WebStorage Route Wire.










(** X15.  A signed-in user whose access token is gone is sent back to
    sign in, not shown an error.  In hosted mode, when [localStorage] has
    no access token, the request [handleSubmit] sends carries no
    Authorization header; the route answers it with the gate's 401
    without going upstream; and on that answer [handleSubmit] removes
    both session keys, asks for the sign-in, stops the spinner and sets
    no error text. *)
Theorem missing_token_asks_for_sign_in
    (Number_toString : float -> string) (status_toString : N -> string)
    (fetch_proxy : string -> string -> string -> Exn + ProxyResponse)
    (sdk_create : string -> string -> Exn + Json)
    (user : Json) (name focus supplements goals : string) (s : Form.State) :
  js_truthy (Some user) = true ->
  truthy (getItem "valyu_access_token" (Form.localStorage s)) = false ->
  let s1 := Form.handleSubmit_begin false (Some user) name focus supplements goals s in
  exists c r,
    Form.sent s1 = (Form.sent s ++ [c])%list
    /\ Form.authorization c = None
    /\ received c = Gives r
    /\ snd (POST false Number_toString status_toString fetch_proxy sdk_create r) = []
    /\ let s2 :=
         Form.handleSubmit_settle
           (answered (fst (POST false Number_toString status_toString
                             fetch_proxy sdk_create r))) s1 in
       getItem "valyu_access_token" (Form.localStorage s2) = None
       /\ getItem "valyu_user" (Form.localStorage s2) = None
       /\ Form.called s2 = (Form.called s ++ [Form.onSignInClick])%list
       /\ Form.loading s2 = false
       /\ Form.error s2 = "".
Proof.
  intros Huser Hnone s1. subst s1.
  unfold Form.handleSubmit_begin. cbn [negb andb Form.localStorage].
  rewrite Huser. cbn [negb]. rewrite Hnone.
  eexists. eexists. split; [reflexivity|]. split; [reflexivity|].
  unfold received. cbn [Form.authorization]. split; [reflexivity|].
  unfold POST. cbn [authorization bearer_token truthy negb andb].
  split; [reflexivity|].
  cbn. unfold getItem, removeItem. repeat split.
  - rewrite lookup_delete_ne by discriminate. apply lookup_delete_eq.
  - apply lookup_delete_eq.
Qed.

Lemma missing_token_asks_for_sign_in_witness :
  let s := Form.mkState false "" (<["valyu_user" := "{}"]> ∅) [] [] in
  let s1 := Form.handleSubmit_begin false (Some (JObject [])) "Magnesium" "" "" "" s in
  exists c r,
    Form.sent s1 = [c]
    /\ received c = Gives r
    /\ Form.called
         (Form.handleSubmit_settle
            (answered (fst (POST false (fun _ => "0") (fun _ => "500")
                              (fun _ _ _ => inl (mkExn "down" false))
                              (fun _ _ => inl (mkExn "down" false)) r))) s1)
       = [Form.onSignInClick].
Proof.
  intros s s1.
  destruct (missing_token_asks_for_sign_in (fun _ => "0") (fun _ => "500")
              (fun _ _ _ => inl (mkExn "down" false))
              (fun _ _ => inl (mkExn "down" false))
              (JObject []) "Magnesium" "" "" "" s)
    as (c & r & Hsent & _ & Hreceived & _ & _ & _ & Hcalled & _).
  - reflexivity.
  - reflexivity.
  - exists c, r. repeat split; assumption.
Defined.

(** The header on the wire, on five tokens. *)
Example header_on_the_wire_examples :
  header_on_the_wire "Bearer token-1" = Gives "Bearer token-1"
  /\ header_on_the_wire "Bearer token-1 " = Gives "Bearer token-1"
  /\ header_on_the_wire "Bearer  " = Gives "Bearer"
  /\ header_on_the_wire (String.append "Bearer a" (String "010" "b")) = Throws
  /\ header_on_the_wire (String.append "Bearer a" (String "001" "b")) = Unmodelled.
Proof. vm_compute. repeat split; reflexivity. Qed.
End WireFacts.

(** ** More on the polling controller *)

Module PageFacts.
Import WebStorage Controller Page.

(** X16.  [handleReset] is idempotent: resetting a page that was just
    reset changes nothing, in particular when the interval was cleared
    already. *)
Theorem handleReset_idempotent (s : State) :
  handleReset (handleReset s) = handleReset s.
Proof.
  unfold handleReset, stop_polling, clearInterval.
  destruct (pollIntervalRef s) as [id|] eqn:E; cbn; rewrite ?E; reflexivity.
Qed.

(** X17.  A passing failure does not stop polling.  When a status
    request ends in a rejected [fetch], a body that is not JSON, or a
    response that is not ok and is not the sign-in signal, [pollStatus]
    writes one line to the console and changes nothing else: the
    snapshot, the analysing state, the interval and its ref stay, so the
    next tick polls again. *)
Theorem transient_failure_keeps_polling (o : PollOutcome) (s : State) :
  transient o = true ->
  exists line,
    pollStatus_settle o s = console_error_log line s
    /\ timers (pollStatus_settle o s) = timers s
    /\ pollIntervalRef (pollStatus_settle o s) = pollIntervalRef s
    /\ isAnalyzing (pollStatus_settle o s) = isAnalyzing s
    /\ analysisResult (pollStatus_settle o s) = analysisResult s.
Proof.
  intros Ht. unfold pollStatus_settle, pollStatus_body.
  destruct o as [reason|[] [data|]]; try discriminate Ht;
    try (cbn [transient] in Ht; apply negb_true_iff in Ht;
         destruct data; rewrite ?Ht);
    eexists; repeat split.
Qed.

Lemma transient_failure_keeps_polling_witness :
  let s := handleTaskCreated true "abc123" (initial ∅) in
  exists line,
    pollStatus_settle (PollRejected "Failed to fetch") s = console_error_log line s
    /\ timers (pollStatus_settle (PollRejected "Failed to fetch") s) = timers s.
Proof.
  intros s.
  destruct (transient_failure_keeps_polling (PollRejected "Failed to fetch") s eq_refl)
    as (line & H1 & H2 & _).
  exists line. split; [exact H1 | exact H2].
Defined.

(** What an ok response does on a controller that is not cancelled. *)
Lemma applied_response (s : State) (fields : list (string * Json)) :
  cancelledRef s = false ->
  let data := JObject fields in
  let s' := pollStatus_settle (PollResponse true (Some data)) s in
  analysisResult s' = data
  /\ (isAnalyzing s' = isAnalyzing s \/ isAnalyzing s' = false)
  /\ cancelledRef s' = false
  /\ currentTaskId s' = currentTaskId s.
Proof.
  intros Hc data s'. subst s'. unfold pollStatus_settle, pollStatus_body.
  rewrite Hc. subst data.
  destruct (is_string "completed" _ || is_string "failed" _ || is_string "cancelled" _).
  - unfold stop_polling, clearInterval.
    destruct (negb (is_string "completed" _));
      destruct (pollIntervalRef (setAnalysisResult (JObject fields) s)) eqn:E;
      cbn; auto.
  - cbn. auto.
Qed.

(** X18.  What the page shows after a response depends on the output
    alone, not on the status.  Once an ok response that is a JSON object
    is applied, the results are on screen when the object has a non-empty
    [output], and the loading card otherwise: a [failed] task without
    output is shown as the loading card, and any status with an output is
    shown as results. *)
Theorem screen_follows_output (s : State) (fields : list (string * Json)) :
  cancelledRef s = false ->
  screen (pollStatus_settle (PollResponse true (Some (JObject fields))) s)
  = if js_truthy (get_property "output" (JObject fields))
    then ResultsScreen else LoadingCard.
Proof.
  intros Hc.
  destruct (applied_response s fields Hc) as (Hsnap & _).
  unfold screen, isHomepage, isLoading. rewrite Hsnap.
  cbn [js_truthy negb andb orb]. rewrite !andb_false_r. cbn [orb].
  now destruct (js_truthy (get_property "output" (JObject fields))).
Qed.

Lemma screen_follows_output_witness :
  screen
    (pollStatus_settle
       (PollResponse true (Some (JObject [("status", JString "failed")])))
       (handleTaskCreated true "abc123" (initial ∅)))
  = LoadingCard.
Proof.
  exact (screen_follows_output (handleTaskCreated true "abc123" (initial ∅))
           [("status", JString "failed")] eq_refl).
Defined.


Lemma tidy_frame (s s' : State) :
  timers s' = timers s -> pollIntervalRef s' = pollIntervalRef s ->
  isAnalyzing s' = isAnalyzing s ->
  tidy s -> tidy s'.
Proof.
  unfold tidy. intros -> -> ->. auto.
Qed.

Lemma tidy_stopped (s s' : State) :
  timers s' = timers (stop_polling s) ->
  pollIntervalRef s' = pollIntervalRef (stop_polling s) ->
  tidy s -> tidy s'.
Proof.
  unfold tidy, stop_polling, clearInterval. intros Ht Hr [H1 H2].
  destruct (pollIntervalRef s) as [id0|] eqn:E.
  - cbn in Ht, Hr. split; [|intros _; exact Hr].
    intros id t Hl. rewrite Ht in Hl.
    destruct (decide (id = id0)) as [->|Hne].
    + rewrite lookup_delete_eq in Hl. discriminate.
    + rewrite lookup_delete_ne in Hl by congruence.
      apply H1 in Hl. congruence.
  - split.
    + intros id t Hl. rewrite Ht in Hl. apply H1 in Hl. congruence.
    + intros _. now rewrite Hr, E.
Qed.

Lemma tidy_settle (o : PollOutcome) (s : State) :
  tidy s -> tidy (pollStatus_settle o s).
Proof.
  intros Htidy. unfold pollStatus_settle, pollStatus_body.
  destruct o as [reason|[] [[]|]];
    try (apply (tidy_frame s); [reflexivity..|exact Htidy]).
  all: try (destruct (cancelledRef s); [exact Htidy|]).
  all: try (apply (tidy_frame s); [reflexivity..|exact Htidy]).
  all: repeat match goal with
         | |- context [if ?c then _ else _] => destruct c
         end;
    try (apply (tidy_frame s); [reflexivity..|exact Htidy]);
    apply (tidy_stopped s); try exact Htidy;
    unfold stop_polling, clearInterval; cbn;
    destruct (pollIntervalRef s) eqn:E; cbn; rewrite ?E; reflexivity.
Qed.

Lemma tidy_reset (s : State) : tidy s -> tidy (handleReset s).
Proof.
  intros Htidy. apply (tidy_stopped s); try exact Htidy;
    unfold handleReset, stop_polling, clearInterval; cbn;
    destruct (pollIntervalRef s) eqn:E; cbn; rewrite ?E; reflexivity.
Qed.

Section Mode.
Variable isSelfHosted : bool.

(** X19.  The cancellation flag belongs to the page, not to a task:
    [handleTaskCreated] clears it.  So when a task is cancelled while a
    status request is in flight and a new task is created before that
    request settles, the late response of the cancelled task is applied
    to the snapshot of the new one. *)
Theorem late_response_reaches_next_task
    (s : State) (old next : string) (c : CancelOutcome)
    (fields : list (string * Json)) :
  In old (pending_polls s) ->
  truthy (currentTaskId s) = true ->
  exists f,
    exec isSelfHosted
      [ CancelClicked; CancelSettles c; TaskCreated next;
        PollSettles old (PollResponse true (Some (JObject fields))) ] s
    = Some f
    /\ currentTaskId f = Some next
    /\ analysisResult f = JObject fields.
Proof.
  intros Hin Htask.
  destruct (ControllerFacts.handleCancel_begin_spec isSelfHosted s)
    as (_ & Hpolls & Hbegin).
  rewrite Htask in Hbegin. destruct Hbegin as (_ & _ & Hpc & _).
  set (s1 := snd (handleCancel_begin isSelfHosted s)) in *.
  assert (H1 : step isSelfHosted CancelClicked s = Some s1) by reflexivity.
  destruct (ControllerFacts.step_cancel_settles isSelfHosted c s1)
    as (s2 & H2 & _ & _ & Hpolls2).
  { rewrite Hpc. discriminate. }
  set (s3 := handleTaskCreated isSelfHosted next s2).
  assert (H3 : step isSelfHosted (TaskCreated next) s2 = Some s3) by reflexivity.
  assert (Hflag3 : cancelledRef s3 = false).
  { subst s3. unfold handleTaskCreated, pollStatus_send, setInterval, fetch. cbn.
    reflexivity. }
  assert (Htask3 : currentTaskId s3 = Some next).
  { subst s3. unfold handleTaskCreated, pollStatus_send, setInterval, fetch. cbn.
    reflexivity. }
  assert (Hin3 : In old (pending_polls s3)).
  { subst s3. unfold handleTaskCreated, pollStatus_send, setInterval, fetch. cbn.
    apply in_or_app. left. rewrite Hpolls2, Hpolls. exact Hin. }
  destruct (ControllerFacts.take_out_In _ _ Hin3) as [rest Hrest].
  eexists. split.
  { rewrite (ControllerFacts.exec_cons _ _ _ _ _ H1),
      (ControllerFacts.exec_cons _ _ _ _ _ H2),
      (ControllerFacts.exec_cons _ _ _ _ _ H3).
    cbn [exec step]. rewrite Hrest. reflexivity. }
  match goal with
  | |- context [pollStatus_settle _ ?x] =>
      assert (Hx : cancelledRef x = false) by exact Hflag3;
      destruct (applied_response x fields Hx) as (Ha & _ & _ & Hb)
  end.
  split; [rewrite Hb; exact Htask3 | exact Ha].
Qed.
Lemma tidy_step (e : Event) (s s' : State) :
  (is_task_created e = true -> isAnalyzing s = false) ->
  tidy s -> step isSelfHosted e s = Some s' -> tidy s'.
Proof.
  intros Hguard Htidy Hstep.
  destruct e as [t|id|t o| |o|]; cbn [step] in Hstep.
  - injection Hstep as <-. specialize (Hguard eq_refl).
    destruct Htidy as [H1 H2]. specialize (H2 Hguard).
    unfold tidy, handleTaskCreated, pollStatus_send, setInterval, fetch. cbn.
    split; [|discriminate].
    intros id t' Hl.
    destruct (decide (id = next_timer s)) as [->|Hne]; [reflexivity|].
    rewrite lookup_insert_ne in Hl by congruence.
    apply H1 in Hl. congruence.
  - destruct (timers s !! id); [|discriminate]. injection Hstep as <-.
    apply (tidy_frame s); try exact Htidy;
      unfold pollStatus_send, fetch; destruct (cancelledRef s); reflexivity.
  - destruct (take_out t (pending_polls s)) as [rest|]; [|discriminate].
    injection Hstep as <-. apply tidy_settle.
    apply (tidy_frame s); [reflexivity..|exact Htidy].
  - injection Hstep as <-. unfold handleCancel_begin.
    cbn [set_cancelledRef currentTaskId].
    destruct (negb (truthy (currentTaskId s))); cbn [snd].
    + apply tidy_reset. apply (tidy_frame s); [reflexivity..|exact Htidy].
    + apply (tidy_frame s); [reflexivity..|exact Htidy].
  - destruct (pending_cancels s) as [|n]; [discriminate|].
    injection Hstep as <-. unfold handleCancel_settle, state_of.
    apply tidy_reset. destruct o; apply (tidy_frame s); try exact Htidy; reflexivity.
  - injection Hstep as <-. now apply tidy_reset.
Qed.

(** X20.  No interval is orphaned.  From a freshly loaded page, along any
    run in which a task is created only while nothing is being analysed
    (the form is on screen only then), every live interval is the one
    [pollIntervalRef] holds: at most one interval is live at any time,
    and none is live once the analysing state is off. *)
Theorem no_orphaned_interval
    (ls : Storage) (trace : list Event) (s : State) :
  submits_when_idle isSelfHosted trace (initial ls) = true ->
  exec isSelfHosted trace (initial ls) = Some s ->
  (forall id t, timers s !! id = Some t -> pollIntervalRef s = Some id)
  /\ (forall id1 id2 t1 t2,
        timers s !! id1 = Some t1 -> timers s !! id2 = Some t2 -> id1 = id2)
  /\ (isAnalyzing s = false -> forall id, timers s !! id = None).
Proof.
  assert (Hgen : forall trace s0 s,
             tidy s0 ->
             submits_when_idle isSelfHosted trace s0 = true ->
             exec isSelfHosted trace s0 = Some s -> tidy s).
  { clear. intros trace. induction trace as [|e trace IH]; intros s0 s Htidy Hsub Hexec.
    - injection Hexec as <-. exact Htidy.
    - cbn [submits_when_idle exec] in Hsub, Hexec.
      apply andb_true_iff in Hsub. destruct Hsub as [Hg Hsub].
      destruct (step isSelfHosted e s0) as [s1|] eqn:Hstep; [|discriminate].
      apply (IH s1 s); [|exact Hsub|exact Hexec].
      apply (tidy_step e s0 s1); [|exact Htidy|exact Hstep].
      intros He. rewrite He in Hg. now apply negb_true_iff in Hg. }
  intros Hsub Hexec.
  assert (Hinit : tidy (initial ls)).
  { split; [|reflexivity]. intros id t Hl. cbn in Hl.
    rewrite lookup_empty in Hl. discriminate. }
  destruct (Hgen trace (initial ls) s Hinit Hsub Hexec) as [H1 H2].
  split; [exact H1|]. split.
  - intros id1 id2 t1 t2 Hl1 Hl2. apply H1 in Hl1, Hl2. congruence.
  - intros Hoff id. destruct (timers s !! id) as [t|] eqn:Hl; [|reflexivity].
    apply H1 in Hl. rewrite (H2 Hoff) in Hl. discriminate.
Qed.

(** While no credential can be read, no request carries one. *)
Lemma no_credentials_step (e : Event) (s s' : State) :
  getAuthHeaders isSelfHosted s = None ->
  step isSelfHosted e s = Some s' ->
  getAuthHeaders isSelfHosted s' = None
  /\ exists more,
       requests s' = (requests s ++ more)%list
       /\ Forall (fun r => credentials r = None) more.
Proof.
  intros Hnone Hstep.
  assert (Hkeep : forall x, localStorage x = localStorage s ->
                            getAuthHeaders isSelfHosted x = None).
  { intros x Hx. unfold getAuthHeaders in *. now rewrite Hx. }
  assert (Hdel : forall x,
             localStorage x = delete "valyu_user"
                                (delete "valyu_access_token" (localStorage s)) ->
             getAuthHeaders isSelfHosted x = None).
  { intros x Hx. unfold getAuthHeaders, getItem. rewrite Hx.
    rewrite lookup_delete_ne by discriminate. rewrite lookup_delete_eq.
    now destruct isSelfHosted. }
  destruct e as [t|id|t o| |o|]; cbn [step] in Hstep.
  - injection Hstep as <-. split.
    + apply Hkeep. unfold handleTaskCreated, pollStatus_send, setInterval, fetch.
      reflexivity.
    + unfold handleTaskCreated, pollStatus_send, setInterval, fetch. cbn.
      eexists. split; [reflexivity|].
      constructor; [|constructor]. cbn. apply Hkeep. reflexivity.
  - destruct (timers s !! id); [|discriminate]. injection Hstep as <-.
    unfold pollStatus_send, fetch. destruct (cancelledRef s).
    + split; [exact Hnone|]. exists []. split; [now rewrite app_nil_r | constructor].
    + split; [apply Hkeep; reflexivity|]. cbn.
      eexists. split; [reflexivity|]. constructor; [exact Hnone | constructor].
  - destruct (take_out t (pending_polls s)) as [rest|]; [|discriminate].
    injection Hstep as <-.
    split.
    + unfold pollStatus_settle, pollStatus_body.
      destruct o as [reason|[] [[]|]];
        try (apply Hkeep; reflexivity).
      all: try (destruct (cancelledRef s); [apply Hkeep; reflexivity|]).
      all: repeat match goal with
             | |- context [if ?c then _ else _] => destruct c
             end;
        unfold stop_polling, clearInterval; cbn;
        destruct (pollIntervalRef s) eqn:E; cbn; rewrite ?E;
        first [ apply Hkeep; reflexivity | apply Hdel; reflexivity ].
    + exists []. split; [|constructor]. rewrite app_nil_r.
      match goal with
      | |- requests (pollStatus_settle o ?x) = _ =>
          change (requests s) with (requests x)
      end.
      unfold pollStatus_settle, pollStatus_body.
      destruct o as [reason|[] [[]|]]; try reflexivity.
      all: try (destruct (cancelledRef s); [reflexivity|]).
      all: repeat match goal with
             | |- context [if ?c then _ else _] => destruct c
             end;
        unfold stop_polling, clearInterval; cbn;
        destruct (pollIntervalRef s) eqn:E; cbn; rewrite ?E; reflexivity.
  - injection Hstep as <-. unfold handleCancel_begin.
    cbn [set_cancelledRef currentTaskId].
    destruct (negb (truthy (currentTaskId s))); cbn [snd].
    + split.
      * apply Hkeep. unfold handleReset, stop_polling, clearInterval. cbn.
        destruct (pollIntervalRef s); reflexivity.
      * exists []. split; [|constructor]. rewrite app_nil_r.
        unfold handleReset, stop_polling, clearInterval. cbn.
        destruct (pollIntervalRef s); reflexivity.
    + split; [apply Hkeep; reflexivity|]. cbn.
      eexists. split; [reflexivity|]. constructor; [|constructor].
      cbn. apply Hkeep. reflexivity.
  - destruct (pending_cancels s) as [|n]; [discriminate|].
    injection Hstep as <-. unfold handleCancel_settle, state_of.
    split.
    + apply Hkeep. unfold handleReset, stop_polling, clearInterval.
      destruct o; cbn; destruct (pollIntervalRef s); reflexivity.
    + exists []. split; [|constructor]. rewrite app_nil_r.
      unfold handleReset, stop_polling, clearInterval.
      destruct o; cbn; destruct (pollIntervalRef s); reflexivity.
  - injection Hstep as <-. split.
    + apply Hkeep. unfold handleReset, stop_polling, clearInterval. cbn.
      destruct (pollIntervalRef s); reflexivity.
    + exists []. split; [|constructor]. rewrite app_nil_r.
      unfold handleReset, stop_polling, clearInterval. cbn.
      destruct (pollIntervalRef s); reflexivity.
Qed.

Lemma no_credentials_run (trace : list Event) (s f : State) :
  getAuthHeaders isSelfHosted s = None ->
  exec isSelfHosted trace s = Some f ->
  getAuthHeaders isSelfHosted f = None
  /\ exists more,
       requests f = (requests s ++ more)%list
       /\ Forall (fun r => credentials r = None) more.
Proof.
  revert s. induction trace as [|e trace IH]; intros s Hnone Hexec.
  - injection Hexec as <-. split; [exact Hnone|].
    exists []. split; [now rewrite app_nil_r | constructor].
  - cbn [exec] in Hexec.
    destruct (step isSelfHosted e s) as [s1|] eqn:Hstep; [|discriminate].
    destruct (no_credentials_step e s s1 Hnone Hstep) as (Hn1 & m1 & Hr1 & Hf1).
    destruct (IH s1 Hn1 Hexec) as (Hnf & m2 & Hr2 & Hf2).
    split; [exact Hnf|]. exists (m1 ++ m2)%list. split.
    + rewrite Hr2, Hr1. now rewrite <- app_assoc.
    + apply Forall_app. split; assumption.
Qed.
End Mode.

Lemma late_response_reaches_next_task_witness :
  exists f,
    exec true
      [ CancelClicked; CancelSettles (CancelResponse true 200); TaskCreated "def456";
        PollSettles "abc123"
          (PollResponse true (Some (JObject [("status", JString "completed")]))) ]
      (handleTaskCreated true "abc123" (initial ∅))
    = Some f
    /\ currentTaskId f = Some "def456"
    /\ analysisResult f = JObject [("status", JString "completed")].
Proof.
  apply (late_response_reaches_next_task true
           (handleTaskCreated true "abc123" (initial ∅)) "abc123" "def456"
           (CancelResponse true 200) [("status", JString "completed")]).
  - left. reflexivity.
  - reflexivity.
Defined.

Lemma no_orphaned_interval_witness :
  let trace :=
    [ TaskCreated "abc123"; Tick 1;
      PollSettles "abc123"
        (PollResponse true (Some (JObject [("status", JString "failed")])));
      ResetClicked; TaskCreated "def456" ] in
  exists s,
    exec true trace (initial ∅) = Some s
    /\ (forall id t, timers s !! id = Some t -> pollIntervalRef s = Some id).
Proof.
  intros trace.
  assert (H : exists s, exec true trace (initial ∅) = Some s)
    by (vm_compute; eexists; reflexivity).
  destruct H as [s Hs]. exists s. split; [exact Hs|].
  exact (proj1 (no_orphaned_interval true ∅ trace s eq_refl Hs)).
Defined.

(** X21.  In self-hosted mode the page never sends a credential: along
    every run from a freshly loaded page, whatever [localStorage] holds,
    no status request and no cancel request carries an Authorization
    header. *)
Theorem self_hosted_sends_no_credentials
    (ls : Storage) (trace : list Event) (f : State) :
  exec true trace (initial ls) = Some f ->
  Forall (fun r => credentials r = None) (requests f).
Proof.
  intros Hexec.
  destruct (no_credentials_run true trace (initial ls) f eq_refl Hexec)
    as (_ & more & Hreq & Hall).
  rewrite Hreq. exact Hall.
Qed.

Lemma self_hosted_sends_no_credentials_witness :
  exists f,
    exec true [TaskCreated "abc123"; Tick 1; CancelClicked]
      (initial (<["valyu_access_token" := "token-1"]> ∅)) = Some f
    /\ length (requests f) = 3
    /\ Forall (fun r => credentials r = None) (requests f).
Proof.
  assert (H : exists f,
             exec true [TaskCreated "abc123"; Tick 1; CancelClicked]
               (initial (<["valyu_access_token" := "token-1"]> ∅)) = Some f
             /\ length (requests f) = 3)
    by (vm_compute; eexists; split; reflexivity).
  destruct H as (f & Hf & Hlen). exists f. split; [exact Hf|]. split; [exact Hlen|].
  exact (self_hosted_sends_no_credentials _ _ f Hf).
Defined.

(** X22.  After the sign-in signal the stale token is never sent again.
    In hosted mode, once a status response with [AUTH_REQUIRED] has been
    handled, every request the page sends in any later run of the
    controller goes without an Authorization header. *)
Theorem no_credentials_after_auth_required
    (s : State) (taskId : string) (data : Json) (trace : list Event) (f : State) :
  is_string "AUTH_REQUIRED" (get_property "error" data) = true ->
  exec false (PollSettles taskId (PollResponse false (Some data)) :: trace) s
  = Some f ->
  exists more,
    requests f = (requests s ++ more)%list
    /\ Forall (fun r => credentials r = None) more.
Proof.
  intros Hauth Hexec. cbn [exec step] in Hexec.
  destruct (take_out taskId (pending_polls s)) as [rest|]; [|discriminate].
  match type of Hexec with
  | exec _ _ ?x = _ =>
      assert (Hx : getAuthHeaders false x = None /\ requests x = requests s)
  end.
  { unfold pollStatus_settle, pollStatus_body.
    destruct data; try discriminate Hauth. rewrite Hauth.
    unfold stop_polling, clearInterval, getAuthHeaders, getItem, removeItem. cbn.
    destruct (pollIntervalRef s) eqn:E; cbn; rewrite ?E;
      (split; [|reflexivity]);
      rewrite lookup_delete_ne by discriminate; now rewrite lookup_delete_eq. }
  destruct Hx as [Hnone Hreq].
  destruct (no_credentials_run false trace _ f Hnone Hexec) as (_ & more & Hr & Hall).
  exists more. split; [now rewrite Hr, Hreq | exact Hall].
Qed.

Lemma no_credentials_after_auth_required_witness :
  let s := handleTaskCreated false "abc123"
             (initial (<["valyu_access_token" := "token-1"]> ∅)) in
  exists f more,
    exec false
      [ PollSettles "abc123"
          (PollResponse false (Some (JObject [("error", JString "AUTH_REQUIRED")])));
        TaskCreated "def456" ] s = Some f
    /\ requests s = [GetStatus "abc123" (Some "Bearer token-1")]
    /\ requests f = (requests s ++ more)%list
    /\ Forall (fun r => credentials r = None) more.
Proof.
  intros s.
  assert (H : exists f,
             exec false
               [ PollSettles "abc123"
                   (PollResponse false
                      (Some (JObject [("error", JString "AUTH_REQUIRED")])));
                 TaskCreated "def456" ] s = Some f)
    by (vm_compute; eexists; reflexivity).
  destruct H as (f & Hf).
  destruct (no_credentials_after_auth_required s "abc123"
              (JObject [("error", JString "AUTH_REQUIRED")]) _ f eq_refl Hf)
    as (more & Hreq & Hall).
  exists f, more. split; [exact Hf|]. split; [reflexivity|].
  split; [exact Hreq | exact Hall].
Defined.

Section Load.
Variable JSON_parse_user : string -> option Json.
Variable JSON_parse : string -> option (option OAuthForm.OAuthFormValues).

Lemma load_user_frame (text : option string) (on_throw : State -> State) (s : State) :
  (supplementName (on_throw s) = supplementName s
   /\ researchFocus (on_throw s) = researchFocus s
   /\ localStorage (on_throw s) !! OAuthForm.OAUTH_FORM_VALUES_KEY
      = localStorage s !! OAuthForm.OAUTH_FORM_VALUES_KEY) ->
  let s' := load_user JSON_parse_user text on_throw s in
  supplementName s' = supplementName s
  /\ researchFocus s' = researchFocus s
  /\ localStorage s' !! OAuthForm.OAUTH_FORM_VALUES_KEY
     = localStorage s !! OAuthForm.OAUTH_FORM_VALUES_KEY.
Proof.
  intros Hthrow. unfold load_user.
  destruct text as [t|]; [|auto].
  destruct (truthy (Some t)); [|auto].
  destruct (JSON_parse_user t) as [[]|]; auto.
Qed.

(** X23.  What the user had typed survives the sign-in.  In hosted mode,
    when the sign-in is started from a page with given form inputs and
    the page loaded after the redirect runs its load effect with
    [auth=success] on a storage that still holds what the flow saved, the
    inputs of the new page are those of the old one, the success notice
    is shown, and the saved entry is gone. *)
Theorem inputs_survive_sign_in
    (JSON_stringify : OAuthForm.OAuthFormValues -> string)
    (env : OAuthFlow.Env) (s : State) (b : OAuthFlow.Browser) (ls : Storage) :
  let values :=
    OAuthForm.mkFormValues (Some (supplementName s)) (Some (researchFocus s)) in
  OAuthFlow.isOAuthConfigured env = true ->
  JSON_stringify values <> "" ->
  JSON_parse (JSON_stringify values) = Some (Some values) ->
  ls !! OAuthForm.OAUTH_FORM_VALUES_KEY
  = OAuthFlow.localStorage
      (OAuthFlow.browser_of (handleSignIn JSON_stringify env s b))
    !! OAuthForm.OAUTH_FORM_VALUES_KEY ->
  let loaded :=
    on_load false JSON_parse_user JSON_parse (Some "success") (initial ls) in
  supplementName (fst loaded) = supplementName s
  /\ researchFocus (fst loaded) = researchFocus s
  /\ snd loaded = true
  /\ getItem OAuthForm.OAUTH_FORM_VALUES_KEY (localStorage (fst loaded)) = None.
Proof.
  intros values Hcfg Hne Hrt Hls loaded.
  assert (Hsaved : ls !! OAuthForm.OAUTH_FORM_VALUES_KEY = Some (JSON_stringify values)).
  { rewrite Hls. unfold handleSignIn.
    rewrite (OAuthFlowFacts.initiateOAuthFlow_configured JSON_stringify env _ b Hcfg).
    destruct (OAuthFlow.URL_origin _); cbn; apply lookup_insert_eq. }
  subst loaded. unfold on_load.
  change (String.eqb "success" "success") with true. cbv iota.
  set (s1 := load_user _ _ _ (initial ls)).
  assert (H1 : supplementName s1 = "" /\ researchFocus s1 = ""
               /\ localStorage s1 !! OAuthForm.OAUTH_FORM_VALUES_KEY
                  = Some (JSON_stringify values)).
  { rewrite <- Hsaved. subst s1. apply (load_user_frame _ _ (initial ls)).
    cbn. repeat split. now rewrite lookup_delete_ne by discriminate. }
  set (s2 := load_user _ _ _ s1).
  assert (H2 : supplementName s2 = "" /\ researchFocus s2 = ""
               /\ localStorage s2 !! OAuthForm.OAUTH_FORM_VALUES_KEY
                  = Some (JSON_stringify values)).
  { destruct H1 as (Ha & Hb & Hc). rewrite <- Ha at 1. rewrite <- Hb at 1.
    rewrite <- Hc. subst s2. apply (load_user_frame _ _ s1).
    cbn. repeat split. }
  destruct H2 as (_ & _ & Hkey).
  unfold OAuthForm.restoreFormValuesAfterOAuth, getItem, removeItem.
  rewrite Hkey. cbn [truthy].
  destruct (String.eqb_spec (JSON_stringify values) "") as [E|_]; [contradiction|].
  cbn [negb]. rewrite Hrt. cbn [fst snd].
  subst values. cbn [OAuthForm.supplementName OAuthForm.researchFocus truthy default].
  destruct (String.eqb_spec (supplementName s) "") as [En|_];
    destruct (String.eqb_spec (researchFocus s) "") as [Ef|_];
    cbn; rewrite ?En, ?Ef;
    repeat split; try apply lookup_delete_eq.
  all: destruct H1 as (? & ? & _); subst s2; unfold load_user;
    repeat match goal with
      | |- context [match ?x with _ => _ end] => destruct x
      end; cbn; congruence.
Qed.

(** X24.  A stored profile that does not parse is dropped at the first
    load.  In hosted mode, when [valyu_user] holds a non-empty text that
    [JSON.parse] rejects, the load effect leaves the user as it was,
    removes the entry and logs once, also on the load that follows a
    sign-in; in self-hosted mode the effect does nothing at all. *)
Theorem on_load_drops_corrupt_profile
    (auth : option string) (text : string) (s : State) :
  getItem "valyu_user" (localStorage s) = Some text ->
  text <> "" ->
  JSON_parse_user text = None ->
  let loaded := fst (on_load false JSON_parse_user JSON_parse auth s) in
  getItem "valyu_user" (localStorage loaded) = None
  /\ user loaded = user s
  /\ console_error loaded = (console_error s ++ ["Failed to parse user data:"])%list
  /\ on_load true JSON_parse_user JSON_parse auth s = (s, false).
Proof.
  intros Hget Hne Hbad loaded. subst loaded. unfold on_load.
  set (s1 := set_localStorage (removeItem "valyu_user" (localStorage s))
               (console_error_log "Failed to parse user data:" s)).
  assert (Hfirst :
            load_user JSON_parse_user (getItem "valyu_user" (localStorage s))
              (fun s =>
                 set_localStorage (removeItem "valyu_user" (localStorage s))
                   (console_error_log "Failed to parse user data:" s)) s = s1).
  { unfold load_user. rewrite Hget. cbn [truthy].
    destruct (String.eqb_spec text "") as [E|_]; [contradiction|]. cbn [negb].
    now rewrite Hbad. }
  rewrite Hfirst. unfold getItem in *.
  assert (H1 : localStorage s1 !! "valyu_user" = None) by apply lookup_delete_eq.
  destruct auth as [status|]; [|cbn; repeat split; exact H1].
  destruct (String.eqb status "success"); [|cbn; repeat split; exact H1].
  unfold load_user, getItem. rewrite H1.
  unfold OAuthForm.restoreFormValuesAfterOAuth, getItem, removeItem.
  destruct (localStorage s1 !! OAuthForm.OAUTH_FORM_VALUES_KEY) as [saved|] eqn:Hs;
    [|cbn; repeat split; exact H1].
  destruct (truthy (Some saved)); [|cbn; repeat split; exact H1].
  destruct (JSON_parse saved) as [[values|]|];
    repeat match goal with
      | |- context [if ?c then _ else _] => destruct c
      end;
    cbn; repeat split;
    rewrite lookup_delete_ne by discriminate; exact H1.
Qed.
End Load.

Lemma inputs_survive_sign_in_witness :
  let s := setResearchFocus "sleep quality" (setSupplementName "Magnesium" (initial ∅)) in
  let after :=
    OAuthFlow.browser_of
      (handleSignIn PlainJSON.stringify
         (OAuthFlow.mkEnv (Some "client-1") (Some "https://auth.valyu.ai")
            (Some "http://localhost:3000/auth/valyu/callback"))
         s (OAuthFlow.mkBrowser ∅ ∅ "http://localhost:3000/" [] [])) in
  let loaded :=
    on_load false (fun _ => None) PlainJSON.parse (Some "success")
      (initial (OAuthFlow.localStorage after)) in
  supplementName (fst loaded) = "Magnesium"
  /\ researchFocus (fst loaded) = "sleep quality".
Proof.
  intros s after loaded.
  destruct (inputs_survive_sign_in (fun _ => None) PlainJSON.parse PlainJSON.stringify
              (OAuthFlow.mkEnv (Some "client-1") (Some "https://auth.valyu.ai")
                 (Some "http://localhost:3000/auth/valyu/callback"))
              s (OAuthFlow.mkBrowser ∅ ∅ "http://localhost:3000/" [] [])
              (OAuthFlow.localStorage after)) as (Hn & Hf & _).
  - reflexivity.
  - vm_compute. discriminate.
  - vm_compute. reflexivity.
  - reflexivity.
  - split; [exact Hn | exact Hf].
Defined.
Lemma on_load_drops_corrupt_profile_witness :
  let s := initial (<["valyu_user" := "{oops"]> ∅) in
  getItem "valyu_user"
    (localStorage (fst (on_load false (fun _ => None) PlainJSON.parse
                          (Some "success") s))) = None.
Proof.
  intros s.
  destruct (on_load_drops_corrupt_profile (fun _ => None) PlainJSON.parse
              (Some "success") "{oops" s) as (H & _).
  - apply lookup_insert_eq.
  - discriminate.
  - reflexivity.
  - exact H.
Defined.
End PageFacts.

(** ** More on submitting the form *)

Module FormMoreFacts.
Import WebStorage Form.

(** X25.  [handleSubmit] ends in exactly one of two ways.  On an ok
    response with a JSON body other than null it hands the task over to
    the page once, with the [deepresearch_id] of the body (undefined when
    the body has none), and leaves the spinner and the error text as they
    are.  On every other settlement it hands nothing over and turns the
    spinner off. *)
Theorem handleSubmit_settles_one_way (o : SubmitOutcome) (s : State) :
  let s' := handleSubmit_settle o s in
  match o with
  | SubmitResponse true (Some data) =>
      if match data with JNull => true | _ => false end
      then loading s' = false /\ called s' = called s
      else called s' = (called s ++ [onTaskCreated (get_property "deepresearch_id" data)])%list
           /\ loading s' = loading s /\ error s' = error s
           /\ localStorage s' = localStorage s
  | _ =>
      loading s' = false
      /\ (called s' = called s \/ called s' = (called s ++ [onSignInClick])%list)
  end.
Proof.
  unfold handleSubmit_settle.
  destruct o as [reason|[] [data|]]; cbn; auto.
  all: destruct data; cbn; auto.
  all: repeat match goal with
         | |- context [match ?x with _ => _ end] => destruct x; cbn
         end; auto.
Qed.
End FormMoreFacts.

(** ** More on the progress percentage *)

Module ProgressMoreFacts.
Import ProgressBar ProgressShape.
Local Open Scope Z_scope.

Lemma steps_up_below_200 : steps_up_below 200 = true.
Proof. vm_compute. reflexivity. Qed.

Lemma zero_total_below_200 : zero_total_below 200 = true.
Proof. vm_compute. reflexivity. Qed.

Lemma shows_sound (c t p : Z) : shows c t p = true -> shown_percent c t = Some p.
Proof.
  unfold shows. destruct (shown_percent c t) as [q|]; [|discriminate].
  intros H. apply Z.eqb_eq in H. now subst.
Qed.

Lemma steps_up_sound (n : nat) (t : Z) :
  steps_up_below n = true ->
  0 < t <= Z.of_nat n ->
  shown_percent 0 t = Some 0
  /\ shown_percent t t = Some 100
  /\ forall c, 0 <= c < t -> steps_up c t = true.
Proof.
  unfold steps_up_below. intros Hall Ht.
  rewrite forallb_forall in Hall.
  specialize (Hall (Z.to_nat (t - 1))).
  replace (Z.of_nat (S (Z.to_nat (t - 1)))) with t in Hall by lia.
  assert (Hin : In (Z.to_nat (t - 1)) (seq 0 n)) by (apply in_seq; lia).
  specialize (Hall Hin).
  apply andb_true_iff in Hall. destruct Hall as [Hends Hall].
  apply andb_true_iff in Hends. destruct Hends as [H0 H100].
  split; [now apply shows_sound|]. split; [now apply shows_sound|].
  rewrite forallb_forall in Hall. intros c Hc.
  specialize (Hall (Z.to_nat c)).
  replace (Z.of_nat (Z.to_nat c)) with c in Hall by lia.
  apply Hall, in_seq. lia.
Qed.

Lemma zero_total_sound (n : nat) (c : Z) :
  zero_total_below n = true ->
  0 <= c <= Z.of_nat n -> shown_percent c 0 = None.
Proof.
  unfold zero_total_below. intros Hall Hc.
  rewrite forallb_forall in Hall.
  specialize (Hall (Z.to_nat c)).
  replace (Z.of_nat (Z.to_nat c)) with c in Hall by lia.
  assert (Hin : In (Z.to_nat c) (seq 0 (S n))) by (apply in_seq; lia).
  specialize (Hall Hin).
  now destruct (shown_percent c 0).
Qed.

(** X26.  The progress bar never runs backwards and never leaves its
    range: for a total of 1 to 200 steps, the percentage shown is 0 at
    step 0, 100 at the last step, and from any step to any later step it
    stays between 0 and 100 and does not go down. *)
Theorem shown_percent_monotone (c1 c2 t : Z) :
  0 < t <= 200 -> 0 <= c1 <= c2 -> c2 <= t ->
  exists p q,
    shown_percent c1 t = Some p /\ shown_percent c2 t = Some q
    /\ 0 <= p <= q /\ q <= 100
    /\ shown_percent 0 t = Some 0 /\ shown_percent t t = Some 100.
Proof.
  intros Ht Hc Hc2.
  destruct (steps_up_sound 200 t steps_up_below_200 ltac:(lia)) as (H0 & H100 & Hstep).
  assert (Hval : forall c, 0 <= c <= t ->
                           exists p, shown_percent c t = Some p /\ 0 <= p <= 100).
  { intros c Hr. destruct (Z.eq_dec c t) as [->|Hne].
    - exists 100. split; [exact H100 | lia].
    - specialize (Hstep c ltac:(lia)). unfold steps_up in Hstep.
      destruct (shown_percent c t) as [p|]; [|discriminate].
      destruct (shown_percent (c + 1) t) as [q|]; [|discriminate].
      exists p. split; [reflexivity | lia]. }
  assert (Hmono : forall n c p q,
             0 <= c -> c + Z.of_nat n <= t ->
             shown_percent c t = Some p ->
             shown_percent (c + Z.of_nat n) t = Some q -> p <= q).
  { induction n as [|n IH]; intros c p q Hc0 Hct Hp Hq.
    - assert (E : c + Z.of_nat 0 = c) by lia. rewrite E in Hq.
      assert (Some p = Some q) as [= ->] by (rewrite <- Hp, <- Hq; reflexivity).
      lia.
    - specialize (Hstep c ltac:(lia)). unfold steps_up in Hstep. rewrite Hp in Hstep.
      destruct (shown_percent (c + 1) t) as [m|] eqn:Hm; [|discriminate].
      replace (c + Z.of_nat (S n)) with ((c + 1) + Z.of_nat n) in Hq by lia.
      specialize (IH (c + 1) m q ltac:(lia) ltac:(lia) Hm Hq). lia. }
  destruct (Hval c1 ltac:(lia)) as (p & Hp & Hpr).
  destruct (Hval c2 ltac:(lia)) as (q & Hq & Hqr).
  exists p, q. split; [exact Hp|]. split; [exact Hq|].
  assert (p <= q).
  { apply (Hmono (Z.to_nat (c2 - c1)) c1 p q); try lia; try exact Hp.
    replace (c1 + Z.of_nat (Z.to_nat (c2 - c1))) with c2 by lia. exact Hq. }
  repeat split; try lia; assumption.
Qed.

Lemma shown_percent_monotone_witness :
  exists p q,
    shown_percent 22 40 = Some p /\ shown_percent 23 40 = Some q
    /\ 0 <= p <= q /\ q <= 100.
Proof.
  destruct (shown_percent_monotone 22 23 40) as (p & q & Hp & Hq & Hpq & Hq100 & _);
    try lia.
  exists p, q. repeat split; try assumption; lia.
Defined.

(** X27.  A total of zero is not guarded.  With [total_steps = 0] the
    quotient is not a finite number, and the view has no integer to show
    (it prints [NaN%] or [Infinity%]), for every step from 0 to 200. *)
Theorem shown_percent_zero_total (c : Z) :
  0 <= c <= 200 -> shown_percent c 0 = None.
Proof.
  intros Hc. apply (zero_total_sound 200 c zero_total_below_200). lia.
Qed.

Lemma shown_percent_zero_total_witness : shown_percent 3 0 = None.
Proof. apply shown_percent_zero_total. lia. Defined.
End ProgressMoreFacts.
